(** * NotesApp (optimized-notes.js): a shallow embedding and its properties

    The class [NotesApp] keeps a list of editable notes inside one container
    element, and persists the container's [innerHTML] under the localStorage
    key ["notes"] through a debounced timer.  Everything the class talks to
    (localStorage, the timer queue, the DOM, [alert], [console]) is host
    state; the embedding threads that state through a small completion monad
    in which [try]/[catch] is explicit, and records every call made to the
    host in a time-stamped log. *)

From Stdlib Require Import Ascii String ZArith.
From stdpp Require Import gmap strings list fin_maps pretty.

Open Scope string_scope.
Open Scope list_scope.
Open Scope Z_scope.

(** ** Values thrown by the host *)

(** A thrown value, as far as the code looks at it: [error.name]. *)
Record JsError := { err_name : string; err_message : string }.

Definition TypeError (msg : string) : JsError :=
  {| err_name := "TypeError"; err_message := msg |}.

(** ** The persistence medium (window.localStorage) *)

(** [items] is the key/value content.  Each of the three operations the code
    uses may throw; whether it does is decided by the medium (private mode,
    quota, security policy), so it is part of the medium's state. *)
Record Medium := {
  items : gmap string string;
  set_fault : string → string → option JsError;
  get_fault : string → option JsError;
  remove_fault : string → option JsError
}.

Definition with_items (f : gmap string string → gmap string string)
    (m : Medium) : Medium :=
  {| items := f (items m); set_fault := set_fault m;
     get_fault := get_fault m; remove_fault := remove_fault m |}.

(** ** The DOM, as a heap of nodes *)

Abbreviation node_id := positive.

Inductive NodeKind := ElementNode | TextNode | FragmentNode.

Global Instance NodeKind_eq_dec : EqDecision NodeKind.
Proof. solve_decision. Defined.

Record Node := {
  kind : NodeKind;
  tagName : string;                      (* upper case, as the DOM reports it *)
  className : string;
  attributes : list (string * string);   (* contenteditable, data-note-id, src, alt, ... *)
  data : string;                         (* character data of a text node *)
  parentNode : option node_id;
  childNodes : list node_id
}.

Definition new_node (k : NodeKind) (tag : string) : Node :=
  {| kind := k; tagName := tag; className := ""; attributes := [];
     data := ""; parentNode := None; childNodes := [] |}.

Definition with_className (c : string) (n : Node) : Node :=
  {| kind := kind n; tagName := tagName n; className := c;
     attributes := attributes n; data := data n;
     parentNode := parentNode n; childNodes := childNodes n |}.

Definition with_attributes (a : list (string * string)) (n : Node) : Node :=
  {| kind := kind n; tagName := tagName n; className := className n;
     attributes := a; data := data n;
     parentNode := parentNode n; childNodes := childNodes n |}.

Definition with_parentNode (p : option node_id) (n : Node) : Node :=
  {| kind := kind n; tagName := tagName n; className := className n;
     attributes := attributes n; data := data n;
     parentNode := p; childNodes := childNodes n |}.

Definition with_childNodes (c : list node_id) (n : Node) : Node :=
  {| kind := kind n; tagName := tagName n; className := className n;
     attributes := attributes n; data := data n;
     parentNode := parentNode n; childNodes := c |}.

(** [setAttribute]: overwrite the first attribute of that name, or append. *)
Fixpoint attr_set (k v : string) (a : list (string * string)) : list (string * string) :=
  match a with
  | [] => [(k, v)]
  | (k', v') :: a' => if String.eqb k' k then (k, v) :: a' else (k', v') :: attr_set k v a'
  end.

Fixpoint attr_get (k : string) (a : list (string * string)) : option string :=
  match a with
  | [] => None
  | (k', v') :: a' => if String.eqb k' k then Some v' else attr_get k a'
  end.

(** [classList]: the tokens of [className], split at ASCII whitespace. *)
Definition is_ascii_whitespace (c : ascii) : bool :=
  match c with
  | "009" | "010" | "012" | "013" | " " => true
  | _ => false
  end%char.

Fixpoint class_tokens_go (cur : string) (s : string) : list string :=
  match s with
  | EmptyString => if String.eqb cur "" then [] else [String.rev cur]
  | String c s' =>
      if is_ascii_whitespace c
      then (if String.eqb cur "" then [] else [String.rev cur]) ++ class_tokens_go "" s'
      else class_tokens_go (String c cur) s'
  end.

Definition classList (n : Node) : list string := class_tokens_go "" (className n).

Definition classList_contains (n : Node) (token : string) : bool :=
  existsb (String.eqb token) (classList n).

(** [createElement] upper-cases the local name of an HTML element. *)
Definition ascii_upper (c : ascii) : ascii :=
  let n := nat_of_ascii c in
  if (Nat.leb 97 n && Nat.leb n 122)%bool then ascii_of_nat (n - 32) else c.

Fixpoint string_upper (s : string) : string :=
  match s with
  | EmptyString => EmptyString
  | String c s' => String (ascii_upper c) (string_upper s')
  end.

(** ** Timers *)

(** The two closures the code hands to [setTimeout]. *)
Inductive Callback :=
  | SaveCb    (* the arrow function of updateStorage, lines 65-75 *)
  | PasteCb.  (* the arrow function of the paste listener, lines 140-142 *)

Global Instance Callback_eq_dec : EqDecision Callback.
Proof. solve_decision. Defined.

(** Timer handles are integers greater than zero, hence always truthy. *)
Record Timer := { t_handle : positive; t_due : Z; t_cb : Callback }.

Global Instance Timer_eq_dec : EqDecision Timer.
Proof. solve_decision. Defined.

(** ** The log of calls made to the host *)

Inductive Effect :=
  | E_setItem (k v : string)
  | E_getItem (k : string)
  | E_removeItem (k : string)
  | E_setTimeout (h : positive) (cb : Callback) (delay : Z)
  | E_clearTimeout (h : positive)
  | E_alert (msg : string)
  | E_console_error (msg : string) (e : option JsError)
  | E_console_warn (msg : string)
  | E_preventDefault
  | E_focus (n : node_id)
  | E_innerHTML_set (html : string)
  | E_uncaught (e : JsError).

(** ** The whole state: host, then the fields of [this] *)

Record State := {
  clock : Z;                          (* Date.now(), in milliseconds *)
  timers : list Timer;                (* pending timers, oldest first *)
  next_handle : positive;
  localStorage : Medium;
  nodes : gmap node_id Node;
  next_node : node_id;
  activeElement : option node_id;
  defaultPrevented : bool;            (* of the event being dispatched *)
  log : list (Z * Effect);            (* oldest first *)
  notesContainer : option node_id;    (* this.notesContainer; null when not found *)
  createBtn : option node_id;         (* this.createBtn *)
  debounceTimer : option positive;    (* this.debounceTimer; null or a handle *)
  listening : bool                    (* attachEventListeners has run *)
}.

(** this.debounceDelay: set to 300 by the constructor and never written again. *)
Definition debounceDelay : Z := 300.

Definition with_clock (c : Z) (s : State) : State :=
  {| clock := c; timers := timers s; next_handle := next_handle s;
     localStorage := localStorage s; nodes := nodes s; next_node := next_node s;
     activeElement := activeElement s; defaultPrevented := defaultPrevented s;
     log := log s; notesContainer := notesContainer s; createBtn := createBtn s;
     debounceTimer := debounceTimer s; listening := listening s |}.

Definition with_timers (t : list Timer) (h : positive) (s : State) : State :=
  {| clock := clock s; timers := t; next_handle := h;
     localStorage := localStorage s; nodes := nodes s; next_node := next_node s;
     activeElement := activeElement s; defaultPrevented := defaultPrevented s;
     log := log s; notesContainer := notesContainer s; createBtn := createBtn s;
     debounceTimer := debounceTimer s; listening := listening s |}.

Definition with_localStorage (m : Medium) (s : State) : State :=
  {| clock := clock s; timers := timers s; next_handle := next_handle s;
     localStorage := m; nodes := nodes s; next_node := next_node s;
     activeElement := activeElement s; defaultPrevented := defaultPrevented s;
     log := log s; notesContainer := notesContainer s; createBtn := createBtn s;
     debounceTimer := debounceTimer s; listening := listening s |}.

Definition with_nodes (n : gmap node_id Node) (nx : node_id) (s : State) : State :=
  {| clock := clock s; timers := timers s; next_handle := next_handle s;
     localStorage := localStorage s; nodes := n; next_node := nx;
     activeElement := activeElement s; defaultPrevented := defaultPrevented s;
     log := log s; notesContainer := notesContainer s; createBtn := createBtn s;
     debounceTimer := debounceTimer s; listening := listening s |}.

Definition with_activeElement (a : option node_id) (s : State) : State :=
  {| clock := clock s; timers := timers s; next_handle := next_handle s;
     localStorage := localStorage s; nodes := nodes s; next_node := next_node s;
     activeElement := a; defaultPrevented := defaultPrevented s;
     log := log s; notesContainer := notesContainer s; createBtn := createBtn s;
     debounceTimer := debounceTimer s; listening := listening s |}.

Definition with_defaultPrevented (b : bool) (s : State) : State :=
  {| clock := clock s; timers := timers s; next_handle := next_handle s;
     localStorage := localStorage s; nodes := nodes s; next_node := next_node s;
     activeElement := activeElement s; defaultPrevented := b;
     log := log s; notesContainer := notesContainer s; createBtn := createBtn s;
     debounceTimer := debounceTimer s; listening := listening s |}.

Definition with_log (l : list (Z * Effect)) (s : State) : State :=
  {| clock := clock s; timers := timers s; next_handle := next_handle s;
     localStorage := localStorage s; nodes := nodes s; next_node := next_node s;
     activeElement := activeElement s; defaultPrevented := defaultPrevented s;
     log := l; notesContainer := notesContainer s; createBtn := createBtn s;
     debounceTimer := debounceTimer s; listening := listening s |}.

Definition with_debounceTimer (t : option positive) (s : State) : State :=
  {| clock := clock s; timers := timers s; next_handle := next_handle s;
     localStorage := localStorage s; nodes := nodes s; next_node := next_node s;
     activeElement := activeElement s; defaultPrevented := defaultPrevented s;
     log := log s; notesContainer := notesContainer s; createBtn := createBtn s;
     debounceTimer := t; listening := listening s |}.

Definition with_listening (b : bool) (s : State) : State :=
  {| clock := clock s; timers := timers s; next_handle := next_handle s;
     localStorage := localStorage s; nodes := nodes s; next_node := next_node s;
     activeElement := activeElement s; defaultPrevented := defaultPrevented s;
     log := log s; notesContainer := notesContainer s; createBtn := createBtn s;
     debounceTimer := debounceTimer s; listening := b |}.

(** Append one call to the log, stamped with the current time. *)
Definition emit (e : Effect) (s : State) : State :=
  with_log (log s ++ [(clock s, e)]) s.

(** ** Completions: a statement either completes normally or throws *)

Inductive Completion (A : Type) :=
  | Normal (a : A) (s : State)
  | Throw (e : JsError) (s : State).
Arguments Normal {A} a s.
Arguments Throw {A} e s.

Definition Js (A : Type) : Type := State → Completion A.

Global Instance Js_ret : MRet Js := λ A a s, Normal a s.

Global Instance Js_bind : MBind Js := λ A B f m s,
  match m s with
  | Normal a s' => f a s'
  | Throw e s' => Throw e s'
  end.

Definition throw {A} (e : JsError) : Js A := λ s, Throw e s.

(** try { body } catch (e) { handler e } *)
Definition try_catch {A} (body : Js A) (handler : JsError → Js A) : Js A := λ s,
  match body s with
  | Normal a s' => Normal a s'
  | Throw e s' => handler e s'
  end.

Definition gets {A} (f : State → A) : Js A := λ s, Normal (f s) s.
Definition modify (f : State → State) : Js unit := λ s, Normal tt (f s).

Definition final_state {A} (c : Completion A) : State :=
  match c with Normal _ s => s | Throw _ s => s end.

Definition completes {A} (c : Completion A) : Prop :=
  match c with Normal _ _ => True | Throw _ _ => False end.

(** ** Host operations *)

Module Host.

(** *** localStorage *)

Definition setItem (k v : string) : Js unit := λ s,
  let s1 := emit (E_setItem k v) s in
  match set_fault (localStorage s1) k v with
  | Some e => Throw e s1
  | None => Normal tt (with_localStorage (with_items (insert k v) (localStorage s1)) s1)
  end.

(** [getItem] answers [null] (here [None]) for a key that is not set. *)
Definition getItem (k : string) : Js (option string) := λ s,
  let s1 := emit (E_getItem k) s in
  match get_fault (localStorage s1) k with
  | Some e => Throw e s1
  | None => Normal (items (localStorage s1) !! k) s1
  end.

Definition removeItem (k : string) : Js unit := λ s,
  let s1 := emit (E_removeItem k) s in
  match remove_fault (localStorage s1) k with
  | Some e => Throw e s1
  | None => Normal tt (with_localStorage (with_items (delete k) (localStorage s1)) s1)
  end.

(** *** Timers *)

(** The timer becomes due [delay] ms from now (a negative delay counts as 0). *)
Definition setTimeout (cb : Callback) (delay : Z) : Js positive := λ s,
  let h := next_handle s in
  let t := {| t_handle := h; t_due := clock s + Z.max 0 delay; t_cb := cb |} in
  Normal h (with_timers (timers s ++ [t]) (Pos.succ h) (emit (E_setTimeout h cb delay) s)).

(** Clearing a handle that is not pending (fired, cleared, unknown) does nothing. *)
Definition clearTimeout (h : positive) : Js unit := λ s,
  let s1 := emit (E_clearTimeout h) s in
  Normal tt (with_timers (filter (λ t, t_handle t ≠ h) (timers s1)) (next_handle s1) s1).

(** *** console, alert, Date *)

Definition console_error (msg : string) (e : option JsError) : Js unit :=
  modify (emit (E_console_error msg e)).
Definition console_warn (msg : string) : Js unit :=
  modify (emit (E_console_warn msg)).
Definition alert (msg : string) : Js unit := modify (emit (E_alert msg)).
Definition Date_now : Js Z := gets clock.

(** *** DOM *)

Global Instance Node_inhabited : Inhabited Node := populate (new_node TextNode "").

Definition alloc_node (nd : Node) : Js node_id := λ s,
  let id := next_node s in
  Normal id (with_nodes (<[id := nd]> (nodes s)) (Pos.succ id) s).

Definition createElement (localName : string) : Js node_id :=
  alloc_node (new_node ElementNode (string_upper localName)).

Definition createDocumentFragment : Js node_id :=
  alloc_node (new_node FragmentNode "").

Definition update_node (n : node_id) (f : Node → Node) : Js unit :=
  modify (λ s, with_nodes (alter f n (nodes s)) (next_node s) s).

Definition set_className (n : node_id) (c : string) : Js unit :=
  update_node n (with_className c).

Definition setAttribute (n : node_id) (k v : string) : Js unit :=
  update_node n (λ nd, with_attributes (attr_set k v (attributes nd)) nd).

(** The IDL properties the code assigns reflect content attributes. *)
Definition set_contentEditable (n : node_id) (v : string) : Js unit :=
  setAttribute n "contenteditable" v.
Definition set_src (n : node_id) (v : string) : Js unit := setAttribute n "src" v.
Definition set_alt (n : node_id) (v : string) : Js unit := setAttribute n "alt" v.

(** node.remove(): unlink the node from its parent, if it has one. *)
Definition dom_remove (n : node_id) (ns : gmap node_id Node) : gmap node_id Node :=
  match ns !! n ≫= parentNode with
  | None => ns
  | Some p =>
      alter (with_parentNode None) n
        (alter (λ pn, with_childNodes (filter (λ x, x ≠ n) (childNodes pn)) pn) p ns)
  end.

(** Insert one node as the last child: it leaves its old parent first. *)
Definition dom_append (parent child : node_id) (ns : gmap node_id Node)
    : gmap node_id Node :=
  alter (with_parentNode (Some parent)) child
    (alter (λ pn, with_childNodes (childNodes pn ++ [child]) pn) parent
       (dom_remove child ns)).

(** parent.appendChild(child): a DocumentFragment hands over its children,
    in order, and is left empty; any other node is inserted itself.  (The
    hierarchy checks of the DOM are left out: the code only inserts nodes it
    has just created.) *)
Definition dom_appendChild (parent child : node_id) (ns : gmap node_id Node)
    : gmap node_id Node :=
  match ns !! child with
  | Some nd =>
      match kind nd with
      | FragmentNode => foldl (λ acc k, dom_append parent k acc) ns (childNodes nd)
      | _ => dom_append parent child ns
      end
  | None => ns
  end.

Definition remove (n : node_id) : Js unit :=
  modify (λ s, with_nodes (dom_remove n (nodes s)) (next_node s) s).

Definition appendChild (parent child : node_id) : Js unit :=
  modify (λ s, with_nodes (dom_appendChild parent child (nodes s)) (next_node s) s).

(** node.parentElement: the parent, when it is an element; [null] otherwise. *)
Definition parentElement (n : node_id) : Js (option node_id) := λ s,
  Normal (p ← nodes s !! n ≫= parentNode;
          nd ← nodes s !! p;
          if decide (kind nd = ElementNode) then Some p else None) s.

Definition get_node (n : node_id) : Js Node := gets (λ s, nodes s !!! n).

(** element.focus(): the element is taken to be rendered and focusable, as a
    P with contenteditable is. *)
Definition focus (n : node_id) : Js unit :=
  modify (λ s, with_activeElement (Some n) (emit (E_focus n) s)).

Definition preventDefault : Js unit :=
  modify (λ s, with_defaultPrevented true (emit E_preventDefault s)).

End Host.

(** The browser's HTML serializer and parser, which [innerHTML] reads and
    writes through.  They belong to the rendering surface, not to the
    repository: the development is parametric in them. *)
Class HtmlCodec := {
  serialize_children : gmap node_id Node → node_id → string;
  parse_into : string → node_id → gmap node_id Node * node_id → gmap node_id Node * node_id
}.

(** ** The class NotesApp *)

(** The text of the notification on line 72. *)
Definition quota_message : string := "Storage quota exceeded. Please delete some notes.".

Module NotesApp.
Import Host.

Section methods.
Context `{HtmlCodec}.

(** Dereferencing [this.notesContainer] when it is [null] throws. *)
Definition this_notesContainer : Js node_id := λ s,
  match notesContainer s with
  | Some c => Normal c s
  | None => Throw (TypeError "Cannot read properties of null") s
  end.

(** this.notesContainer.innerHTML *)
Definition get_innerHTML : Js string :=
  c ← this_notesContainer;
  gets (λ s, serialize_children (nodes s) c).

(** this.notesContainer.innerHTML = html *)
Definition set_innerHTML (html : string) : Js unit :=
  c ← this_notesContainer;
  modify (λ s,
    let '(ns, nx) := parse_into html c (nodes s, next_node s) in
    with_nodes ns nx (emit (E_innerHTML_set html) s)).

(** Truthiness of the value [getItem] returned: null and "" are falsy. *)
Definition truthy (v : option string) : bool :=
  match v with
  | Some s => negb (String.eqb s "")
  | None => false
  end.

(** lines 32-41 *)
Definition isLocalStorageAvailable : Js bool :=
  try_catch
    (setItem "test" "test" ;;
     removeItem "test" ;;
     mret true)
    (λ e, mret false).

(** lines 44-53 *)
Definition loadNotes : Js unit :=
  try_catch
    (savedNotes ← getItem "notes";
     if truthy savedNotes
     then set_innerHTML (default "" savedNotes)
     else mret tt)
    (λ error, console_error "Error loading notes:" (Some error)).

(** lines 65-75: the callback handed to setTimeout by updateStorage *)
Definition save_callback : Js unit :=
  try_catch
    (html ← get_innerHTML;
     setItem "notes" html)
    (λ error,
       console_error "Error saving notes:" (Some error) ;;
       if String.eqb (err_name error) "QuotaExceededError"
       then alert quota_message
       else mret tt).

(** lines 56-76 *)
Definition updateStorage : Js unit :=
  available ← isLocalStorageAvailable;
  if negb available then mret tt else
  pending ← gets debounceTimer;
  match pending with
  | Some h => clearTimeout h
  | None => mret tt
  end ;;
  h ← setTimeout SaveCb debounceDelay;
  modify (with_debounceTimer (Some h)).

(** lines 79-107 *)
Definition createNote : Js unit :=
  fragment ← createDocumentFragment;
  inputBox ← createElement "p";
  deleteImg ← createElement "img";
  set_className inputBox "input-box" ;;
  set_contentEditable inputBox "true" ;;
  now ← Date_now;
  setAttribute inputBox "data-note-id" (pretty now) ;;
  set_src deleteImg "images/delete.png" ;;
  set_alt deleteImg "Delete note" ;;
  set_className deleteImg "delete-btn" ;;
  appendChild inputBox deleteImg ;;
  appendChild fragment inputBox ;;
  c ← this_notesContainer;
  appendChild c fragment ;;
  focus inputBox ;;
  updateStorage.

(** lines 110-118; [None] is a null or undefined argument *)
Definition deleteNote (noteElement : option node_id) : Js unit :=
  match noteElement with
  | None => mret tt
  | Some n => remove n ;; updateStorage
  end.

(** lines 147-155; [target] is e.target *)
Definition handleNotesClick (target : node_id) : Js unit :=
  t ← get_node target;
  if String.eqb (tagName t) "IMG" && classList_contains t "delete-btn"
  then preventDefault ;;
       p ← parentElement target;
       deleteNote p
  else mret tt.

(** lines 158-165 *)
Definition handleNotesInput (target : node_id) : Js unit :=
  t ← get_node target;
  if classList_contains t "input-box" then updateStorage else mret tt.

(** lines 138-143: the paste listener *)
Definition handleNotesPaste (target : node_id) : Js unit :=
  setTimeout PasteCb 0 ;; mret tt.

(** lines 121-144 *)
Definition attachEventListeners : Js unit := modify (with_listening true).

(** lines 16-29 *)
Definition init : Js unit :=
  c ← gets notesContainer;
  b ← gets createBtn;
  if negb (bool_decide (is_Some c)) || negb (bool_decide (is_Some b))
  then console_error "Required DOM elements not found" None
  else
    available ← isLocalStorageAvailable;
    (if negb available
     then console_warn "localStorage is not available. Notes will not persist."
     else mret tt) ;;
    loadNotes ;;
    attachEventListeners.

(** lines 168-175 *)
Definition destroy : Js unit :=
  pending ← gets debounceTimer;
  match pending with
  | Some h => clearTimeout h
  | None => mret tt
  end.

(** lines 7-14; the two arguments are what document.querySelector found *)
Definition constructor (container btn : option node_id) : Js unit :=
  modify (λ s,
    {| clock := clock s; timers := timers s; next_handle := next_handle s;
       localStorage := localStorage s; nodes := nodes s; next_node := next_node s;
       activeElement := activeElement s; defaultPrevented := defaultPrevented s;
       log := log s; notesContainer := container; createBtn := btn;
       debounceTimer := None; listening := false |}) ;;
  init.

(** What the host runs when a timer fires. *)
Definition run_callback (cb : Callback) : Js unit :=
  match cb with
  | SaveCb => save_callback
  | PasteCb => updateStorage
  end.

End methods.
End NotesApp.

(** ** The host's event loop

    One event is one task: the host runs it to completion before the next.
    An exception that escapes a listener or a timer callback is reported by
    the host and the loop goes on. *)

Module Loop.
Import Host NotesApp.

Inductive Event :=
  | Ev_advance (dt : Z)                (* time passes *)
  | Ev_timer (h : positive)            (* the host runs the pending timer [h] *)
  | Ev_updateStorage                   (* a direct call of updateStorage *)
  | Ev_create                          (* click on the create button *)
  | Ev_click (target : node_id)        (* click bubbled to the container *)
  | Ev_input (target : node_id)        (* input bubbled to the container *)
  | Ev_paste (target : node_id) (after : gmap node_id Node * node_id)
                                       (* paste; [after] is the DOM once the
                                          default insertion is done *)
  | Ev_edit (after : gmap node_id Node * node_id)
                                       (* the user edits the tree in place *)
  | Ev_medium (m : Medium).            (* the medium changes under the page *)

Definition settle (c : Completion unit) : State :=
  match c with
  | Normal _ s => s
  | Throw e s => emit (E_uncaught e) s
  end.

(** [n] is the container [c] or lies below it ([fuel] bounds the climb). *)
Fixpoint inside (fuel : nat) (ns : gmap node_id Node) (c n : node_id) : bool :=
  match fuel with
  | O => false
  | S fuel' =>
      bool_decide (n = c) ||
      match ns !! n ≫= parentNode with
      | Some p => inside fuel' ns c p
      | None => false
      end
  end.

(** An event reaches the container's listeners when they are attached and
    the target is an element in the container's subtree. *)
Definition bubbles (s : State) (target : node_id) : bool :=
  listening s &&
  match notesContainer s, nodes s !! target with
  | Some c, Some nd =>
      bool_decide (kind nd = ElementNode) && inside (S (size (nodes s))) (nodes s) c target
  | _, _ => false
  end.

Section loop.
Context `{HtmlCodec}.

Definition dispatch (listener : Js unit) (s : State) : State :=
  settle (listener (with_defaultPrevented false s)).

Definition step (s : State) (ev : Event) : option State :=
  match ev with
  | Ev_advance dt =>
      if decide (0 ≤ dt) then Some (with_clock (clock s + dt) s) else None
  | Ev_timer h =>
      match list_find (λ t, t_handle t = h) (timers s) with
      | Some (_, t) =>
          if decide (t_due t ≤ clock s)
          then Some (settle (run_callback (t_cb t)
                 (with_timers (filter (λ t', t_handle t' ≠ h) (timers s)) (next_handle s) s)))
          else None
      | None => None
      end
  | Ev_updateStorage => Some (settle (updateStorage s))
  | Ev_create =>
      if listening s then Some (dispatch createNote s) else None
  | Ev_click target =>
      if bubbles s target then Some (dispatch (handleNotesClick target) s) else None
  | Ev_input target =>
      if bubbles s target then Some (dispatch (handleNotesInput target) s) else None
  | Ev_paste target after =>
      if bubbles s target
      then let s1 := dispatch (handleNotesPaste target) s in
           Some (if defaultPrevented s1 then s1 else with_nodes after.1 after.2 s1)
      else None
  | Ev_edit after => Some (with_nodes after.1 after.2 s)
  | Ev_medium m => Some (with_localStorage m s)
  end.

Fixpoint run (s : State) (evs : list Event) : option State :=
  match evs with
  | [] => Some s
  | ev :: evs' =>
      match step s ev with
      | Some s' => run s' evs'
      | None => None
      end
  end.

End loop.
End Loop.

(** ** Observations on the log and on the state *)

Definition snapshot_key : string := "notes".

(** The calls [localStorage.setItem("notes", _)], with their times. *)
Definition is_save (e : Z * Effect) : bool :=
  match e.2 with
  | E_setItem k _ => String.eqb k snapshot_key
  | _ => false
  end.

Definition saves (l : list (Z * Effect)) : list (Z * Effect) :=
  filter (λ e, is_save e = true) l.

(** Any get or set on the snapshot key. *)
Definition touches_snapshot (e : Z * Effect) : bool :=
  match e.2 with
  | E_setItem k _ | E_getItem k | E_removeItem k => String.eqb k snapshot_key
  | _ => false
  end.

Definition is_alert (e : Z * Effect) : bool :=
  match e.2 with E_alert _ => true | _ => false end.

Definition is_console_error (e : Z * Effect) : bool :=
  match e.2 with E_console_error _ _ => true | _ => false end.

Definition pending_saves (s : State) : list Timer :=
  filter (λ t, t_cb t = SaveCb) (timers s).

(** What the availability probe will answer on this medium. *)
Definition probe_ok (m : Medium) : bool :=
  match set_fault m "test" "test", remove_fault m "test" with
  | None, None => true
  | _, _ => false
  end.

(** The Document Tree: the children of the container, in order. *)
Definition document_tree (s : State) : list node_id :=
  match notesContainer s with
  | Some c => childNodes (nodes s !!! c)
  | None => []
  end.

(** The timer discipline: handles are fresh and distinct, and the only save
    timer that can be pending is the one [this.debounceTimer] names. *)
Record slot_wf (ts : list Timer) (next : positive) (slot : option positive) : Prop := {
  wf_nodup : NoDup (t_handle <$> ts);
  wf_fresh : Forall (λ t, (t_handle t < next)%positive) ts;
  wf_slot : Forall (λ t, t_cb t = SaveCb → slot = Some (t_handle t)) ts;
  wf_handle : ∀ h, slot = Some h → (h < next)%positive
}.

Definition timers_wf (s : State) : Prop :=
  slot_wf (timers s) (next_handle s) (debounceTimer s).

(** The log entries [s'] has beyond those of [s]. *)
Definition new_log (s s' : State) : list (Z * Effect) := drop (length (log s)) (log s').

(** What a run of loadNotes hands to the container: the string it assigned to
    [innerHTML], or nothing ([None]: the snapshot is absent for the page). *)
Definition assigned_html (e : Z * Effect) : option string :=
  match e.2 with
  | E_innerHTML_set html => Some html
  | _ => None
  end.

Definition loaded `{HtmlCodec} (s : State) : option string :=
  last (omap assigned_html (new_log s (final_state (NotesApp.loadNotes s)))).

(** The state with the snapshot key removed from the medium. *)
Definition forget_snapshot (s : State) : State :=
  with_localStorage (with_items (delete snapshot_key) (localStorage s)) s.

(** The state the availability probe leaves behind (lines 33-40): only the
    medium's ["test"] key and the log can differ. *)
Definition probed (s : State) : State :=
  final_state (NotesApp.isLocalStorageAvailable s).

(** The state lines 59-75 of updateStorage leave behind: the pending handle
    cleared, a new save timer armed and stored in [this.debounceTimer]. *)
Definition rearm (s : State) : State :=
  let s1 := match debounceTimer s with
            | Some h => final_state (Host.clearTimeout h s)
            | None => s
            end in
  with_debounceTimer (Some (next_handle s1))
    (final_state (Host.setTimeout SaveCb debounceDelay s1)).

(** The state with the pending timer [h] taken out of the queue. *)
Definition without (h : positive) (s : State) : State :=
  with_timers (filter (λ t', t_handle t' ≠ h) (timers s)) (next_handle s) s.

(** The timer a request made in state [s] arms. *)
Definition save_timer (s : State) : Timer :=
  {| t_handle := next_handle s; t_due := clock s + debounceDelay; t_cb := SaveCb |}.

(** What the catch block of the save callback (lines 68-74) logs at time [t]
    for the thrown value [e]. *)
Definition failure_log (t : Z) (e : JsError) : list (Z * Effect) :=
  (t, E_console_error "Error saving notes:" (Some e)) ::
  if String.eqb (err_name e) "QuotaExceededError" then [(t, E_alert quota_message)] else [].

(** The requests the log records: every call of updateStorage that got past
    the probe arms a save timer. *)
Definition is_request (e : Z * Effect) : bool :=
  match e.2 with
  | E_setTimeout _ SaveCb _ => true
  | _ => false
  end.

(** The time of the latest request. *)
Definition last_request (l : list (Z * Effect)) : option Z :=
  fst <$> last (filter (λ e, is_request e = true) l).

(** What may happen while a burst lasts: further requests, time passing, and
    whatever the host decides to fire -- as long as the time elapsed since
    the latest explicit request stays below the quiet interval.  [elapsed] is
    the time since the latest request so far. *)
Fixpoint in_burst (elapsed : Z) (tr : list Loop.Event) : bool :=
  match tr with
  | [] => true
  | Loop.Ev_updateStorage :: tr' => in_burst 0 tr'
  | Loop.Ev_advance d :: tr' =>
      bool_decide (elapsed + d < debounceDelay) && in_burst (elapsed + d) tr'
  | Loop.Ev_timer _ :: tr' => in_burst elapsed tr'
  | _ => false
  end.

(** A burst of requests: one call of updateStorage, then one more after each gap. *)
Fixpoint burst (gaps : list Z) : list Loop.Event :=
  match gaps with
  | [] => [Loop.Ev_updateStorage]
  | d :: gaps' => Loop.Ev_updateStorage :: Loop.Ev_advance d :: burst gaps'
  end.

Definition is_delete_control (n : Node) : bool :=
  String.eqb (tagName n) "IMG" && classList_contains n "delete-btn".

(** The two nodes createNote builds (lines 83-96): the editable surface and
    its delete control. *)
Definition note_surface (now : Z) (parent : option node_id) (kids : list node_id) : Node :=
  {| kind := ElementNode; tagName := "P"; className := "input-box";
     attributes := [("contenteditable", "true"); ("data-note-id", pretty now)];
     data := ""; parentNode := parent; childNodes := kids |}.

Definition delete_control (parent : option node_id) : Node :=
  {| kind := ElementNode; tagName := "IMG"; className := "delete-btn";
     attributes := [("src", "images/delete.png"); ("alt", "Delete note")];
     data := ""; parentNode := parent; childNodes := [] |}.

(** The state createNote reaches just before its call of updateStorage, when
    the container [c] has the record [cn]: three nodes allocated (fragment,
    surface, control), the surface appended to the container and focused. *)
Definition note_created (s : State) (c : node_id) (cn : Node) : State :=
  let f := next_node s in
  let p := Pos.succ f in
  let img := Pos.succ p in
  with_activeElement (Some p)
    (emit (E_focus p)
       (with_nodes
          (<[img := delete_control (Some p)]>
             (<[p := note_surface (clock s) (Some c) [img]]>
                (<[f := new_node FragmentNode ""]>
                   (<[c := with_childNodes (childNodes cn ++ [p]) cn]> (nodes s)))))
          (Pos.succ img) s)).

(** The state handleNotesClick reaches just before deleteNote's call of
    updateStorage: default action suppressed, the element [p] unlinked. *)
Definition note_removed (s : State) (p : node_id) : State :=
  with_nodes (Host.dom_remove p (nodes s)) (next_node s)
    (with_defaultPrevented true (emit E_preventDefault s)).

(** Heap discipline: node ids from [next_node] on are unused. *)
Definition nodes_fresh (s : State) : Prop :=
  ∀ i, (next_node s ≤ i)%positive → nodes s !! i = None.

(** The identifier createNote gave an Item. *)
Definition note_id (s : State) (item : node_id) : option string :=
  nd ← nodes s !! item; attr_get "data-note-id" (attributes nd).

(** ** Three sentences of the specification, worded as it words them *)

Section as_stated.
Context `{HtmlCodec}.
Import NotesApp.

(** Availability gating: with the probe answering "unavailable", neither
    updateStorage nor loadNotes makes a call on the snapshot key, neither
    throws, updateStorage schedules nothing and loadNotes finds the
    snapshot absent. *)
Definition gating_as_stated : Prop :=
  ∀ s, probe_ok (localStorage s) = false →
    completes (updateStorage s) ∧
    timers (final_state (updateStorage s)) = timers s ∧
    Forall (λ e, touches_snapshot e = false) (new_log s (final_state (updateStorage s))) ∧
    completes (loadNotes s) ∧
    loaded s = None ∧
    Forall (λ e, touches_snapshot e = false) (new_log s (final_state (loadNotes s))).

(** The Item a node belongs to: the child of the container whose subtree
    holds the node. *)
Definition enclosing_item (s : State) (n : node_id) : option node_id :=
  snd <$> list_find (λ item, Loop.inside (S (size (nodes s))) (nodes s) item n = true)
                    (document_tree s).

(** Routing of clicks: a click on an IMG of class delete-btn removes exactly
    the Item that encloses it, suppresses the default action and requests a
    save; any other click changes nothing. *)
Definition routing_as_stated : Prop :=
  ∀ s target,
    if is_delete_control (nodes s !!! target)
    then ∀ item, enclosing_item s target = Some item →
           let s' := final_state (handleNotesClick target s) in
           document_tree s' = filter (λ x, x ≠ item) (document_tree s) ∧
           defaultPrevented s' = true
    else handleNotesClick target s = Normal tt s.

(** Round trip: once the snapshot [snapshot] has been saved successfully,
    and the stored key has not been changed since, loadNotes hands exactly
    [snapshot] to the container. *)
Definition round_trip_as_stated : Prop :=
  ∀ s c s' c' snapshot,
    notesContainer s = Some c → serialize_children (nodes s) c = snapshot →
    set_fault (localStorage s) snapshot_key snapshot = None →
    items (localStorage s') !! snapshot_key =
      items (localStorage (final_state (save_callback s))) !! snapshot_key →
    get_fault (localStorage s') snapshot_key = None →
    notesContainer s' = Some c' →
    loaded s' = Some snapshot.

End as_stated.

(** ** Watching a log: the debounce discipline as a property of a run *)

Definition is_console_warn (e : Z * Effect) : bool :=
  match e.2 with E_console_warn _ => true | _ => false end.

(** An entry that is neither a request nor a write of the snapshot. *)
Definition quiet (e : Z * Effect) : Prop := is_save e = false ∧ is_request e = false.

(** Reading a log from its start: the time of the latest request, whether
    that request is still waiting for its write, and whether every write so
    far came at least the quiet interval after the request it serves, one
    write per request. *)
Record Watch := { w_last : option Z; w_armed : bool; w_ok : bool }.

Definition watch_step (w : Watch) (e : Z * Effect) : Watch :=
  if is_request e
  then {| w_last := Some e.1; w_armed := true; w_ok := w_ok w |}
  else if is_save e
  then {| w_last := w_last w; w_armed := false;
          w_ok := w_ok w && w_armed w &&
                  match w_last w with
                  | Some r => bool_decide (r + debounceDelay ≤ e.1)
                  | None => false
                  end |}
  else w.

Definition watch (l : list (Z * Effect)) : Watch :=
  foldl watch_step {| w_last := None; w_armed := false; w_ok := true |} l.

(** The invariant of the event loop: the timer discipline, a log that is in
    order, and every pending save timer armed by the latest request. *)
Definition debounce_inv (s : State) : Prop :=
  timers_wf s ∧ w_ok (watch (log s)) = true ∧
  ∀ t, t ∈ pending_saves s →
       w_armed (watch (log s)) = true ∧
       w_last (watch (log s)) = Some (t_due t - debounceDelay).

(** The state right after a paste event has been dispatched on [s]: the
    zero-delay callback queued, the default insertion done. *)
Definition paste_timer (s : State) : Timer :=
  {| t_handle := next_handle s; t_due := clock s; t_cb := PasteCb |}.

Definition pasted (s : State) (after : gmap node_id Node * node_id) : State :=
  with_nodes after.1 after.2
    (with_timers (timers s ++ [paste_timer s]) (Pos.succ (next_handle s))
       (emit (E_setTimeout (next_handle s) PasteCb 0) (with_defaultPrevented false s))).

(** The events by which the medium changes from outside the application. *)
Definition is_medium_change (ev : Loop.Event) : bool :=
  match ev with Loop.Ev_medium _ => true | _ => false end.

(** Two media hold the same value under every key other than the probe's
    ["test"] and the snapshot key, and fail in the same way. *)
Definition same_foreign_keys (m m' : Medium) : Prop :=
  (∀ k, k ≠ "test" → k ≠ snapshot_key → items m' !! k = items m !! k) ∧
  set_fault m' = set_fault m ∧ get_fault m' = get_fault m ∧
  remove_fault m' = remove_fault m.

(** A state in which nothing is on its way to the medium: the probe fails,
    no save timer is pending, and the log holds neither a request nor a write
    of the snapshot. *)
Definition dormant (s : State) : Prop :=
  probe_ok (localStorage s) = false ∧ pending_saves s = [] ∧ Forall quiet (log s).

(** ** A concrete page, for the examples

    A stand-in codec (text nodes print their data, elements print as
    <TAG>...</TAG>; assigning innerHTML installs one text node holding the
    string) and a small page: a DIV container and a BUTTON. *)

Module Demo.

Fixpoint render (fuel : nat) (ns : gmap node_id Node) (n : node_id) : string :=
  match fuel with
  | O => ""
  | S fuel' =>
      match ns !! n with
      | None => ""
      | Some nd =>
          match kind nd with
          | TextNode => data nd
          | _ => "<" +:+ tagName nd +:+ ">"
                 +:+ String.concat "" (map (render fuel' ns) (childNodes nd))
                 +:+ "</" +:+ tagName nd +:+ ">"
          end
      end
  end.

Definition text_node (d : string) (parent : node_id) : Node :=
  {| kind := TextNode; tagName := ""; className := ""; attributes := [];
     data := d; parentNode := Some parent; childNodes := [] |}.

Global Instance codec : HtmlCodec := {|
  serialize_children ns c :=
    String.concat "" (map (render 8 ns) (childNodes (ns !!! c)));
  parse_into html c d :=
    let orphaned := foldr (λ k, alter (with_parentNode None) k) d.1
                          (childNodes (d.1 !!! c)) in
    if String.eqb html ""
    then (alter (with_childNodes []) c orphaned, d.2)
    else (<[d.2 := text_node html c]> (alter (with_childNodes [d.2]) c orphaned),
          Pos.succ d.2)
|}.

Definition element (tag cls : string) (parent : option node_id)
    (kids : list node_id) : Node :=
  {| kind := ElementNode; tagName := tag; className := cls; attributes := [];
     data := ""; parentNode := parent; childNodes := kids |}.

(** A medium that works. *)
Definition medium (content : gmap string string) : Medium :=
  {| items := content; set_fault := λ _ _, None;
     get_fault := λ _, None; remove_fault := λ _, None |}.

Definition QuotaExceededError : JsError :=
  {| err_name := "QuotaExceededError"; err_message := "The quota has been exceeded." |}.

Definition SecurityError : JsError :=
  {| err_name := "SecurityError"; err_message := "The operation is insecure." |}.

(** A medium that is full: every write is refused, reads still work. *)
Definition full_medium (content : gmap string string) : Medium :=
  {| items := content; set_fault := λ _ _, Some QuotaExceededError;
     get_fault := λ _, None; remove_fault := λ _, None |}.

(** A medium that refuses writes for another reason. *)
Definition broken_medium (content : gmap string string) : Medium :=
  {| items := content; set_fault := λ _ _, Some SecurityError;
     get_fault := λ _, None; remove_fault := λ _, None |}.

(** The page before the script runs: node 1 is the container, node 2 the button. *)
Definition page (m : Medium) : State :=
  {| clock := 1700000000000; timers := []; next_handle := 1%positive;
     localStorage := m;
     nodes := {[ 1%positive := element "DIV" "notes-container" None [];
                 2%positive := element "BUTTON" "btn" None [] ]};
     next_node := 3%positive;
     activeElement := None; defaultPrevented := false; log := [];
     notesContainer := None; createBtn := None; debounceTimer := None;
     listening := false |}.

(** The state once [new NotesApp()] has run on that page. *)
Definition started (m : Medium) : State :=
  final_state (NotesApp.constructor (Some 1%positive) (Some 2%positive) (page m)).

(** A page whose only note holds its delete control inside a SPAN:
    container 1 > P.input-box 3 > SPAN 4 > IMG.delete-btn 5. *)
Definition nested (m : Medium) : State :=
  with_nodes
    {[ 1%positive := element "DIV" "notes-container" None [3%positive];
       2%positive := element "BUTTON" "btn" None [];
       3%positive := element "P" "input-box" (Some 1%positive) [4%positive];
       4%positive := element "SPAN" "" (Some 3%positive) [5%positive];
       5%positive := element "IMG" "delete-btn" (Some 4%positive) [] ]}
    6%positive (started m).

(** A page with one note as createNote builds it:
    container 1 > P.input-box 3 > IMG.delete-btn 4. *)
Definition one_note (m : Medium) : State :=
  with_nodes
    {[ 1%positive := element "DIV" "notes-container" None [3%positive];
       2%positive := element "BUTTON" "btn" None [];
       3%positive := element "P" "input-box" (Some 1%positive) [4%positive];
       4%positive := element "IMG" "delete-btn" (Some 3%positive) [] ]}
    5%positive (started m).

(** A burst of three requests, 100 ms and 299 ms apart. *)
Definition three_requests : list Loop.Event :=
  [Loop.Ev_advance 100; Loop.Ev_updateStorage; Loop.Ev_advance 299; Loop.Ev_updateStorage].

Definition after_burst : State :=
  default (started (medium ∅))
    (Loop.run (started (medium ∅)) (Loop.Ev_updateStorage :: three_requests)).

(** A page on whose medium the user keeps data of their own under the key
    "test", before the script runs. *)
Definition with_user_data : State :=
  page (medium {[ "test" := "my data"; "prefs" := "dark" ]}).

(** A medium on which nothing can be removed. *)
Definition sticky_medium (content : gmap string string) : Medium :=
  {| items := content; set_fault := λ _ _, None;
     get_fault := λ _, None; remove_fault := λ _, Some SecurityError |}.


(** The tree once the user has typed "hello" into the container. *)
Definition typed : gmap node_id Node * node_id :=
  ({[ 1%positive := element "DIV" "notes-container" None [3%positive];
      2%positive := element "BUTTON" "btn" None [];
      3%positive := text_node "hello" 1%positive ]}, 4%positive).

(** The tree once the user has typed "hello" into the one note of [one_note]:
    container 1 > P.input-box 3 > text 5, IMG.delete-btn 4. *)
Definition note_edited : gmap node_id Node * node_id :=
  ({[ 1%positive := element "DIV" "notes-container" None [3%positive];
      2%positive := element "BUTTON" "btn" None [];
      3%positive := element "P" "input-box" (Some 1%positive) [5%positive; 4%positive];
      4%positive := element "IMG" "delete-btn" (Some 3%positive) [];
      5%positive := text_node "hello" 3%positive ]}, 6%positive).

(** One note created and, once the quiet interval has passed, saved. *)
Definition create_and_save : list Loop.Event :=
  [Loop.Ev_create; Loop.Ev_advance 300; Loop.Ev_timer 1%positive].

End Demo.

(** * Properties *)

Import Host NotesApp Loop.

Ltac js_unfold :=
  unfold updateStorage, isLocalStorageAvailable, loadNotes, save_callback,
    get_innerHTML, set_innerHTML, this_notesContainer,
    setItem, getItem, removeItem, setTimeout, clearTimeout,
    console_error, console_warn, alert, Date_now,
    try_catch, throw, gets, modify, mbind, Js_bind, mret, Js_ret in *.

(** ** The availability probe *)

Lemma isLocalStorageAvailable_eq (s : State) :
  isLocalStorageAvailable s = Normal (probe_ok (localStorage s)) (probed s).
Proof.
  unfold probed, probe_ok. js_unfold. cbn.
  destruct (set_fault (localStorage s) "test" "test"); cbn; [done|].
  destruct (remove_fault (localStorage s) "test"); done.
Qed.

Ltac probed_cases s :=
  unfold probed; js_unfold; cbn;
  destruct (set_fault (localStorage s) "test" "test"); cbn;
  [|destruct (remove_fault (localStorage s) "test"); cbn].

(** The probe leaves everything but the medium's content and the log alone. *)
Lemma probed_frame (s : State) :
  clock (probed s) = clock s ∧ timers (probed s) = timers s ∧
  next_handle (probed s) = next_handle s ∧ nodes (probed s) = nodes s ∧
  next_node (probed s) = next_node s ∧ activeElement (probed s) = activeElement s ∧
  defaultPrevented (probed s) = defaultPrevented s ∧
  notesContainer (probed s) = notesContainer s ∧ createBtn (probed s) = createBtn s ∧
  debounceTimer (probed s) = debounceTimer s ∧ listening (probed s) = listening s.
Proof. probed_cases s; repeat split. Qed.

Lemma probed_medium (s : State) :
  set_fault (localStorage (probed s)) = set_fault (localStorage s) ∧
  get_fault (localStorage (probed s)) = get_fault (localStorage s) ∧
  remove_fault (localStorage (probed s)) = remove_fault (localStorage s) ∧
  items (localStorage (probed s)) !! snapshot_key = items (localStorage s) !! snapshot_key.
Proof.
  probed_cases s; repeat split; try done.
  - by rewrite lookup_insert_ne.
  - by rewrite lookup_delete_ne, lookup_insert_ne.
Qed.

Lemma probed_probe_ok (s : State) :
  probe_ok (localStorage (probed s)) = probe_ok (localStorage s).
Proof.
  unfold probe_ok. destruct (probed_medium s) as (-> & _ & -> & _). done.
Qed.

(** What the probe writes to the log: calls on the ["test"] key only. *)
Lemma probed_log (s : State) :
  ∃ l, log (probed s) = log s ++ l ∧
       Forall (λ e, e.1 = clock s ∧
                    (e.2 = E_setItem "test" "test" ∨ e.2 = E_removeItem "test")) l.
Proof.
  probed_cases s.
  - exists [(clock s, E_setItem "test" "test")]. split; [done|].
    repeat apply Forall_cons; try apply Forall_nil; cbn; auto.
  - exists [(clock s, E_setItem "test" "test"); (clock s, E_removeItem "test")].
    split; [by rewrite <- app_assoc|].
    repeat apply Forall_cons; try apply Forall_nil; cbn; auto.
  - exists [(clock s, E_setItem "test" "test"); (clock s, E_removeItem "test")].
    split; [by rewrite <- app_assoc|].
    repeat apply Forall_cons; try apply Forall_nil; cbn; auto.
Qed.

Lemma new_log_app (s s' : State) (l : list (Z * Effect)) :
  log s' = log s ++ l → new_log s s' = l.
Proof. intros Hl. unfold new_log. rewrite Hl. by rewrite drop_app_length. Qed.

Lemma filter_none {A} (P : A → Prop) `{∀ x, Decision (P x)} (l : list A) :
  Forall (λ x, ¬ P x) l → filter P l = [].
Proof.
  induction 1 as [|x l Hx _ IH]; [done|].
  by rewrite filter_cons_False.
Qed.

Lemma filter_comm {A} (P Q : A → Prop) `{∀ x, Decision (P x), ∀ x, Decision (Q x)}
    (l : list A) :
  filter P (filter Q l) = filter Q (filter P l).
Proof. rewrite !list_filter_filter. apply list_filter_iff. tauto. Qed.

(** ** updateStorage, as an equation *)

Lemma updateStorage_eq (s : State) :
  updateStorage s =
  Normal tt (if probe_ok (localStorage s) then rearm (probed s) else probed s).
Proof.
  unfold updateStorage, mbind, Js_bind. rewrite isLocalStorageAvailable_eq.
  destruct (probe_ok (localStorage s)); cbn; [|done].
  unfold rearm, gets. destruct (debounceTimer (probed s)); done.
Qed.

Lemma rearm_frame (s : State) :
  clock (rearm s) = clock s ∧ localStorage (rearm s) = localStorage s ∧
  nodes (rearm s) = nodes s ∧ next_node (rearm s) = next_node s ∧
  activeElement (rearm s) = activeElement s ∧
  defaultPrevented (rearm s) = defaultPrevented s ∧
  notesContainer (rearm s) = notesContainer s ∧ createBtn (rearm s) = createBtn s ∧
  listening (rearm s) = listening s ∧
  debounceTimer (rearm s) = Some (next_handle s) ∧
  next_handle (rearm s) = Pos.succ (next_handle s).
Proof. unfold rearm. destruct (debounceTimer s); cbn; repeat split. Qed.

Lemma rearm_timers (s : State) :
  timers (rearm s) =
  match debounceTimer s with
  | Some h => filter (λ t, t_handle t ≠ h) (timers s)
  | None => timers s
  end ++ [save_timer s].
Proof. unfold rearm, save_timer. destruct (debounceTimer s); done. Qed.

Lemma rearm_log (s : State) :
  log (rearm s) =
  log s ++ match debounceTimer s with
           | Some h => [(clock s, E_clearTimeout h)]
           | None => []
           end ++ [(clock s, E_setTimeout (next_handle s) SaveCb debounceDelay)].
Proof.
  unfold rearm. destruct (debounceTimer s); cbn; [|done].
  by rewrite <- app_assoc.
Qed.

(** Once re-armed, the one pending save timer is the new one. *)
Lemma rearm_pending (s : State) :
  timers_wf s → pending_saves (rearm s) = [save_timer s].
Proof.
  intros Hwf. unfold pending_saves. rewrite rearm_timers, filter_app.
  replace (filter _ [save_timer s]) with [save_timer s] by done.
  rewrite filter_none; [done|].
  pose proof (wf_slot _ _ _ Hwf) as Hslot.
  destruct (debounceTimer s) as [h|] eqn:Hd.
  - apply Forall_forall. intros t Ht%list_elem_of_filter Hcb.
    destruct Ht as [Hne Ht].
    rewrite Forall_forall in Hslot. specialize (Hslot t Ht Hcb). congruence.
  - eapply Forall_impl; [exact Hslot|]. cbn. intros t Ht Hcb.
    specialize (Ht Hcb). congruence.
Qed.

(** ** The timer discipline is an invariant *)

Lemma Forall_sublist {A} (P : A → Prop) (l l' : list A) :
  sublist l' l → Forall P l → Forall P l'.
Proof.
  rewrite !Forall_forall. intros Hsub HP x Hx.
  apply HP. by eapply elem_of_sublist.
Qed.

Lemma slot_wf_sublist (ts ts' : list Timer) (next : positive) (slot : option positive) :
  sublist ts' ts → slot_wf ts next slot → slot_wf ts' next slot.
Proof.
  intros Hsub [Hnd Hfr Hsl Hh]. split; [| | |done].
  - apply (sublist_NoDup (t_handle <$> ts') (t_handle <$> ts)); [exact Hnd|].
    by apply fmap_sublist.
  - by eapply Forall_sublist.
  - by eapply Forall_sublist.
Qed.

(** Arming a timer with the next handle keeps the discipline, whether it
    takes the save slot or is the paste listener's. *)
Lemma slot_wf_push (ts : list Timer) (next : positive) (slot : option positive)
    (due : Z) (cb : Callback) (slot' : option positive) :
  slot_wf ts next slot →
  (cb = SaveCb → slot' = Some next) →
  (slot' = slot ∨ slot' = Some next) →
  (slot' ≠ slot → Forall (λ t, t_cb t ≠ SaveCb) ts) →
  slot_wf (ts ++ [{| t_handle := next; t_due := due; t_cb := cb |}]) (Pos.succ next) slot'.
Proof.
  intros [Hnd Hfr Hsl Hh] Hcb Hslot' Hclean.
  rewrite Forall_forall in Hfr. rewrite Forall_forall in Hsl.
  split.
  - rewrite fmap_app. apply NoDup_app. split; [done|]. split; [|apply NoDup_singleton].
    intros h Hin Hin'. cbn in Hin'. apply list_elem_of_singleton in Hin'. subst h.
    apply list_elem_of_fmap in Hin as (t & Heq & Ht).
    specialize (Hfr t Ht). lia.
  - apply Forall_app. split.
    + apply Forall_forall. intros t Ht. specialize (Hfr t Ht). lia.
    + apply Forall_singleton. cbn. lia.
  - apply Forall_app. split.
    + apply Forall_forall. intros t Ht Hsave.
      destruct (decide (slot' = slot)) as [->|Hne]; [by apply Hsl|].
      specialize (Hclean Hne). rewrite Forall_forall in Hclean.
      by destruct (Hclean t Ht).
    + apply Forall_singleton. cbn. done.
  - intros h Hh'. destruct Hslot' as [->| ->].
    + specialize (Hh h Hh'). lia.
    + injection Hh' as <-. lia.
Qed.

Lemma rearm_wf (s : State) : timers_wf s → timers_wf (rearm s).
Proof.
  intros Hwf. unfold timers_wf.
  destruct (rearm_frame s) as (_ & _ & _ & _ & _ & _ & _ & _ & _ & -> & ->).
  rewrite rearm_timers. unfold save_timer.
  destruct (debounceTimer s) as [h|] eqn:Hd.
  - apply slot_wf_push with (slot := Some h); try done.
    + eapply slot_wf_sublist; [apply sublist_filter|]. by rewrite <- Hd.
    + destruct (decide (h = next_handle s)); [left; congruence|by right].
    + intros _. apply Forall_forall. intros t Ht%list_elem_of_filter Hcb.
      destruct Ht as [Hne Ht]. pose proof (wf_slot _ _ _ Hwf) as Hsl.
      rewrite Forall_forall in Hsl. specialize (Hsl t Ht Hcb). congruence.
  - apply slot_wf_push with (slot := None); try done.
    + by rewrite <- Hd.
    + by right.
    + intros _. pose proof (wf_slot _ _ _ Hwf) as Hsl.
      eapply Forall_impl; [exact Hsl|]. cbn. intros t Ht Hcb.
      specialize (Ht Hcb). congruence.
Qed.

Lemma probed_wf (s : State) : timers_wf s → timers_wf (probed s).
Proof.
  unfold timers_wf.
  destruct (probed_frame s) as (_ & -> & -> & _ & _ & _ & _ & _ & _ & -> & _). done.
Qed.

Lemma saves_app (l1 l2 : list (Z * Effect)) : saves (l1 ++ l2) = saves l1 ++ saves l2.
Proof. apply filter_app. Qed.

Lemma probed_saves (s : State) : saves (log (probed s)) = saves (log s).
Proof.
  destruct (probed_log s) as (l & -> & Hl). rewrite saves_app.
  unfold saves at 2. rewrite filter_none; [by rewrite app_nil_r|].
  eapply Forall_impl; [exact Hl|]. cbn. intros [t e] [_ [He|He]]; cbn in *; by subst e.
Qed.

Lemma probed_last_request (s : State) :
  last_request (log (probed s)) = last_request (log s).
Proof.
  unfold last_request. destruct (probed_log s) as (l & -> & Hl).
  rewrite filter_app, (filter_none _ l); [by rewrite app_nil_r|].
  eapply Forall_impl; [exact Hl|]. cbn. intros [t e] [_ [He|He]]; cbn in *; by subst e.
Qed.

(** ** What one request establishes *)

Lemma request_eq (s : State) :
  probe_ok (localStorage s) = true → settle (updateStorage s) = rearm (probed s).
Proof. intros Hp. by rewrite updateStorage_eq, Hp. Qed.

Lemma request_establishes (s : State) :
  timers_wf s → probe_ok (localStorage s) = true →
  let s' := rearm (probed s) in
  timers_wf s' ∧ probe_ok (localStorage s') = true ∧
  clock s' = clock s ∧ notesContainer s' = notesContainer s ∧ nodes s' = nodes s ∧
  (∃ l, log s' = log s ++ l ∧ saves l = []) ∧
  last_request (log s') = Some (clock s) ∧
  debounceTimer s' = Some (next_handle s) ∧
  pending_saves s' =
    [{| t_handle := next_handle s; t_due := clock s + debounceDelay; t_cb := SaveCb |}].
Proof.
  intros Hwf Hp s'. subst s'.
  destruct (probed_frame s) as (Hc & Ht & Hn & Hnodes & _ & _ & _ & Hcont & _ & Hd & _).
  destruct (rearm_frame (probed s))
    as (Hc' & Hm' & Hnodes' & _ & _ & _ & Hcont' & _ & _ & Hd' & Hn').
  split_and!.
  - by apply rearm_wf, probed_wf.
  - by rewrite Hm', probed_probe_ok.
  - congruence.
  - congruence.
  - congruence.
  - destruct (probed_log s) as (l & Hl & Hall).
    eexists. rewrite rearm_log, Hl, <- app_assoc. split; [done|].
    rewrite !saves_app.
    replace (saves l) with (@nil (Z * Effect)).
    + by destruct (debounceTimer (probed s)).
    + symmetry. apply filter_none. eapply Forall_impl; [exact Hall|].
      cbn. intros [t e] [_ [He|He]]; cbn in *; by subst e.
  - unfold last_request. rewrite rearm_log, !app_assoc, filter_app.
    replace (filter _ [_]) with
      [(clock (probed s), E_setTimeout (next_handle (probed s)) SaveCb debounceDelay)]
      by done.
    rewrite last_snoc. cbn. by rewrite Hc.
  - by rewrite Hd', Hn.
  - rewrite rearm_pending by by apply probed_wf.
    unfold save_timer. by rewrite Hn, Hc.
Qed.

(** ** The save callback *)

Section with_codec.
Context `{HtmlCodec}.

Lemma save_callback_eq (s : State) (c : node_id) :
  notesContainer s = Some c →
  let html := serialize_children (nodes s) c in
  let s1 := emit (E_setItem snapshot_key html) s in
  save_callback s =
  Normal tt
    match set_fault (localStorage s) snapshot_key html with
    | None => with_localStorage (with_items (insert snapshot_key html) (localStorage s)) s1
    | Some e => with_log (log s1 ++ failure_log (clock s) e) s1
    end.
Proof.
  intros Hc html s1. subst html s1. js_unfold. rewrite Hc. cbn.
  unfold snapshot_key.
  destruct (set_fault (localStorage s) "notes" _) as [e|]; cbn; [|done].
  unfold failure_log.
  destruct (String.eqb (err_name e) "QuotaExceededError"); cbn; [|done].
  unfold emit, with_log. cbn. by rewrite <- app_assoc.
Qed.

(** The callback never throws, touches no timer, and leaves the tree alone. *)
Lemma save_callback_frame (s : State) :
  ∃ s', save_callback s = Normal tt s' ∧
    clock s' = clock s ∧ timers s' = timers s ∧ next_handle s' = next_handle s ∧
    debounceTimer s' = debounceTimer s ∧ nodes s' = nodes s ∧
    next_node s' = next_node s ∧ notesContainer s' = notesContainer s.
Proof.
  destruct (notesContainer s) as [c|] eqn:Hc.
  - rewrite (save_callback_eq s c Hc). eexists. split; [done|].
    destruct (set_fault _ _ _); cbn; by rewrite ?Hc.
  - js_unfold. rewrite Hc. cbn.
    eexists; (split; [done|]); cbn; by rewrite ?Hc.
Qed.

Lemma save_callback_log (s : State) (c : node_id) :
  notesContainer s = Some c →
  ∃ l, log (final_state (save_callback s)) =
         log s ++ (clock s, E_setItem snapshot_key (serialize_children (nodes s) c)) :: l ∧
       Forall (λ e, is_save e = false ∧ is_request e = false) l.
Proof.
  intros Hc. rewrite (save_callback_eq s c Hc). cbn.
  destruct (set_fault _ _ _) as [e|]; cbn.
  - exists (failure_log (clock s) e). split; [by rewrite <- app_assoc|].
    unfold failure_log. destruct (String.eqb _ _); repeat constructor.
  - exists []. split; [done|]. constructor.
Qed.

(** ** Firing a timer *)

Lemma handle_inj (ts : list Timer) (t t' : Timer) :
  NoDup (t_handle <$> ts) → t ∈ ts → t' ∈ ts → t_handle t = t_handle t' → t = t'.
Proof.
  induction ts as [|x ts IH]; cbn; intros Hnd Ht Ht' Heq.
  - by apply elem_of_nil in Ht.
  - apply NoDup_cons in Hnd as [Hx Hnd].
    apply elem_of_cons in Ht as [->|Ht]; apply elem_of_cons in Ht' as [->|Ht']; try done.
    + destruct Hx. rewrite Heq. by apply list_elem_of_fmap_2.
    + destruct Hx. rewrite <- Heq. by apply list_elem_of_fmap_2.
    + by apply IH.
Qed.

Lemma step_timer_inv (s s' : State) (h : positive) :
  step s (Ev_timer h) = Some s' →
  ∃ t, t ∈ timers s ∧ t_handle t = h ∧ t_due t ≤ clock s ∧
       s' = settle (run_callback (t_cb t) (without h s)).
Proof.
  cbn. destruct (list_find _ _) as [[i t]|] eqn:Hf; [|done].
  apply list_find_Some in Hf as (Hi & Hh & _).
  destruct (decide (t_due t ≤ clock s)); [|done].
  intros [= <-]. exists t. split_and!; try done.
  by eapply list_elem_of_lookup_2.
Qed.

Lemma step_timer_fire (s : State) (t : Timer) :
  timers_wf s → t ∈ timers s → t_due t ≤ clock s →
  step s (Ev_timer (t_handle t)) =
  Some (settle (run_callback (t_cb t) (without (t_handle t) s))).
Proof.
  intros Hwf Ht Hdue. cbn.
  destruct (list_find_elem_of (λ x, t_handle x = t_handle t) (timers s) t Ht eq_refl)
    as [[i t'] Hf].
  rewrite Hf. apply list_find_Some in Hf as (Hi & Hh & _).
  assert (t' = t) as ->.
  { eapply handle_inj; [apply Hwf| |done|done]. by eapply list_elem_of_lookup_2. }
  by rewrite decide_True.
Qed.

Lemma step_timer_early (s : State) (t : Timer) :
  timers_wf s → t ∈ timers s → clock s < t_due t →
  step s (Ev_timer (t_handle t)) = None.
Proof.
  intros Hwf Ht Hdue.
  destruct (step s (Ev_timer (t_handle t))) as [s'|] eqn:Hs; [|done].
  apply step_timer_inv in Hs as (t' & Ht' & Hh & Hdue' & _).
  assert (t' = t) as -> by (eapply handle_inj; [apply Hwf|done|done|done]).
  lia.
Qed.

Lemma without_wf (h : positive) (s : State) : timers_wf s → timers_wf (without h s).
Proof. apply slot_wf_sublist, sublist_filter. Qed.

(** A request leaves no timer under an old handle that was idle or was the
    one in the slot. *)
Lemma request_handles (s : State) (h0 : positive) :
  timers_wf s → (h0 < next_handle s)%positive →
  (debounceTimer s = Some h0 ∨ h0 ∉ (t_handle <$> timers s)) →
  (h0 ∉ (t_handle <$> timers (rearm (probed s)))) ∧
  (h0 < next_handle (rearm (probed s)))%positive.
Proof.
  intros Hwf Hlt Hcase.
  destruct (probed_frame s) as (_ & Ht & Hn & _ & _ & _ & _ & _ & _ & Hd & _).
  destruct (rearm_frame (probed s)) as (_ & _ & _ & _ & _ & _ & _ & _ & _ & _ & Hn').
  split; [|rewrite Hn', Hn; lia].
  rewrite rearm_timers, Hd, Ht, fmap_app. apply not_elem_of_app. split.
  - intros (t & Heq & Hin)%list_elem_of_fmap.
    destruct Hcase as [Hslot|Hidle].
    + rewrite Hslot in Hin. apply list_elem_of_filter in Hin as [Hne _]. congruence.
    + apply Hidle. apply list_elem_of_fmap. exists t. split; [done|].
      destruct (debounceTimer s); [|done]. by apply list_elem_of_filter in Hin as [_ Hin].
  - cbn. rewrite Hn. intros Hin%list_elem_of_singleton. lia.
Qed.

Lemma without_handles (s : State) (h h0 : positive) :
  h0 ∉ (t_handle <$> timers s) → h0 ∉ (t_handle <$> timers (without h s)).
Proof.
  intros Hidle (t & Heq & Hin)%list_elem_of_fmap. apply Hidle.
  apply list_elem_of_fmap. exists t. split; [done|].
  cbn in Hin. by apply list_elem_of_filter in Hin as [_ Hin].
Qed.

(** ** Bursts *)

(** While a burst lasts, exactly one save timer is pending, it is the one
    [this.debounceTimer] names, it was armed by the latest request, and it is
    not due yet; nothing is saved. *)
Lemma burst_invariant (tr : list Event) :
  ∀ (s s1 : State) (elapsed : Z) (t : Timer),
    timers_wf s → probe_ok (localStorage s) = true →
    pending_saves s = [t] → debounceTimer s = Some (t_handle t) →
    last_request (log s) = Some (t_due t - debounceDelay) →
    0 ≤ elapsed < debounceDelay → clock s + debounceDelay - elapsed ≤ t_due t →
    in_burst elapsed tr = true → run s tr = Some s1 →
    timers_wf s1 ∧ probe_ok (localStorage s1) = true ∧
    (∃ l, log s1 = log s ++ l ∧ saves l = []) ∧
    notesContainer s1 = notesContainer s ∧ nodes s1 = nodes s ∧
    (∀ h0, (h0 < next_handle s)%positive → h0 ∉ (t_handle <$> timers s) →
           h0 ∉ (t_handle <$> timers s1)) ∧
    ∃ t1, pending_saves s1 = [t1] ∧ debounceTimer s1 = Some (t_handle t1) ∧
          last_request (log s1) = Some (t_due t1 - debounceDelay) ∧
          clock s1 < t_due t1.
Proof.
  induction tr as [|ev tr IH]; intros s s1 elapsed t Hwf Hp Hpend Hslot Hlast Hel Hdue Hb Hrun.
  - injection Hrun as <-. split_and!; try done.
    + exists []. by rewrite app_nil_r.
    + exists t. split_and!; try done. lia.
  - cbn in Hrun. destruct (step s ev) as [s'|] eqn:Hstep; [|done].
    destruct ev; cbn in Hb; try done.
    + (* time passes *)
      apply andb_prop in Hb as [Hlt%bool_decide_eq_true Hb].
      cbn in Hstep. destruct (decide (0 ≤ dt)); [|done]. injection Hstep as <-.
      eapply (IH _ _ (elapsed + dt) t) in Hrun; try done; cbn; lia.
    + (* the host fires a timer: it can only be a paste callback *)
      apply step_timer_inv in Hstep as (t' & Ht' & Hh & Hdue' & ->).
      destruct (t_cb t') eqn:Hcb.
      * assert (t' ∈ pending_saves s) as Hin by (by apply list_elem_of_filter).
        rewrite Hpend in Hin. apply list_elem_of_singleton in Hin. subst t'. lia.
      * cbn in Hrun. pose proof (without_wf h s Hwf) as Hwf'.
        assert (probe_ok (localStorage (without h s)) = true) as Hp' by done.
        rewrite (request_eq _ Hp') in Hrun.
        destruct (request_establishes _ Hwf' Hp')
          as (Hwf2 & Hp2 & Hc2 & Hcont2 & Hn2 & Hs2 & Hl2 & Hd2 & Hpend2).
        change (clock (without h s)) with (clock s) in *.
        change (log (without h s)) with (log s) in *.
        change (nodes (without h s)) with (nodes s) in *.
        change (notesContainer (without h s)) with (notesContainer s) in *.
        eapply (IH _ _ elapsed) in Hrun; try done.
        -- destruct Hs2 as (l2 & Hl2' & Hs2).
           destruct Hrun as (? & ? & (l & Hl & Hs) & Hc & Hn & Hold & ?).
           split_and!; try done; try congruence.
           { exists (l2 ++ l). rewrite Hl, Hl2', <- app_assoc. split; [done|].
             by rewrite saves_app, Hs2, Hs. }
           intros h0 Hlt Hidle.
           destruct (request_handles (without h s) h0 Hwf' Hlt) as [Hidle' Hlt'];
             [right; by apply without_handles|].
           by apply Hold.
        -- rewrite Hl2. cbn. f_equal. lia.
        -- rewrite Hc2. cbn. lia.
    + (* one more request *)
      cbn in Hstep. injection Hstep as <-. rewrite (request_eq _ Hp) in Hrun.
      destruct (request_establishes _ Hwf Hp)
        as (Hwf2 & Hp2 & Hc2 & Hcont2 & Hn2 & Hs2 & Hl2 & Hd2 & Hpend2).
      eapply (IH _ _ 0) in Hrun; try done.
      * destruct Hs2 as (l2 & Hl2' & Hs2).
        destruct Hrun as (? & ? & (l & Hl & Hs) & Hc & Hn & Hold & ?).
        split_and!; try done; try congruence.
        { exists (l2 ++ l). rewrite Hl, Hl2', <- app_assoc. split; [done|].
          by rewrite saves_app, Hs2, Hs. }
        intros h0 Hlt Hidle.
        destruct (request_handles s h0 Hwf Hlt) as [Hidle' Hlt']; [by right|].
        by apply Hold.
      * rewrite Hl2. cbn. f_equal. lia.
      * rewrite Hc2. cbn. lia.
Qed.

End with_codec.

Section claims.
Context `{HtmlCodec}.

(** Firing the one pending save timer: impossible before it is due; when due,
    it makes exactly one write of the tree as it is then, and leaves no save
    timer behind. *)
Lemma save_fires (s : State) (t : Timer) (c : node_id) (d : Z) :
  timers_wf s → notesContainer s = Some c → pending_saves s = [t] → 0 ≤ d →
  (clock s + d < t_due t → run s [Ev_advance d; Ev_timer (t_handle t)] = None) ∧
  (t_due t ≤ clock s + d →
   ∃ s2 l, run s [Ev_advance d; Ev_timer (t_handle t)] = Some s2 ∧
     log s2 = log s ++ (clock s + d,
                        E_setItem snapshot_key (serialize_children (nodes s) c)) :: l ∧
     Forall (λ e, is_save e = false ∧ is_request e = false) l ∧
     pending_saves s2 = [] ∧ nodes s2 = nodes s ∧ clock s2 = clock s + d).
Proof.
  intros Hwf Hc Hpend Hd.
  assert (t ∈ timers s ∧ t_cb t = SaveCb) as [Hin Hcb].
  { assert (t ∈ pending_saves s) as Ht by (rewrite Hpend; apply list_elem_of_singleton; done).
    apply list_elem_of_filter in Ht. tauto. }
  set (s' := with_clock (clock s + d) s).
  assert (timers_wf s') as Hwf' by done.
  assert (run s [Ev_advance d; Ev_timer (t_handle t)] = step s' (Ev_timer (t_handle t)))
    as ->.
  { cbn -[step]. unfold step at 1. rewrite decide_True by done.
    fold s'. by destruct (step s' _). }
  split; intros Hdue.
  - by apply step_timer_early.
  - rewrite (step_timer_fire s' t) by done. rewrite Hcb. cbn [run_callback].
    destruct (save_callback_frame (without (t_handle t) s'))
      as (s2 & Heq & Hclock & Htimers & _ & _ & Hnodes & _).
    destruct (save_callback_log (without (t_handle t) s') c Hc) as (l & Hlog & Hl).
    rewrite Heq in Hlog |- *. cbn in Hlog. cbn [settle].
    exists s2, l. split_and!; try done.
    unfold pending_saves. rewrite Htimers. cbn.
    rewrite filter_comm. fold (pending_saves s). rewrite Hpend.
    by rewrite filter_cons_False by (intros Hne; by apply Hne).
Qed.

(** C1 (debounce coalescing).  Take any burst: a call of updateStorage
    followed by any mix of further calls, time passing and timers the host
    chooses to fire, in which less than the quiet interval (300) elapses
    after each request, on a medium the probe accepts.  Then nothing is
    written while the burst lasts; at its end exactly one save timer is
    pending, armed by the latest request (at time [T]) and held in
    [this.debounceTimer], every earlier one having been cancelled; the host
    cannot fire it before [T + 300]; and firing it makes exactly one call
    [localStorage.setItem("notes", _)], after which no save is pending. *)
Theorem C1_debounce_coalescing (s s1 : State) (tr : list Event) (c : node_id) :
  timers_wf s → notesContainer s = Some c → probe_ok (localStorage s) = true →
  in_burst 0 tr = true → run s (Ev_updateStorage :: tr) = Some s1 →
  ∃ (t : Timer) (T : Z),
    saves (new_log s s1) = [] ∧
    pending_saves s1 = [t] ∧ debounceTimer s1 = Some (t_handle t) ∧
    last_request (log s1) = Some T ∧ t_due t = T + debounceDelay ∧
    (∀ h0, debounceTimer s = Some h0 → h0 ∉ (t_handle <$> timers s1)) ∧
    ∀ d, 0 ≤ d →
      (clock s1 + d < T + debounceDelay →
       run s1 [Ev_advance d; Ev_timer (t_handle t)] = None) ∧
      (T + debounceDelay ≤ clock s1 + d →
       ∃ s2, run s1 [Ev_advance d; Ev_timer (t_handle t)] = Some s2 ∧
             saves (new_log s s2) =
               [(clock s1 + d,
                 E_setItem snapshot_key (serialize_children (nodes s1) c))] ∧
             pending_saves s2 = []).
Proof.
  intros Hwf Hc Hp Hb Hrun. cbn -[step] in Hrun. unfold step at 1 in Hrun.
  rewrite (request_eq _ Hp) in Hrun.
  destruct (request_establishes _ Hwf Hp)
    as (Hwf' & Hp' & Hc' & Hcont' & Hn' & (l0 & Hl0 & Hs0) & Hlast' & Hd' & Hpend').
  assert (∀ h0, debounceTimer s = Some h0 →
                (h0 ∉ (t_handle <$> timers (rearm (probed s)))) ∧
                (h0 < next_handle (rearm (probed s)))%positive) as Hcancel.
  { intros h0 Hh0. apply request_handles; [done| |by left]. by apply Hwf. }
  eapply (burst_invariant tr _ _ 0) in Hrun; try done; cycle 1.
  { rewrite Hlast'. cbn. f_equal. lia. }
  { rewrite Hc'. cbn. lia. }
  destruct Hrun as (Hwf1 & Hp1 & (l1 & Hl1 & Hs1) & Hcont1 & Hn1 & Hold
                    & t & Hpend1 & Hd1 & Hlast1 & Hnotdue).
  assert (log s1 = log s ++ (l0 ++ l1)) as Hlog by (by rewrite Hl1, Hl0, <- app_assoc).
  exists t, (t_due t - debounceDelay). split_and!; try done.
  - rewrite (new_log_app _ _ _ Hlog), saves_app, Hs0, Hs1. done.
  - lia.
  - intros h0 Hh0. destruct (Hcancel h0 Hh0). by apply Hold.
  - intros d Hd.
    assert (notesContainer s1 = Some c) as Hc1 by congruence.
    destruct (save_fires s1 t c d Hwf1 Hc1 Hpend1 Hd) as [Hearly Hfire].
    split; [intros; apply Hearly; lia|].
    intros Hdue. destruct Hfire as (s2 & l2 & Hrun2 & Hl2 & Hq & Hpend2 & _); [lia|].
    exists s2. split_and!; try done.
    assert (log s2 = log s ++ ((l0 ++ l1) ++
              (clock s1 + d, E_setItem snapshot_key (serialize_children (nodes s1) c)) :: l2))
      as Hlog2 by (by rewrite Hl2, Hlog, <- !app_assoc).
    rewrite (new_log_app _ _ _ Hlog2), !saves_app, Hs0, Hs1. cbn [app].
    unfold saves. rewrite filter_cons_True by done.
    rewrite filter_none; [done|].
    eapply Forall_impl; [exact Hq|]. cbn. intros e [He _]. by rewrite He.
Qed.

(** The plain burst -- N calls of updateStorage, each less than the quiet
    interval after the one before, and nothing else -- is such a run, and the
    loop accepts it from every state. *)
Lemma burst_in_burst (gaps : list Z) :
  Forall (λ d, 0 ≤ d < debounceDelay) gaps →
  ∀ elapsed, in_burst elapsed (burst gaps) = true.
Proof.
  induction 1 as [|d gaps Hd _ IH]; intros elapsed; cbn; [done|].
  rewrite bool_decide_eq_true_2 by lia. apply IH.
Qed.

Lemma burst_runs (gaps : list Z) :
  Forall (λ d, 0 ≤ d < debounceDelay) gaps →
  ∀ s, is_Some (run s (burst gaps)).
Proof.
  induction 1 as [|d gaps Hd _ IH]; intros s; cbn -[step].
  - unfold step. by eexists.
  - unfold step at 1. unfold step at 1. rewrite decide_True by lia. apply IH.
Qed.

(** A request does not look at the tree: made on another tree, it does the
    same and leaves that tree alone. *)
Lemma updateStorage_ignores_tree (s : State) (ns : gmap node_id Node) (nx : node_id) :
  final_state (updateStorage (with_nodes ns nx s)) =
  with_nodes ns nx (final_state (updateStorage s)).
Proof.
  rewrite !updateStorage_eq. cbn [final_state localStorage with_nodes].
  assert (probed (with_nodes ns nx s) = with_nodes ns nx (probed s)) as ->.
  { probed_cases s; done. }
  destruct (probe_ok (localStorage s)); [|done].
  unfold rearm. cbn. by destruct (debounceTimer (probed s)).
Qed.

(** C2 (freshness).  A save is requested; the tree then changes (any edit,
    at any moment before the timer fires); the timer fires.  The one value
    handed to [localStorage.setItem("notes", _)] is the serialization of the
    tree as it is when the callback runs -- the edited tree -- because
    [this.notesContainer.innerHTML] is read inside the callback; the request
    itself never reads the tree. *)
Theorem C2_snapshot_taken_at_fire_time (s : State) (c : node_id)
    (edit : gmap node_id Node * node_id) (d1 d2 : Z) :
  timers_wf s → notesContainer s = Some c → probe_ok (localStorage s) = true →
  0 ≤ d1 → 0 ≤ d2 → debounceDelay ≤ d1 + d2 →
  ∃ s1 h s3,
    step s Ev_updateStorage = Some s1 ∧ debounceTimer s1 = Some h ∧
    nodes s1 = nodes s ∧ saves (new_log s s1) = [] ∧
    run s1 [Ev_advance d1; Ev_edit edit; Ev_advance d2; Ev_timer h] = Some s3 ∧
    saves (new_log s s3) =
      [(clock s + d1 + d2, E_setItem snapshot_key (serialize_children edit.1 c))] ∧
    (∀ ns nx, final_state (updateStorage (with_nodes ns nx s)) =
              with_nodes ns nx (final_state (updateStorage s))).
Proof.
  intros Hwf Hc Hp Hd1 Hd2 Hd.
  destruct (request_establishes _ Hwf Hp)
    as (Hwf' & Hp' & Hc' & Hcont' & Hn' & (l0 & Hl0 & Hs0) & Hlast' & Hd' & Hpend').
  set (s1 := rearm (probed s)) in *.
  set (sb := with_nodes edit.1 edit.2 (with_clock (clock s1 + d1) s1)).
  assert (timers_wf sb) as Hwfb by done.
  assert (notesContainer sb = Some c) as Hcb
    by (change (notesContainer s1 = Some c); congruence).
  destruct (save_fires sb _ c d2 Hwfb Hcb Hpend' Hd2) as [_ Hfire].
  destruct Hfire as (s3 & l & Hrun & Hl & Hq & _);
    [cbn [t_due]; change (clock sb) with (clock s1 + d1); lia|].
  exists s1, (next_handle s), s3. split_and!; try done.
  - cbn. by rewrite (request_eq _ Hp).
  - by rewrite (new_log_app _ _ _ Hl0).
  - cbn -[step]. unfold step at 1. rewrite decide_True by done.
    unfold step at 1. exact Hrun.
  - change (log sb) with (log s1) in Hl.
    change (clock sb) with (clock s1 + d1) in Hl.
    change (nodes sb) with edit.1 in Hl.
    rewrite Hl0, <- app_assoc in Hl.
    rewrite (new_log_app _ _ _ Hl), !saves_app, Hs0. cbn [app].
    unfold saves. rewrite filter_cons_True by done.
    rewrite filter_none.
    + do 3 f_equal. lia.
    + eapply Forall_impl; [exact Hq|]. cbn. intros e [He _]. by rewrite He.
  - intros. apply updateStorage_ignores_tree.
Qed.

(** ** Loading *)

Lemma loadNotes_skips (s : State) :
  get_fault (localStorage s) snapshot_key = None →
  truthy (items (localStorage s) !! snapshot_key) = false →
  loadNotes s = Normal tt (emit (E_getItem snapshot_key) s).
Proof.
  intros Hg Ht. js_unfold. cbn. unfold snapshot_key in *. rewrite Hg. cbn.
  by rewrite Ht.
Qed.

Lemma loadNotes_restores (s : State) (c : node_id) (v : string) :
  get_fault (localStorage s) snapshot_key = None →
  items (localStorage s) !! snapshot_key = Some v → v ≠ "" →
  notesContainer s = Some c →
  loadNotes s =
  Normal tt (with_nodes (parse_into v c (nodes s, next_node s)).1
                        (parse_into v c (nodes s, next_node s)).2
               (emit (E_innerHTML_set v) (emit (E_getItem snapshot_key) s))).
Proof.
  intros Hg Hv Hne Hc. js_unfold. cbn. unfold snapshot_key in *. rewrite Hg, Hv. cbn.
  apply String.eqb_neq in Hne. rewrite Hne. cbn. rewrite Hc. cbn.
  by destruct (parse_into v c (nodes s, next_node s)).
Qed.

(** loadNotes never throws, never touches a timer, and always begins by
    reading the snapshot key. *)
Lemma loadNotes_completes (s : State) :
  ∃ s' l, loadNotes s = Normal tt s' ∧
    log s' = log s ++ (clock s, E_getItem snapshot_key) :: l ∧
    timers s' = timers s ∧ debounceTimer s' = debounceTimer s ∧
    localStorage s' = localStorage s.
Proof.
  js_unfold. cbn. unfold snapshot_key.
  destruct (get_fault (localStorage s) "notes") as [e|]; cbn.
  { eexists _, [_]. split; [done|]. cbn. by rewrite <- app_assoc. }
  destruct (truthy (items (localStorage s) !! "notes")); cbn;
    [|by eexists _, []].
  destruct (notesContainer s) as [c|]; cbn.
  - destruct (parse_into _ c _) as [ns nx]. eexists _, [_]. split; [done|].
    cbn. by rewrite <- app_assoc.
  - eexists _, [_]. split; [done|]. cbn. by rewrite <- app_assoc.
Qed.

Lemma loaded_restores (s : State) (c : node_id) (v : string) :
  get_fault (localStorage s) snapshot_key = None →
  items (localStorage s) !! snapshot_key = Some v → v ≠ "" →
  notesContainer s = Some c →
  loaded s = Some v.
Proof.
  intros Hg Hv Hne Hc. unfold loaded.
  rewrite (loadNotes_restores s c v) by done. cbn [final_state].
  erewrite new_log_app; [|cbn; by rewrite <- app_assoc]. done.
Qed.

Lemma loaded_skips (s : State) :
  truthy (items (localStorage s) !! snapshot_key) = false → loaded s = None.
Proof.
  intros Ht. unfold loaded.
  destruct (get_fault (localStorage s) snapshot_key) as [e|] eqn:Hg.
  - js_unfold. cbn. unfold snapshot_key in Hg. rewrite Hg. cbn.
    erewrite new_log_app; [|cbn; by rewrite <- app_assoc]. done.
  - rewrite loadNotes_skips by done. cbn [final_state].
    erewrite new_log_app; [|done]. done.
Qed.

(** C3 (availability gating), as the code has it.  With the probe answering
    "unavailable", updateStorage returns at once: it does not throw, arms or
    clears no timer, and makes no call on the snapshot key.  loadNotes does
    not throw either -- but it does not consult the probe: it always reads
    the snapshot key, and when the read succeeds with a non-empty string it
    restores that string into the container. *)
Theorem C3_availability_gating (s : State) :
  probe_ok (localStorage s) = false →
  (∃ s1, updateStorage s = Normal tt s1 ∧
     timers s1 = timers s ∧ debounceTimer s1 = debounceTimer s ∧
     nodes s1 = nodes s ∧
     items (localStorage s1) !! snapshot_key = items (localStorage s) !! snapshot_key ∧
     Forall (λ e, touches_snapshot e = false ∧ is_request e = false) (new_log s s1)) ∧
  (∃ s2 l, loadNotes s = Normal tt s2 ∧
     new_log s s2 = (clock s, E_getItem snapshot_key) :: l ∧
     timers s2 = timers s ∧
     (∀ c v, get_fault (localStorage s) snapshot_key = None →
             items (localStorage s) !! snapshot_key = Some v → v ≠ "" →
             notesContainer s = Some c → loaded s = Some v)).
Proof.
  intros Hp. split.
  - exists (probed s). rewrite updateStorage_eq, Hp. split; [done|].
    destruct (probed_frame s) as (_ & -> & _ & -> & _ & _ & _ & _ & _ & -> & _).
    destruct (probed_medium s) as (_ & _ & _ & ->).
    destruct (probed_log s) as (l & Hl & Hall).
    rewrite (new_log_app _ _ _ Hl). split_and!; try done.
    eapply Forall_impl; [exact Hall|]. cbn.
    intros [t e] [_ [He|He]]; cbn in *; by subst e.
  - destruct (loadNotes_completes s) as (s2 & l & Heq & Hl & Ht & _).
    exists s2, l. rewrite (new_log_app _ _ _ Hl). split_and!; try done.
    intros c v. apply loaded_restores.
Qed.

(** C4 (failure of the write).  When [setItem("notes", _)] throws inside the
    save callback, the callback still completes normally, arms no timer and
    makes no second write attempt.  A thrown value named QuotaExceededError
    produces the console entry and exactly one [alert]; any other thrown
    value produces the console entry and no [alert]. *)
Theorem C4_save_failure_handling (s : State) (c : node_id) (e : JsError) :
  notesContainer s = Some c →
  set_fault (localStorage s) snapshot_key (serialize_children (nodes s) c) = Some e →
  ∃ s', save_callback s = Normal tt s' ∧
    timers s' = timers s ∧ next_handle s' = next_handle s ∧
    debounceTimer s' = debounceTimer s ∧ localStorage s' = localStorage s ∧
    saves (new_log s s') =
      [(clock s, E_setItem snapshot_key (serialize_children (nodes s) c))] ∧
    filter (λ x, is_console_error x = true) (new_log s s') =
      [(clock s, E_console_error "Error saving notes:" (Some e))] ∧
    filter (λ x, is_alert x = true) (new_log s s') =
      if String.eqb (err_name e) "QuotaExceededError"
      then [(clock s, E_alert quota_message)]
      else [].
Proof.
  intros Hc He. rewrite (save_callback_eq s c Hc). cbn zeta. rewrite He.
  eexists. split; [done|]. cbn [timers next_handle debounceTimer localStorage with_log emit].
  split_and!; try done.
  all: erewrite new_log_app; [|cbn; by rewrite <- app_assoc].
  all: unfold failure_log; by destruct (String.eqb (err_name e) _).
Qed.

(** C7 (round trip), as the code has it.  After a successful save of a
    non-empty snapshot, with the stored key left alone and the medium still
    readable, the key holds the snapshot and loadNotes assigns exactly that
    string to the container's innerHTML.  (An empty snapshot is stored too,
    but loadNotes does not hand it back: see C10.) *)
Theorem C7_round_trip (s s' : State) (c c' : node_id) (snapshot : string) :
  notesContainer s = Some c → serialize_children (nodes s) c = snapshot →
  set_fault (localStorage s) snapshot_key snapshot = None →
  items (localStorage s') !! snapshot_key =
    items (localStorage (final_state (save_callback s))) !! snapshot_key →
  get_fault (localStorage s') snapshot_key = None →
  notesContainer s' = Some c' →
  snapshot ≠ "" →
  items (localStorage (final_state (save_callback s))) !! snapshot_key = Some snapshot ∧
  loaded s' = Some snapshot ∧
  (nodes (final_state (loadNotes s')), next_node (final_state (loadNotes s'))) =
    parse_into snapshot c' (nodes s', next_node s').
Proof.
  intros Hc Hser Hset Hkeep Hget Hc' Hne.
  assert (items (localStorage (final_state (save_callback s))) !! snapshot_key
          = Some snapshot) as Hstored.
  { rewrite (save_callback_eq s c Hc). cbn zeta. rewrite Hser, Hset. cbn.
    apply lookup_insert_eq. }
  rewrite Hstored in Hkeep. split_and!; try done.
  - by eapply loaded_restores.
  - rewrite (loadNotes_restores s' c' snapshot) by done. cbn.
    by destruct (parse_into _ _ _).
Qed.

(** C9.  deleteNote called with a null or undefined element does nothing at
    all: it returns normally and the state -- tree, timers, medium, log -- is
    the one it was called in. *)
Theorem C9_deleteNote_absent_is_noop (s : State) :
  deleteNote None s = Normal tt s.
Proof. reflexivity. Qed.

Lemma loadNotes_falsy (s : State) :
  truthy (items (localStorage s) !! snapshot_key) = false →
  ∃ s', loadNotes s = Normal tt s' ∧ nodes s' = nodes s ∧ next_node s' = next_node s.
Proof.
  intros Ht. destruct (get_fault (localStorage s) snapshot_key) as [e|] eqn:Hg.
  - js_unfold. cbn. unfold snapshot_key in Hg. rewrite Hg. cbn. by eexists.
  - rewrite loadNotes_skips by done. by eexists.
Qed.

(** C10.  When the snapshot key holds the empty string, loadNotes leaves the
    container as it found it, it hands nothing to the page, and it behaves
    exactly as it does when the key is not set at all; so does the whole
    start-up ([init]).  A document saved empty is therefore not restored as
    empty. *)
Theorem C10_empty_snapshot_not_restored (s : State) :
  items (localStorage s) !! snapshot_key = Some "" →
  (∃ s', loadNotes s = Normal tt s' ∧ nodes s' = nodes s ∧ next_node s' = next_node s) ∧
  loaded s = None ∧
  loadNotes (forget_snapshot s) = Normal tt (forget_snapshot (final_state (loadNotes s))) ∧
  nodes (final_state (init s)) = nodes s ∧
  nodes (final_state (init (forget_snapshot s))) = nodes s.
Proof.
  intros Hv.
  assert (truthy (items (localStorage s) !! snapshot_key) = false) as Ht
    by (by rewrite Hv).
  assert (∀ s0, nodes s0 = nodes s →
            truthy (items (localStorage s0) !! snapshot_key) = false →
            nodes (final_state (init s0)) = nodes s) as Hinit.
  { intros s0 Hn Ht0. unfold init, mbind, Js_bind, gets.
    destruct (negb _ || negb _); [done|].
    rewrite isLocalStorageAvailable_eq.
    destruct (probed_frame s0) as (_ & _ & _ & Hnp & _).
    destruct (probed_medium s0) as (_ & _ & _ & Hip).
    set (sp := probed s0) in *.
    assert (∀ sw, nodes sw = nodes s →
              truthy (items (localStorage sw) !! snapshot_key) = false →
              nodes (final_state
                (match loadNotes sw with
                 | Normal a s' => attachEventListeners s'
                 | Throw e s' => Throw e s'
                 end)) = nodes s) as Hrest.
    { intros sw Hnw Htw. destruct (loadNotes_falsy sw Htw) as (s' & -> & Hn' & _).
      cbn. congruence. }
    destruct (negb (probe_ok (localStorage s0))); cbn.
    - apply Hrest; cbn; [congruence|by rewrite Hip].
    - apply Hrest; [congruence|by rewrite Hip]. }
  split_and!.
  - by apply loadNotes_falsy.
  - by apply loaded_skips.
  - js_unfold. cbn. unfold snapshot_key in *.
    destruct (get_fault (localStorage s) "notes"); cbn; [done|].
    by rewrite Hv, lookup_delete_eq.
  - by apply Hinit.
  - apply Hinit; [done|]. cbn. unfold snapshot_key. by rewrite lookup_delete_eq.
Qed.

(** C8 (paste).  The paste listener makes a single call, [setTimeout(_, 0)],
    and nothing else: it does not call [preventDefault], does not touch the
    tree and does not call updateStorage itself.  So the host performs the
    default insertion once, in the same task.  One task later the deferred
    callback calls updateStorage, and the snapshot that the save timer ends
    up writing is that of the tree after the insertion. *)
Theorem C8_paste_defers_save (s : State) (target c : node_id)
    (after : gmap node_id Node * node_id) :
  timers_wf s → bubbles s target = true → notesContainer s = Some c →
  probe_ok (localStorage s) = true →
  ∃ s1 hp,
    step s (Ev_paste target after) = Some s1 ∧
    new_log s s1 = [(clock s, E_setTimeout hp PasteCb 0)] ∧
    timers s1 = timers s ++ [{| t_handle := hp; t_due := clock s; t_cb := PasteCb |}] ∧
    debounceTimer s1 = debounceTimer s ∧
    defaultPrevented s1 = false ∧ nodes s1 = after.1 ∧ next_node s1 = after.2 ∧
    ∃ s2 hs,
      step s1 (Ev_timer hp) = Some s2 ∧ debounceTimer s2 = Some hs ∧
      pending_saves s2 =
        [{| t_handle := hs; t_due := clock s + debounceDelay; t_cb := SaveCb |}] ∧
      ∀ d, debounceDelay ≤ d →
        ∃ s3, run s2 [Ev_advance d; Ev_timer hs] = Some s3 ∧
              saves (new_log s s3) =
                [(clock s + d, E_setItem snapshot_key (serialize_children after.1 c))].
Proof.
  intros Hwf Hb Hc Hp.
  set (tp := {| t_handle := next_handle s; t_due := clock s; t_cb := PasteCb |}).
  set (s1 := with_nodes after.1 after.2
               (with_timers (timers s ++ [tp]) (Pos.succ (next_handle s))
                  (emit (E_setTimeout (next_handle s) PasteCb 0)
                     (with_defaultPrevented false s)))).
  assert (step s (Ev_paste target after) = Some s1) as Hstep.
  { cbn. rewrite Hb. subst s1 tp.
    unfold dispatch, handleNotesPaste, mbind, Js_bind, setTimeout, mret, Js_ret.
    cbn. by rewrite Z.add_0_r. }
  assert (timers_wf s1) as Hwf1.
  { unfold timers_wf. subst s1 tp. cbn.
    apply slot_wf_push with (slot := debounceTimer s); try done. by left. }
  assert (tp ∈ timers s1) as Hin.
  { subst s1. cbn. apply elem_of_app. right. by apply list_elem_of_singleton. }
  pose proof (step_timer_fire s1 tp Hwf1 Hin) as Hfire.
  change (t_handle tp) with (next_handle s) in Hfire.
  change (t_cb tp) with PasteCb in Hfire. cbn [run_callback] in Hfire.
  set (s1' := without (next_handle s) s1) in *.
  assert (probe_ok (localStorage s1') = true) as Hp1 by done.
  pose proof (without_wf (next_handle s) s1 Hwf1) as Hwf1'. fold s1' in Hwf1'.
  rewrite (request_eq _ Hp1) in Hfire.
  destruct (request_establishes _ Hwf1' Hp1)
    as (Hwf2 & Hp2 & Hc2 & Hcont2 & Hn2 & (l2 & Hl2 & Hs2) & _ & Hd2 & Hpend2).
  set (s2 := rearm (probed s1')) in *.
  exists s1, (next_handle s). split_and!; try done.
  { apply new_log_app. by subst s1. }
  exists s2, (next_handle s1'). split_and!; try done.
  { apply Hfire. subst s1 tp. cbn. lia. }
  intros d Hd.
  assert (notesContainer s2 = Some c) as Hcs2 by (rewrite Hcont2; exact Hc).
  destruct (save_fires s2 _ c d Hwf2 Hcs2 Hpend2) as [_ Hsave];
    [unfold debounceDelay in Hd; lia|].
  destruct Hsave as (s3 & l3 & Hrun & Hl3 & Hq & _).
  { cbn [t_due]. rewrite Hc2. lia. }
  exists s3. split; [done|].
  rewrite Hc2, Hn2, Hl2 in Hl3.
  change (log s1') with (log s ++ [(clock s, E_setTimeout (next_handle s) PasteCb 0)]) in Hl3.
  change (clock s1') with (clock s) in Hl3.
  change (nodes s1') with after.1 in Hl3.
  rewrite <- !app_assoc in Hl3.
  rewrite (new_log_app _ _ _ Hl3), !saves_app, Hs2. cbn [app].
  replace (saves [(clock s, E_setTimeout (next_handle s) PasteCb 0)])
    with (@nil (Z * Effect)) by done.
  cbn [app]. unfold saves.
  rewrite filter_cons_True by done. rewrite filter_none; [done|].
  eapply Forall_impl; [exact Hq|]. cbn. intros e [He _]. by rewrite He.
Qed.

(** ** The tree operations *)

Lemma updateStorage_frame (s : State) :
  ∃ s', updateStorage s = Normal tt s' ∧
    clock s' = clock s ∧ nodes s' = nodes s ∧ next_node s' = next_node s ∧
    activeElement s' = activeElement s ∧ defaultPrevented s' = defaultPrevented s ∧
    notesContainer s' = notesContainer s.
Proof.
  rewrite updateStorage_eq. eexists. split; [done|].
  destruct (probed_frame s) as (Hc & _ & _ & Hn & Hnn & Ha & Hdp & Hcont & _).
  destruct (probe_ok (localStorage s)); [|done].
  destruct (rearm_frame (probed s)) as (Hc' & _ & Hn' & Hnn' & Ha' & Hdp' & Hcont' & _).
  split_and!; congruence.
Qed.

Ltac map_norm :=
  repeat first
    [ rewrite alter_insert_eq
    | rewrite alter_insert_ne by lia
    | rewrite lookup_insert_eq
    | rewrite lookup_insert_ne by lia ].

(** Lines 81-100 on the node heap: the net effect of the three allocations,
    the property writes and the three appendChild calls. *)
Lemma createNote_heap (ns : gmap node_id Node) (f c : node_id) (cn : Node) (now : Z) :
  (c < f)%positive → ns !! c = Some cn →
  let p := Pos.succ f in
  let img := Pos.succ p in
  dom_appendChild c f
    (dom_appendChild f p
       (dom_appendChild p img
          (alter (with_className "delete-btn") img
             (alter (λ nd, with_attributes (attr_set "alt" "Delete note" (attributes nd)) nd) img
                (alter (λ nd, with_attributes
                                (attr_set "src" "images/delete.png" (attributes nd)) nd) img
                   (alter (λ nd, with_attributes
                                   (attr_set "data-note-id" (pretty now) (attributes nd)) nd) p
                      (alter (λ nd, with_attributes
                                      (attr_set "contenteditable" "true" (attributes nd)) nd) p
                         (alter (with_className "input-box") p
                            (<[img := new_node ElementNode "IMG"]>
                               (<[p := new_node ElementNode "P"]>
                                  (<[f := new_node FragmentNode ""]> ns))))))))))) =
  <[img := delete_control (Some p)]>
    (<[p := note_surface now (Some c) [img]]>
       (<[f := new_node FragmentNode ""]>
          (<[c := with_childNodes (childNodes cn ++ [p]) cn]> ns))).
Proof.
  intros Hlt Hcn p img. subst p img.
  map_norm. cbn.
  unfold dom_appendChild at 3. map_norm. cbn.
  unfold dom_append, dom_remove. map_norm. cbn. map_norm. cbn.
  unfold dom_appendChild at 2. map_norm. cbn.
  unfold dom_append, dom_remove. map_norm. cbn. map_norm. cbn.
  unfold dom_appendChild. map_norm. cbn.
  unfold dom_append, dom_remove. map_norm. cbn. map_norm. cbn.
  rewrite decide_False by (intros Hne; by apply Hne).
  by rewrite (alter_alt_Some _ _ _ _ Hcn).
Qed.

Lemma createNote_eq (s : State) (c : node_id) (cn : Node) :
  notesContainer s = Some c → nodes s !! c = Some cn → nodes_fresh s →
  createNote s = updateStorage (note_created s c cn).
Proof.
  intros Hc Hcn Hfr.
  assert (c < next_node s)%positive as Hlt.
  { destruct (decide (c < next_node s)%positive) as [|Hge]; [done|].
    rewrite Hfr in Hcn by lia. done. }
  unfold createNote, createDocumentFragment, createElement, alloc_node, set_className,
    set_contentEditable, set_src, set_alt, setAttribute, update_node, appendChild, focus,
    this_notesContainer, Date_now, gets, modify, mbind, Js_bind.
  cbn. rewrite Hc. cbn. f_equal. unfold note_created.
  change (String (ascii_upper "p") "") with "P".
  change (String (ascii_upper "i") (String (ascii_upper "m") (String (ascii_upper "g") "")))
    with "IMG".
  by rewrite (createNote_heap (nodes s) (next_node s) c cn (clock s) Hlt Hcn).
Qed.

(** What one call of createNote does to the tree. *)
Lemma createNote_spec (s : State) (c : node_id) (cn : Node) :
  notesContainer s = Some c → nodes s !! c = Some cn → nodes_fresh s →
  let p := Pos.succ (next_node s) in
  let img := Pos.succ p in
  ∃ s', createNote s = Normal tt s' ∧
    document_tree s' = document_tree s ++ [p] ∧
    nodes s' !! p = Some (note_surface (clock s) (Some c) [img]) ∧
    nodes s' !! img = Some (delete_control (Some p)) ∧
    nodes s' !! c = Some (with_childNodes (childNodes cn ++ [p]) cn) ∧
    (∀ i, (i < next_node s)%positive → i ≠ c → nodes s' !! i = nodes s !! i) ∧
    activeElement s' = Some p ∧
    clock s' = clock s ∧ notesContainer s' = Some c ∧
    next_node s' = Pos.succ img ∧ nodes_fresh s'.
Proof.
  intros Hc Hcn Hfr p img.
  assert (c < next_node s)%positive as Hlt.
  { destruct (decide (c < next_node s)%positive) as [|Hge]; [done|].
    rewrite Hfr in Hcn by lia. done. }
  rewrite (createNote_eq s c cn Hc Hcn Hfr).
  destruct (updateStorage_frame (note_created s c cn))
    as (s' & -> & Hclock & Hn & Hnn & Ha & _ & Hcont).
  exists s'. split; [done|].
  assert (nodes s' !! c = Some (with_childNodes (childNodes cn ++ [p]) cn)) as Hc'.
  { rewrite Hn. cbn. map_norm. done. }
  split_and!.
  - unfold document_tree. rewrite Hcont. cbn. rewrite Hc.
    rewrite (lookup_total_correct _ _ _ Hc'), (lookup_total_correct _ _ _ Hcn). done.
  - rewrite Hn. cbn. by map_norm.
  - rewrite Hn. cbn. by map_norm.
  - done.
  - intros i Hi Hne. rewrite Hn. cbn. by map_norm.
  - by rewrite Ha.
  - by rewrite Hclock.
  - by rewrite Hcont.
  - by rewrite Hnn.
  - intros i Hi. rewrite Hnn in Hi. cbn in Hi. rewrite Hn. cbn.
    map_norm. apply Hfr. lia.
Qed.

(** C5 (creation).  createNote appends one new Item -- an editable P with one
    delete control -- focuses it and calls updateStorage.  Its identifier is
    the clock reading, so it is not always new: two notes created within the
    same millisecond are two different Items carrying the same
    data-note-id. *)
Theorem C5_createNote_identifier_not_unique (s : State) (c : node_id) (cn : Node) :
  notesContainer s = Some c → nodes s !! c = Some cn → nodes_fresh s →
  ∃ s1 s2 item1 item2,
    createNote s = Normal tt s1 ∧ createNote s1 = Normal tt s2 ∧
    document_tree s1 = document_tree s ++ [item1] ∧
    document_tree s2 = document_tree s ++ [item1; item2] ∧
    item1 ≠ item2 ∧
    activeElement s1 = Some item1 ∧ activeElement s2 = Some item2 ∧
    note_id s1 item1 = Some (pretty (clock s)) ∧
    note_id s2 item1 = Some (pretty (clock s)) ∧
    note_id s2 item2 = Some (pretty (clock s)).
Proof.
  intros Hc Hcn Hfr.
  destruct (createNote_spec s c cn Hc Hcn Hfr)
    as (s1 & Hs1 & Ht1 & Hp1 & _ & Hc1 & _ & Ha1 & Hclock1 & Hcont1 & Hnn1 & Hfr1).
  destruct (createNote_spec s1 c _ Hcont1 Hc1 Hfr1)
    as (s2 & Hs2 & Ht2 & Hp2 & _ & _ & Hold2 & Ha2 & _).
  assert (c < next_node s)%positive as Hlt.
  { destruct (decide (c < next_node s)%positive) as [|Hge]; [done|].
    rewrite Hfr in Hcn by lia. done. }
  exists s1, s2, (Pos.succ (next_node s)), (Pos.succ (next_node s1)).
  split_and!; try done.
  - by rewrite Ht2, Ht1, <- app_assoc.
  - rewrite Hnn1. lia.
  - unfold note_id. by rewrite Hp1.
  - unfold note_id. rewrite Hold2 by (rewrite ?Hnn1; lia). by rewrite Hp1.
  - unfold note_id. rewrite Hp2. cbn. by rewrite Hclock1.
Qed.

(** Unlinking a child of [c] filters it out of [c]'s children and touches no
    other node but the child itself. *)
Lemma dom_remove_child (ns : gmap node_id Node) (p c : node_id) (pn cn : Node) :
  ns !! p = Some pn → parentNode pn = Some c → ns !! c = Some cn →
  childNodes (dom_remove p ns !!! c) = filter (λ x, x ≠ p) (childNodes cn) ∧
  (∀ i, i ≠ p → i ≠ c → dom_remove p ns !! i = ns !! i) ∧
  (p ≠ c → dom_remove p ns !! p = Some (with_parentNode None pn)).
Proof.
  intros Hp Hpar Hc. unfold dom_remove. rewrite Hp. cbn. rewrite Hpar.
  split_and!.
  - destruct (decide (p = c)) as [->|Hne].
    + erewrite lookup_total_correct;
        [|by rewrite lookup_alter_eq, lookup_alter_eq, Hc].
      done.
    + erewrite lookup_total_correct;
        [|by rewrite lookup_alter_ne, lookup_alter_eq, Hc].
      done.
  - intros i Hip Hic. by rewrite !lookup_alter_ne.
  - intros Hne. rewrite lookup_alter_eq, lookup_alter_ne by done. by rewrite Hp.
Qed.

Lemma handleNotesClick_other (s : State) (target : node_id) :
  is_delete_control (nodes s !!! target) = false →
  handleNotesClick target s = Normal tt s.
Proof.
  intros Hk. unfold handleNotesClick, get_node, gets, mbind, Js_bind.
  unfold is_delete_control in Hk. by rewrite Hk.
Qed.

Lemma handleNotesClick_delete (s : State) (target p : node_id) (t pn : Node) :
  is_delete_control (nodes s !!! target) = true →
  nodes s !! target = Some t → parentNode t = Some p →
  nodes s !! p = Some pn → kind pn = ElementNode →
  handleNotesClick target s = updateStorage (note_removed s p).
Proof.
  intros Hk Ht Hpar Hp Hkind.
  unfold handleNotesClick, get_node, gets, mbind, Js_bind.
  unfold is_delete_control in Hk. rewrite Hk.
  unfold preventDefault, parentElement, modify. cbn.
  rewrite Ht. cbn. rewrite Hpar. cbn. rewrite Hp. cbn.
  rewrite decide_True by done. done.
Qed.

(** C6 (routing of clicks), as the code has it.  A click whose target is not
    an IMG of class delete-btn changes nothing and requests nothing.  A click
    on such an IMG suppresses the default action, unlinks the target's parent
    element -- whatever that element is -- and calls updateStorage.  When the
    parent is an Item (a child of the container, as in every Item createNote
    builds), exactly that Item leaves the Document Tree: the other Items stay,
    in order, and no other node changes. *)
Theorem C6_click_routing (s : State) (target : node_id) :
  (is_delete_control (nodes s !!! target) = false →
   handleNotesClick target s = Normal tt s) ∧
  (is_delete_control (nodes s !!! target) = true →
   ∀ t p pn,
     nodes s !! target = Some t → parentNode t = Some p →
     nodes s !! p = Some pn → kind pn = ElementNode →
     ∃ s',
       handleNotesClick target s = Normal tt s' ∧
       updateStorage (note_removed s p) = Normal tt s' ∧
       defaultPrevented s' = true ∧
       nodes s' = dom_remove p (nodes s) ∧
       ∀ c cn,
         notesContainer s = Some c → nodes s !! c = Some cn → parentNode pn = Some c →
         document_tree s' = filter (λ x, x ≠ p) (document_tree s) ∧
         (∀ i, i ≠ p → i ≠ c → nodes s' !! i = nodes s !! i)).
Proof.
  split; [apply handleNotesClick_other|].
  intros Hk t p pn Ht Hpar Hp Hkind.
  rewrite (handleNotesClick_delete s target p t pn) by done.
  destruct (updateStorage_frame (note_removed s p))
    as (s' & -> & _ & Hn & _ & _ & Hdp & Hcont).
  exists s'. split_and!; try done.
  intros c cn Hc Hcn Hparent.
  destruct (dom_remove_child (nodes s) p c pn cn Hp Hparent Hcn) as (Hkids & Hrest & _).
  split.
  - unfold document_tree. rewrite Hcont. cbn. rewrite Hc, Hn. cbn.
    by rewrite Hkids, (lookup_total_correct _ _ _ Hcn).
  - intros i Hip Hic. rewrite Hn. cbn. by apply Hrest.
Qed.

(** ** The timer discipline holds in every reachable state *)

Lemma updateStorage_wf (s : State) :
  timers_wf s → timers_wf (settle (updateStorage s)).
Proof.
  intros Hwf. rewrite updateStorage_eq. cbn [settle].
  destruct (probe_ok (localStorage s)).
  - by apply rearm_wf, probed_wf.
  - by apply probed_wf.
Qed.

Lemma save_callback_wf (s : State) :
  timers_wf s → timers_wf (settle (save_callback s)).
Proof.
  intros Hwf. destruct (save_callback_frame s) as (s' & -> & _ & Ht & Hn & Hd & _).
  unfold timers_wf. cbn [settle]. by rewrite Ht, Hn, Hd.
Qed.

Lemma createNote_wf (s : State) :
  timers_wf s → timers_wf (settle (createNote s)).
Proof.
  intros Hwf.
  unfold createNote, createDocumentFragment, createElement, alloc_node, set_className,
    set_contentEditable, set_src, set_alt, setAttribute, update_node, appendChild, focus,
    this_notesContainer, Date_now, gets, modify, mbind, Js_bind.
  cbn. destruct (notesContainer s); cbn; [|done].
  by apply updateStorage_wf.
Qed.

Lemma handleNotesClick_wf (s : State) (target : node_id) :
  timers_wf s → timers_wf (settle (handleNotesClick target s)).
Proof.
  intros Hwf. unfold handleNotesClick, get_node, gets, mbind, Js_bind.
  destruct (_ && _); [|done].
  unfold preventDefault, parentElement, modify, deleteNote, remove, mbind, Js_bind. cbn.
  match goal with |- context [match ?o with Some _ => _ | None => _ end] =>
    destruct o end; [|done].
  by apply updateStorage_wf.
Qed.

Lemma handleNotesInput_wf (s : State) (target : node_id) :
  timers_wf s → timers_wf (settle (handleNotesInput target s)).
Proof.
  intros Hwf. unfold handleNotesInput, get_node, gets, mbind, Js_bind.
  destruct (classList_contains _ _); [|done].
  by apply updateStorage_wf.
Qed.

Lemma handleNotesPaste_wf (s : State) (target : node_id) :
  timers_wf s → timers_wf (settle (handleNotesPaste target s)).
Proof.
  intros Hwf. unfold handleNotesPaste, setTimeout, mbind, Js_bind, mret, Js_ret.
  unfold timers_wf. cbn.
  apply slot_wf_push with (slot := debounceTimer s); try done. by left.
Qed.

Lemma step_wf (s s' : State) (ev : Event) :
  timers_wf s → step s ev = Some s' → timers_wf s'.
Proof.
  intros Hwf Hstep. destruct ev; cbn in Hstep.
  - destruct (decide (0 ≤ dt)); [|done]. by injection Hstep as <-.
  - change (step s (Ev_timer h) = Some s') in Hstep.
    apply step_timer_inv in Hstep as (t & _ & _ & _ & ->).
    pose proof (without_wf h s Hwf) as Hwf'.
    destruct (t_cb t); cbn [run_callback].
    + by apply save_callback_wf.
    + by apply updateStorage_wf.
  - injection Hstep as <-. by apply updateStorage_wf.
  - destruct (listening s); [|done]. injection Hstep as <-.
    by apply (createNote_wf (with_defaultPrevented false s)).
  - destruct (bubbles s target); [|done]. injection Hstep as <-.
    by apply (handleNotesClick_wf (with_defaultPrevented false s)).
  - destruct (bubbles s target); [|done]. injection Hstep as <-.
    by apply (handleNotesInput_wf (with_defaultPrevented false s)).
  - destruct (bubbles s target); [|done]. injection Hstep as <-.
    pose proof (handleNotesPaste_wf (with_defaultPrevented false s) target Hwf) as Hwf'.
    fold (dispatch (handleNotesPaste target) s) in Hwf'.
    destruct (defaultPrevented (dispatch (handleNotesPaste target) s)); exact Hwf'.
  - by injection Hstep as <-.
  - by injection Hstep as <-.
Qed.

Lemma run_wf (evs : list Event) (s s' : State) :
  timers_wf s → run s evs = Some s' → timers_wf s'.
Proof.
  revert s. induction evs as [|ev evs IH]; intros s Hwf Hrun.
  - by injection Hrun as <-.
  - cbn in Hrun. destruct (step s ev) as [s1|] eqn:Hstep; [|done].
    eapply IH; [|exact Hrun]. by eapply step_wf.
Qed.

(** A page on which no timer is pending satisfies it once constructed. *)
Lemma constructor_wf (s : State) (container btn : option node_id) :
  timers s = [] → timers_wf (final_state (constructor container btn s)).
Proof.
  intros Ht.
  assert (∀ s0, timers s0 = [] → debounceTimer s0 = None →
                timers_wf (final_state (init s0))) as Hinit.
  { intros s0 Ht0 Hd0.
    assert (∀ s1, timers s1 = [] → debounceTimer s1 = None → timers_wf s1) as Hempty.
    { intros s1 Ht1 Hd1. unfold timers_wf. rewrite Ht1, Hd1.
      split; [apply NoDup_nil_2|constructor|constructor|done]. }
    unfold init, mbind, Js_bind, gets.
    destruct (negb _ || negb _); [by apply Hempty|].
    rewrite isLocalStorageAvailable_eq.
    destruct (probed_frame s0) as (_ & Htp & _ & _ & _ & _ & _ & _ & _ & Hdp & _).
    assert (∀ sw, timers sw = [] → debounceTimer sw = None →
              timers_wf (final_state
                (match loadNotes sw with
                 | Normal a s' => attachEventListeners s'
                 | Throw e s' => Throw e s'
                 end))) as Hrest.
    { intros sw Htw Hdw.
      destruct (loadNotes_completes sw) as (s' & l & -> & _ & Ht' & Hd' & _).
      apply Hempty; cbn; congruence. }
    destruct (negb (probe_ok (localStorage s0))); cbn.
    - apply Hrest; cbn; congruence.
    - apply Hrest; congruence. }
  unfold constructor, mbind, Js_bind, modify. by apply Hinit.
Qed.

End claims.

(** * The properties on the concrete page *)

Module Examples.
Import Demo.

Ltac wf_by_computation :=
  split; vm_compute;
  [ apply NoDup_nil_2 | apply List.Forall_nil | apply List.Forall_nil
  | intros h Hh; discriminate Hh ].

Ltac by_computation := vm_compute; reflexivity.

(** A burst of three requests on the started page. *)
Lemma C1_witness :
  timers_wf (started (medium ∅)) ∧
  notesContainer (started (medium ∅)) = Some 1%positive ∧
  probe_ok (localStorage (started (medium ∅))) = true ∧
  in_burst 0 three_requests = true ∧
  run (started (medium ∅)) (Ev_updateStorage :: three_requests) = Some after_burst ∧
  ∃ (t : Timer) (T : Z),
    saves (new_log (started (medium ∅)) after_burst) = [] ∧
    pending_saves after_burst = [t] ∧ debounceTimer after_burst = Some (t_handle t) ∧
    last_request (log after_burst) = Some T ∧ t_due t = T + debounceDelay ∧
    (∀ h0, debounceTimer (started (medium ∅)) = Some h0 →
           h0 ∉ (t_handle <$> timers after_burst)) ∧
    ∀ d, 0 ≤ d →
      (clock after_burst + d < T + debounceDelay →
       run after_burst [Ev_advance d; Ev_timer (t_handle t)] = None) ∧
      (T + debounceDelay ≤ clock after_burst + d →
       ∃ s2, run after_burst [Ev_advance d; Ev_timer (t_handle t)] = Some s2 ∧
             saves (new_log (started (medium ∅)) s2) =
               [(clock after_burst + d,
                 E_setItem snapshot_key
                   (serialize_children (nodes after_burst) 1%positive))] ∧
             pending_saves s2 = []).
Proof.
  assert (timers_wf (started (medium ∅))) as Hwf by wf_by_computation.
  assert (notesContainer (started (medium ∅)) = Some 1%positive) as Hc by by_computation.
  assert (probe_ok (localStorage (started (medium ∅))) = true) as Hp by by_computation.
  assert (in_burst 0 three_requests = true) as Hb by by_computation.
  assert (run (started (medium ∅)) (Ev_updateStorage :: three_requests) = Some after_burst)
    as Hrun by by_computation.
  refine (conj Hwf (conj Hc (conj Hp (conj Hb (conj Hrun _))))).
  exact (C1_debounce_coalescing _ _ _ _ Hwf Hc Hp Hb Hrun).
Defined.

(** A request, then the user types "hello", then the timer fires. *)
Lemma C2_witness :
  timers_wf (started (medium ∅)) ∧
  notesContainer (started (medium ∅)) = Some 1%positive ∧
  probe_ok (localStorage (started (medium ∅))) = true ∧
  0 ≤ 100 ∧ 0 ≤ 200 ∧ debounceDelay ≤ 100 + 200 ∧
  ∃ s1 h s3,
    step (started (medium ∅)) Ev_updateStorage = Some s1 ∧ debounceTimer s1 = Some h ∧
    nodes s1 = nodes (started (medium ∅)) ∧
    saves (new_log (started (medium ∅)) s1) = [] ∧
    run s1 [Ev_advance 100; Ev_edit typed; Ev_advance 200; Ev_timer h] = Some s3 ∧
    saves (new_log (started (medium ∅)) s3) =
      [(clock (started (medium ∅)) + 100 + 200,
        E_setItem snapshot_key (serialize_children typed.1 1%positive))] ∧
    (∀ ns nx, final_state (updateStorage (with_nodes ns nx (started (medium ∅)))) =
              with_nodes ns nx (final_state (updateStorage (started (medium ∅))))).
Proof.
  assert (timers_wf (started (medium ∅))) as Hwf by wf_by_computation.
  assert (notesContainer (started (medium ∅)) = Some 1%positive) as Hc by by_computation.
  assert (probe_ok (localStorage (started (medium ∅))) = true) as Hp by by_computation.
  assert (0 ≤ 100) as H1 by lia.
  assert (0 ≤ 200) as H2 by lia.
  assert (debounceDelay ≤ 100 + 200) as H3 by (unfold debounceDelay; lia).
  refine (conj Hwf (conj Hc (conj Hp (conj H1 (conj H2 (conj H3 _)))))).
  exact (C2_snapshot_taken_at_fire_time _ _ typed 100 200 Hwf Hc Hp H1 H2 H3).
Defined.

(** The medium is full: the probe fails, yet the stored notes are read. *)
Lemma C3_witness :
  probe_ok (localStorage (started (full_medium {[ "notes" := "hello" ]}))) = false ∧
  (∃ s1, updateStorage (started (full_medium {[ "notes" := "hello" ]})) = Normal tt s1 ∧
     timers s1 = timers (started (full_medium {[ "notes" := "hello" ]})) ∧
     debounceTimer s1 = debounceTimer (started (full_medium {[ "notes" := "hello" ]})) ∧
     nodes s1 = nodes (started (full_medium {[ "notes" := "hello" ]})) ∧
     items (localStorage s1) !! snapshot_key =
       items (localStorage (started (full_medium {[ "notes" := "hello" ]}))) !! snapshot_key ∧
     Forall (λ e, touches_snapshot e = false ∧ is_request e = false)
       (new_log (started (full_medium {[ "notes" := "hello" ]})) s1)) ∧
  (∃ s2 l, loadNotes (started (full_medium {[ "notes" := "hello" ]})) = Normal tt s2 ∧
     new_log (started (full_medium {[ "notes" := "hello" ]})) s2 =
       (clock (started (full_medium {[ "notes" := "hello" ]})), E_getItem snapshot_key) :: l ∧
     timers s2 = timers (started (full_medium {[ "notes" := "hello" ]})) ∧
     (∀ c v,
        get_fault (localStorage (started (full_medium {[ "notes" := "hello" ]})))
          snapshot_key = None →
        items (localStorage (started (full_medium {[ "notes" := "hello" ]})))
          !! snapshot_key = Some v →
        v ≠ "" →
        notesContainer (started (full_medium {[ "notes" := "hello" ]})) = Some c →
        loaded (started (full_medium {[ "notes" := "hello" ]})) = Some v)).
Proof.
  assert (probe_ok (localStorage (started (full_medium {[ "notes" := "hello" ]}))) = false)
    as Hp by by_computation.
  exact (conj Hp (C3_availability_gating _ Hp)).
Defined.

(** A write refused for lack of space. *)
Lemma C4_witness :
  notesContainer (with_localStorage (full_medium ∅) (started (medium ∅))) = Some 1%positive ∧
  set_fault (localStorage (with_localStorage (full_medium ∅) (started (medium ∅))))
    snapshot_key
    (serialize_children (nodes (with_localStorage (full_medium ∅) (started (medium ∅))))
       1%positive) = Some QuotaExceededError ∧
  ∃ s', save_callback (with_localStorage (full_medium ∅) (started (medium ∅))) = Normal tt s' ∧
    timers s' = timers (with_localStorage (full_medium ∅) (started (medium ∅))) ∧
    next_handle s' = next_handle (with_localStorage (full_medium ∅) (started (medium ∅))) ∧
    debounceTimer s' = debounceTimer (with_localStorage (full_medium ∅) (started (medium ∅))) ∧
    localStorage s' = localStorage (with_localStorage (full_medium ∅) (started (medium ∅))) ∧
    saves (new_log (with_localStorage (full_medium ∅) (started (medium ∅))) s') =
      [(clock (with_localStorage (full_medium ∅) (started (medium ∅))),
        E_setItem snapshot_key
          (serialize_children
             (nodes (with_localStorage (full_medium ∅) (started (medium ∅)))) 1%positive))] ∧
    filter (λ x, is_console_error x = true)
      (new_log (with_localStorage (full_medium ∅) (started (medium ∅))) s') =
      [(clock (with_localStorage (full_medium ∅) (started (medium ∅))),
        E_console_error "Error saving notes:" (Some QuotaExceededError))] ∧
    filter (λ x, is_alert x = true)
      (new_log (with_localStorage (full_medium ∅) (started (medium ∅))) s') =
      if String.eqb (err_name QuotaExceededError) "QuotaExceededError"
      then [(clock (with_localStorage (full_medium ∅) (started (medium ∅))),
             E_alert quota_message)]
      else [].
Proof.
  assert (notesContainer (with_localStorage (full_medium ∅) (started (medium ∅)))
          = Some 1%positive) as Hc by by_computation.
  assert (set_fault (localStorage (with_localStorage (full_medium ∅) (started (medium ∅))))
            snapshot_key
            (serialize_children
               (nodes (with_localStorage (full_medium ∅) (started (medium ∅)))) 1%positive)
          = Some QuotaExceededError) as He by by_computation.
  exact (conj Hc (conj He (C4_save_failure_handling _ _ _ Hc He))).
Defined.

(** Two notes created in the same millisecond. *)
Lemma C5_witness :
  notesContainer (started (medium ∅)) = Some 1%positive ∧
  nodes (started (medium ∅)) !! 1%positive = Some (element "DIV" "notes-container" None []) ∧
  nodes_fresh (started (medium ∅)) ∧
  ∃ s1 s2 item1 item2,
    createNote (started (medium ∅)) = Normal tt s1 ∧ createNote s1 = Normal tt s2 ∧
    document_tree s1 = document_tree (started (medium ∅)) ++ [item1] ∧
    document_tree s2 = document_tree (started (medium ∅)) ++ [item1; item2] ∧
    item1 ≠ item2 ∧
    activeElement s1 = Some item1 ∧ activeElement s2 = Some item2 ∧
    note_id s1 item1 = Some (pretty (clock (started (medium ∅)))) ∧
    note_id s2 item1 = Some (pretty (clock (started (medium ∅)))) ∧
    note_id s2 item2 = Some (pretty (clock (started (medium ∅)))).
Proof.
  assert (notesContainer (started (medium ∅)) = Some 1%positive) as Hc by by_computation.
  assert (nodes (started (medium ∅)) !! 1%positive
          = Some (element "DIV" "notes-container" None [])) as Hcn by by_computation.
  assert (nodes_fresh (started (medium ∅))) as Hfr.
  { assert (nodes (started (medium ∅)) =
            {[ 1%positive := element "DIV" "notes-container" None [];
               2%positive := element "BUTTON" "btn" None [] ]}) as Hn by by_computation.
    assert (next_node (started (medium ∅)) = 3%positive) as Hx by by_computation.
    intros i Hi. rewrite Hx in Hi. rewrite Hn.
    rewrite lookup_insert_ne by lia. apply lookup_singleton_ne. lia. }
  exact (conj Hc (conj Hcn (conj Hfr
           (C5_createNote_identifier_not_unique _ _ _ Hc Hcn Hfr)))).
Defined.

(** A click on the delete control of the one note on the page. *)
Lemma C6_witness :
  is_delete_control (nodes (one_note (medium ∅)) !!! 4%positive) = true ∧
  is_delete_control (nodes (one_note (medium ∅)) !!! 3%positive) = false ∧
  handleNotesClick 3%positive (one_note (medium ∅)) = Normal tt (one_note (medium ∅)) ∧
  ∃ s', handleNotesClick 4%positive (one_note (medium ∅)) = Normal tt s' ∧
        updateStorage (note_removed (one_note (medium ∅)) 3%positive) = Normal tt s' ∧
        defaultPrevented s' = true ∧
        document_tree s' =
          filter (λ x, x ≠ 3%positive) (document_tree (one_note (medium ∅))).
Proof.
  assert (is_delete_control (nodes (one_note (medium ∅)) !!! 4%positive) = true)
    as Hk by by_computation.
  assert (is_delete_control (nodes (one_note (medium ∅)) !!! 3%positive) = false)
    as Hk' by by_computation.
  assert (nodes (one_note (medium ∅)) !! 4%positive
          = Some (element "IMG" "delete-btn" (Some 3%positive) [])) as Ht by by_computation.
  assert (nodes (one_note (medium ∅)) !! 3%positive
          = Some (element "P" "input-box" (Some 1%positive) [4%positive]))
    as Hp by by_computation.
  assert (nodes (one_note (medium ∅)) !! 1%positive
          = Some (element "DIV" "notes-container" None [3%positive]))
    as Hcn by by_computation.
  assert (notesContainer (one_note (medium ∅)) = Some 1%positive) as Hc by by_computation.
  refine (conj Hk (conj Hk' _)).
  destruct (C6_click_routing (one_note (medium ∅)) 3%positive) as [Hother _].
  refine (conj (Hother Hk') _).
  destruct (C6_click_routing (one_note (medium ∅)) 4%positive) as [_ Hdel].
  destruct (Hdel Hk _ _ _ Ht eq_refl Hp eq_refl) as (s' & Heq & Hreq & Hdp & _ & Hitem).
  destruct (Hitem _ _ Hc Hcn eq_refl) as [Htree _].
  exists s'. exact (conj Heq (conj Hreq (conj Hdp Htree))).
Defined.

(** One note saved, then loaded on a fresh page. *)
Lemma C7_witness :
  notesContainer (one_note (medium ∅)) = Some 1%positive ∧
  serialize_children (nodes (one_note (medium ∅))) 1%positive = "<P><IMG></IMG></P>" ∧
  set_fault (localStorage (one_note (medium ∅))) snapshot_key "<P><IMG></IMG></P>" = None ∧
  items (localStorage (started (medium {[ "notes" := "<P><IMG></IMG></P>" ]}))) !! snapshot_key =
    items (localStorage (final_state (save_callback (one_note (medium ∅))))) !! snapshot_key ∧
  get_fault (localStorage (started (medium {[ "notes" := "<P><IMG></IMG></P>" ]})))
    snapshot_key = None ∧
  notesContainer (started (medium {[ "notes" := "<P><IMG></IMG></P>" ]})) = Some 1%positive ∧
  "<P><IMG></IMG></P>" ≠ "" ∧
  items (localStorage (final_state (save_callback (one_note (medium ∅))))) !! snapshot_key
    = Some "<P><IMG></IMG></P>" ∧
  loaded (started (medium {[ "notes" := "<P><IMG></IMG></P>" ]})) = Some "<P><IMG></IMG></P>" ∧
  (nodes (final_state (loadNotes (started (medium {[ "notes" := "<P><IMG></IMG></P>" ]})))),
   next_node (final_state (loadNotes (started (medium {[ "notes" := "<P><IMG></IMG></P>" ]})))))
  = parse_into "<P><IMG></IMG></P>" 1%positive
      (nodes (started (medium {[ "notes" := "<P><IMG></IMG></P>" ]})),
       next_node (started (medium {[ "notes" := "<P><IMG></IMG></P>" ]}))).
Proof.
  assert (notesContainer (one_note (medium ∅)) = Some 1%positive) as H1 by by_computation.
  assert (serialize_children (nodes (one_note (medium ∅))) 1%positive
          = "<P><IMG></IMG></P>") as H2 by by_computation.
  assert (set_fault (localStorage (one_note (medium ∅))) snapshot_key "<P><IMG></IMG></P>"
          = None) as H3 by by_computation.
  assert (items (localStorage (started (medium {[ "notes" := "<P><IMG></IMG></P>" ]})))
            !! snapshot_key =
          items (localStorage (final_state (save_callback (one_note (medium ∅)))))
            !! snapshot_key) as H4 by by_computation.
  assert (get_fault (localStorage (started (medium {[ "notes" := "<P><IMG></IMG></P>" ]})))
            snapshot_key = None) as H5 by by_computation.
  assert (notesContainer (started (medium {[ "notes" := "<P><IMG></IMG></P>" ]}))
          = Some 1%positive) as H6 by by_computation.
  assert ("<P><IMG></IMG></P>" ≠ "") as H7 by (intros Hne; discriminate Hne).
  refine (conj H1 (conj H2 (conj H3 (conj H4 (conj H5 (conj H6 (conj H7 _))))))).
  exact (C7_round_trip _ _ _ _ _ H1 H2 H3 H4 H5 H6 H7).
Defined.

(** A paste into the note of the one-note page. *)
Lemma C8_witness :
  timers_wf (one_note (medium ∅)) ∧
  bubbles (one_note (medium ∅)) 3%positive = true ∧
  notesContainer (one_note (medium ∅)) = Some 1%positive ∧
  probe_ok (localStorage (one_note (medium ∅))) = true ∧
  ∃ s1 hp,
    step (one_note (medium ∅)) (Ev_paste 3%positive typed) = Some s1 ∧
    new_log (one_note (medium ∅)) s1 =
      [(clock (one_note (medium ∅)), E_setTimeout hp PasteCb 0)] ∧
    timers s1 = timers (one_note (medium ∅)) ++
      [{| t_handle := hp; t_due := clock (one_note (medium ∅)); t_cb := PasteCb |}] ∧
    debounceTimer s1 = debounceTimer (one_note (medium ∅)) ∧
    defaultPrevented s1 = false ∧ nodes s1 = typed.1 ∧ next_node s1 = typed.2 ∧
    ∃ s2 hs,
      step s1 (Ev_timer hp) = Some s2 ∧ debounceTimer s2 = Some hs ∧
      pending_saves s2 =
        [{| t_handle := hs; t_due := clock (one_note (medium ∅)) + debounceDelay;
            t_cb := SaveCb |}] ∧
      ∀ d, debounceDelay ≤ d →
        ∃ s3, run s2 [Ev_advance d; Ev_timer hs] = Some s3 ∧
              saves (new_log (one_note (medium ∅)) s3) =
                [(clock (one_note (medium ∅)) + d,
                  E_setItem snapshot_key (serialize_children typed.1 1%positive))].
Proof.
  assert (timers_wf (one_note (medium ∅))) as Hwf by wf_by_computation.
  assert (bubbles (one_note (medium ∅)) 3%positive = true) as Hb by by_computation.
  assert (notesContainer (one_note (medium ∅)) = Some 1%positive) as Hc by by_computation.
  assert (probe_ok (localStorage (one_note (medium ∅))) = true) as Hp by by_computation.
  refine (conj Hwf (conj Hb (conj Hc (conj Hp _)))).
  exact (C8_paste_defers_save _ _ _ typed Hwf Hb Hc Hp).
Defined.

(** A page started on a medium whose snapshot key holds the empty string. *)
Lemma C10_witness :
  items (localStorage (started (medium {[ "notes" := "" ]}))) !! snapshot_key = Some "" ∧
  (∃ s', loadNotes (started (medium {[ "notes" := "" ]})) = Normal tt s' ∧
         nodes s' = nodes (started (medium {[ "notes" := "" ]})) ∧
         next_node s' = next_node (started (medium {[ "notes" := "" ]}))) ∧
  loaded (started (medium {[ "notes" := "" ]})) = None ∧
  loadNotes (forget_snapshot (started (medium {[ "notes" := "" ]}))) =
    Normal tt (forget_snapshot (final_state (loadNotes (started (medium {[ "notes" := "" ]}))))) ∧
  nodes (final_state (init (started (medium {[ "notes" := "" ]})))) =
    nodes (started (medium {[ "notes" := "" ]})) ∧
  nodes (final_state (init (forget_snapshot (started (medium {[ "notes" := "" ]}))))) =
    nodes (started (medium {[ "notes" := "" ]})).
Proof.
  assert (items (localStorage (started (medium {[ "notes" := "" ]}))) !! snapshot_key
          = Some "") as Hv by by_computation.
  exact (conj Hv (C10_empty_snapshot_not_restored _ Hv)).
Defined.

(** A write refused for another reason than space: logged, no notification. *)
Example save_refused_without_alert :
  filter (λ x, is_alert x = true)
    (log (final_state (save_callback (with_localStorage (broken_medium ∅) (started (medium ∅))))))
  = [] ∧
  filter (λ x, is_console_error x = true)
    (log (final_state (save_callback (with_localStorage (broken_medium ∅) (started (medium ∅))))))
  = [(1700000000000, E_console_error "Error saving notes:" (Some SecurityError))].
Proof. split; by_computation. Qed.

(** Three notes are created, the second receives input, the first is deleted
    through its delete control, each within the quiet interval of the one
    before; one save follows, of the two notes that remain, in order. *)
Example three_created_one_deleted :
  ∃ s,
    run (started (medium ∅))
      [Ev_create; Ev_advance 50; Ev_create; Ev_advance 50; Ev_create; Ev_advance 50;
       Ev_input 7%positive; Ev_advance 50; Ev_click 5%positive;
       Ev_advance 300; Ev_timer 5%positive] = Some s ∧
    document_tree s = [7%positive; 10%positive] ∧
    saves (log s) =
      [(1700000000500, E_setItem snapshot_key "<P><IMG></IMG></P><P><IMG></IMG></P>")] ∧
    timers s = [].
Proof. eexists. split_and!; by_computation. Qed.

(** ** Where the specification's wording and the code part *)

(** The medium is full, so the probe answers "unavailable"; loadNotes reads
    the snapshot key all the same and restores "hello". *)
Lemma C3_counterexample : ¬ @gating_as_stated codec.
Proof.
  intros Hg.
  assert (probe_ok (localStorage (started (full_medium {[ "notes" := "hello" ]}))) = false)
    as Hp by by_computation.
  destruct (Hg _ Hp) as (_ & _ & _ & _ & _ & Hquiet).
  assert (new_log (started (full_medium {[ "notes" := "hello" ]}))
            (final_state (loadNotes (started (full_medium {[ "notes" := "hello" ]}))))
          = [(1700000000000, E_getItem "notes"); (1700000000000, E_innerHTML_set "hello")])
    as Hlog by by_computation.
  rewrite Hlog in Hquiet. inversion Hquiet as [|e l Hread _]. discriminate Hread.
Qed.

(** The delete control sits inside a SPAN inside the note: the click removes
    the SPAN and the note stays in the tree. *)
Lemma C6_counterexample : ¬ routing_as_stated.
Proof.
  intros Hr. specialize (Hr (nested (medium ∅)) 5%positive).
  assert (is_delete_control (nodes (nested (medium ∅)) !!! 5%positive) = true)
    as Hk by by_computation.
  rewrite Hk in Hr.
  assert (enclosing_item (nested (medium ∅)) 5%positive = Some 3%positive)
    as He by by_computation.
  destruct (Hr _ He) as [Htree _].
  vm_compute in Htree. discriminate Htree.
Qed.

(** An empty container is saved as the empty string; on the next start
    loadNotes hands nothing to the page. *)
Lemma C7_counterexample : ¬ @round_trip_as_stated codec.
Proof.
  intros Hr.
  assert (loaded (started (medium {[ "notes" := "" ]})) = Some "") as Hl.
  { apply (Hr (started (medium ∅)) 1%positive (started (medium {[ "notes" := "" ]}))
             1%positive ""); by_computation. }
  vm_compute in Hl. discriminate Hl.
Qed.

End Examples.

(** * Further properties of the code *)

Section further.
Context `{HtmlCodec}.

(** ** The availability probe (lines 32-41) *)

(** X1.  isLocalStorageAvailable never throws.  It answers [true] exactly when
    both [setItem("test", "test")] and [removeItem("test")] go through, and
    whatever it answers it leaves every key but ["test"], the timers, the
    slot and the tree as they were; its only calls are on the key ["test"]. *)
Theorem X1_probe_never_throws (s : State) :
  ∃ b s', isLocalStorageAvailable s = Normal b s' ∧
    (b = true ↔ set_fault (localStorage s) "test" "test" = None ∧
                remove_fault (localStorage s) "test" = None) ∧
    (∀ k, k ≠ "test" → items (localStorage s') !! k = items (localStorage s) !! k) ∧
    timers s' = timers s ∧ debounceTimer s' = debounceTimer s ∧ nodes s' = nodes s ∧
    Forall (λ e, e.2 = E_setItem "test" "test" ∨ e.2 = E_removeItem "test") (new_log s s').
Proof.
  unfold isLocalStorageAvailable, try_catch, mbind, Js_bind, setItem, removeItem, mret, Js_ret.
  cbn.
  destruct (set_fault (localStorage s) "test" "test") as [e|] eqn:Hs; cbn.
  { eexists _, _. split; [done|]. split_and!; try done.
    - split; [done|]. by intros [? _].
    - erewrite new_log_app; [|done]. repeat constructor. }
  destruct (remove_fault (localStorage s) "test") as [e|] eqn:Hr; cbn.
  - eexists _, _. split; [done|]. split_and!; try done.
    + split; [done|]. by intros [_ ?].
    + intros k Hk. cbn. by rewrite lookup_insert_ne.
    + erewrite new_log_app; [|cbn; by rewrite <- app_assoc].
      constructor; [by left|]. constructor; [by right|]. constructor.
  - eexists _, _. split; [done|]. split_and!; try done.
    + intros k Hk. cbn. by rewrite lookup_delete_ne, lookup_insert_ne.
    + erewrite new_log_app; [|cbn; by rewrite <- app_assoc].
      constructor; [by left|]. constructor; [by right|]. constructor.
Qed.

(** X2.  The probe is not free of side effects on the key it borrows.  When it
    answers [true], the key ["test"] is gone afterwards, whatever the page or
    the user had stored there; when the write goes through and the removal
    throws, the key is left holding ["test"]; when the write throws, the
    content of the medium is untouched. *)
Theorem X2_probe_clobbers_test_key (s : State) :
  (probe_ok (localStorage s) = true →
   items (localStorage (final_state (isLocalStorageAvailable s))) !! "test" = None) ∧
  (∀ e, set_fault (localStorage s) "test" "test" = None →
        remove_fault (localStorage s) "test" = Some e →
        items (localStorage (final_state (isLocalStorageAvailable s))) !! "test"
          = Some "test") ∧
  (∀ e, set_fault (localStorage s) "test" "test" = Some e →
        items (localStorage (final_state (isLocalStorageAvailable s)))
          = items (localStorage s)).
Proof.
  unfold probe_ok, isLocalStorageAvailable, try_catch, mbind, Js_bind, setItem, removeItem,
    mret, Js_ret. cbn.
  destruct (set_fault (localStorage s) "test" "test") as [e|] eqn:Hs; cbn.
  { split_and!; try done. }
  destruct (remove_fault (localStorage s) "test") as [e|] eqn:Hr; cbn.
  - split_and!; try done. intros _ _ _. apply lookup_insert_eq.
  - split_and!; try done. intros _. apply lookup_delete_eq.
Qed.

(** X3.  Probing is safe to repeat: a second probe right after the first
    gives the same answer and leaves the medium exactly as the first did. *)
Theorem X3_probe_is_repeatable (s : State) :
  ∃ b s1 s2,
    isLocalStorageAvailable s = Normal b s1 ∧
    isLocalStorageAvailable s1 = Normal b s2 ∧
    localStorage s2 = localStorage s1.
Proof.
  unfold isLocalStorageAvailable, try_catch, mbind, Js_bind, setItem, removeItem, mret, Js_ret.
  cbn.
  destruct (set_fault (localStorage s) "test" "test") as [e|] eqn:Hs; cbn.
  { eexists _, _, _. split; [done|]. cbn. rewrite Hs. cbn. done. }
  destruct (remove_fault (localStorage s) "test") as [e|] eqn:Hr; cbn.
  - eexists _, _, _. split; [done|]. cbn. rewrite Hs. cbn. rewrite Hr. cbn.
    split; [done|]. unfold with_items. cbn. by rewrite insert_insert_eq.
  - eexists _, _, _. split; [done|]. cbn. rewrite Hs. cbn. rewrite Hr. cbn.
    split; [done|]. unfold with_items. cbn.
    by rewrite !delete_insert_eq, delete_delete_eq.
Qed.

(** ** Start-up (lines 7-29) *)

(** loadNotes changes nothing but the tree and the log, and logs neither a
    request, nor a write of the snapshot, nor a warning. *)
Lemma loadNotes_frame (s : State) :
  ∃ s' l, loadNotes s = Normal tt s' ∧ log s' = log s ++ l ∧
    Forall (λ e, quiet e ∧ is_console_warn e = false) l ∧
    clock s' = clock s ∧ timers s' = timers s ∧ next_handle s' = next_handle s ∧
    debounceTimer s' = debounceTimer s ∧ localStorage s' = localStorage s ∧
    notesContainer s' = notesContainer s ∧ createBtn s' = createBtn s ∧
    listening s' = listening s.
Proof.
  js_unfold. cbn.
  destruct (get_fault (localStorage s) "notes") as [e|]; cbn.
  { eexists _, [_; _]. split; [done|]. cbn. rewrite <- app_assoc.
    split_and!; try done. repeat constructor. }
  destruct (truthy (items (localStorage s) !! "notes")); cbn.
  2:{ eexists _, [_]. split; [done|]. split_and!; try done. repeat constructor. }
  destruct (notesContainer s) as [c|] eqn:Hc; cbn.
  - destruct (parse_into _ c _) as [ns nx]. eexists _, [_; _]. split; [done|].
    cbn. rewrite <- app_assoc. split_and!; try done. repeat constructor.
  - eexists _, [_; _]. split; [done|]. cbn. rewrite <- app_assoc.
    split_and!; try done. repeat constructor.
Qed.

(** X4.  When either element is missing from the page, the constructor does
    one thing: it logs "Required DOM elements not found".  It does not probe,
    read or write the medium, does not touch the tree, and attaches no
    listener: from then on the loop delivers no click, input, paste or
    create to the application. *)
Theorem X4_constructor_without_elements (page : State) (container btn : option node_id) :
  container = None ∨ btn = None →
  ∃ s, constructor container btn page = Normal tt s ∧
    new_log page s = [(clock page, E_console_error "Required DOM elements not found" None)] ∧
    localStorage s = localStorage page ∧ nodes s = nodes page ∧
    timers s = timers page ∧ debounceTimer s = None ∧ listening s = false ∧
    step s Ev_create = None ∧
    ∀ target, step s (Ev_click target) = None ∧ step s (Ev_input target) = None ∧
              ∀ after, step s (Ev_paste target after) = None.
Proof.
  intros Hmissing.
  unfold constructor, init, mbind, Js_bind, modify, gets, console_error. cbn.
  assert (negb (bool_decide (is_Some container)) || negb (bool_decide (is_Some btn)) = true)
    as ->.
  { destruct Hmissing as [-> | ->]; cbn.
    - done.
    - by rewrite orb_true_r. }
  eexists. split; [done|]. split_and!; try done.
  by erewrite new_log_app.
Qed.

(** X5.  When both elements are present, the constructor never throws and
    always ends with the listeners attached.  It warns exactly when the probe
    fails, and exactly once; it arms no timer and writes no snapshot; and
    whenever the snapshot key can be read and holds a non-empty string, that
    string is restored into the container -- also on a medium the probe has
    just declared unavailable. *)
Theorem X5_constructor_with_elements (page : State) (c b : node_id) :
  ∃ s, constructor (Some c) (Some b) page = Normal tt s ∧
    listening s = true ∧ notesContainer s = Some c ∧ createBtn s = Some b ∧
    debounceTimer s = None ∧ timers s = timers page ∧
    filter (λ e, is_console_warn e = true) (new_log page s) =
      (if probe_ok (localStorage page) then []
       else [(clock page,
              E_console_warn "localStorage is not available. Notes will not persist.")]) ∧
    Forall quiet (new_log page s) ∧
    ∀ v, get_fault (localStorage page) snapshot_key = None →
         items (localStorage page) !! snapshot_key = Some v → v ≠ "" →
         (nodes s, next_node s) = parse_into v c (nodes page, next_node page).
Proof.
  unfold constructor, init, mbind, Js_bind, modify, gets. cbn.
  rewrite isLocalStorageAvailable_eq.
  set (s0 := {| clock := clock page; timers := timers page;
                next_handle := next_handle page; localStorage := localStorage page;
                nodes := nodes page; next_node := next_node page;
                activeElement := activeElement page;
                defaultPrevented := defaultPrevented page; log := log page;
                notesContainer := Some c; createBtn := Some b;
                debounceTimer := None; listening := false |}).
  change (localStorage s0) with (localStorage page).
  destruct (probed_frame s0)
    as (Hclock & Htimers & _ & Hnodes & Hnn & _ & _ & Hcont & Hbtn & Hd & _).
  destruct (probed_medium s0) as (_ & Hgf & _ & Hitems).
  destruct (probed_log s0) as (lp & Hlp & Hallp).
  assert (Forall (λ e, quiet e ∧ is_console_warn e = false) lp) as Hquietp.
  { eapply Forall_impl; [exact Hallp|]. cbn.
    intros [t e] [_ [He|He]]; cbn in *; subst e; done. }
  (* the state in which loadNotes starts: probed, and warned when the probe failed *)
  set (sw := if probe_ok (localStorage page) then probed s0
             else emit (E_console_warn
                          "localStorage is not available. Notes will not persist.")
                       (probed s0)).
  assert (match (if negb (probe_ok (localStorage page))
                 then console_warn "localStorage is not available. Notes will not persist."
                 else mret tt) (probed s0) with
          | Normal a s' =>
              match loadNotes s' with
              | Normal a0 s'0 => attachEventListeners s'0
              | Throw e s'0 => Throw e s'0
              end
          | Throw e s' => Throw e s'
          end =
          match loadNotes sw with
          | Normal a0 s'0 => attachEventListeners s'0
          | Throw e s'0 => Throw e s'0
          end) as ->.
  { subst sw. by destruct (probe_ok (localStorage page)). }
  destruct (loadNotes_frame sw)
    as (s' & l & Hload & Hl & Hquiet & _ & Ht' & _ & Hd' & _ & Hc' & Hb' & _).
  rewrite Hload. cbn. eexists. split; [done|]. cbn.
  assert (timers sw = timers page ∧ debounceTimer sw = None ∧
          notesContainer sw = Some c ∧ createBtn sw = Some b ∧
          nodes sw = nodes page ∧ next_node sw = next_node page ∧
          get_fault (localStorage sw) = get_fault (localStorage page) ∧
          items (localStorage sw) !! snapshot_key = items (localStorage page) !! snapshot_key)
    as (Htw & Hdw & Hcw & Hbw & Hnw & Hnnw & Hgw & Hiw).
  { subst sw. destruct (probe_ok (localStorage page)); cbn; by split_and!. }
  assert (log s' = log page ++
            (lp ++ (if probe_ok (localStorage page) then []
                    else [(clock page,
                           E_console_warn
                             "localStorage is not available. Notes will not persist.")])
                ++ l)) as Hlog.
  { rewrite Hl. subst sw. destruct (probe_ok (localStorage page)); cbn.
    - change (log s0) with (log page) in Hlp. by rewrite Hlp, <- !app_assoc.
    - change (log s0) with (log page) in Hlp. rewrite Hlp, Hclock.
      by rewrite <- !app_assoc. }
  split_and!; try congruence.
  - erewrite new_log_app; [|exact Hlog]. rewrite !filter_app.
    rewrite (filter_none _ lp).
    2:{ eapply Forall_impl; [exact Hquietp|]. cbn. intros e [_ He]. by rewrite He. }
    rewrite (filter_none _ l).
    2:{ eapply Forall_impl; [exact Hquiet|]. cbn. intros e [_ He]. by rewrite He. }
    rewrite app_nil_r. by destruct (probe_ok (localStorage page)).
  - erewrite new_log_app; [|exact Hlog]. rewrite !Forall_app. split_and!.
    + eapply Forall_impl; [exact Hquietp|]. by intros e [? _].
    + destruct (probe_ok (localStorage page)); repeat constructor.
    + eapply Forall_impl; [exact Hquiet|]. by intros e [? _].
  - intros v Hg Hv Hne.
    rewrite (loadNotes_restores sw c v) in Hload; try done; try congruence.
    injection Hload as <-. cbn. rewrite Hnw, Hnnw.
    by destruct (parse_into v c (nodes page, next_node page)).
Qed.

(** ** The error paths of loading and saving (lines 44-53, 65-75) *)


(** X7.  A save that goes through stores the serialization of the tree under
    "notes" and does nothing else: every other key keeps its value, the log
    gains the one call and no console entry or alert, and timers, slot and
    tree are untouched. *)
Theorem X7_save_callback_success (s : State) (c : node_id) :
  notesContainer s = Some c →
  set_fault (localStorage s) snapshot_key (serialize_children (nodes s) c) = None →
  ∃ s', save_callback s = Normal tt s' ∧
    items (localStorage s') !! snapshot_key = Some (serialize_children (nodes s) c) ∧
    (∀ k, k ≠ snapshot_key → items (localStorage s') !! k = items (localStorage s) !! k) ∧
    new_log s s' = [(clock s, E_setItem snapshot_key (serialize_children (nodes s) c))] ∧
    timers s' = timers s ∧ debounceTimer s' = debounceTimer s ∧
    nodes s' = nodes s ∧ next_node s' = next_node s.
Proof.
  intros Hc Hset. rewrite (save_callback_eq s c Hc). cbn zeta. rewrite Hset.
  eexists. split; [done|]. cbn. split_and!; try done.
  - apply lookup_insert_eq.
  - intros k Hk. by rewrite lookup_insert_ne.
  - by erewrite new_log_app.
Qed.


(** ** destroy (lines 168-175) *)

Lemma destroy_eq (s : State) :
  destroy s =
  Normal tt match debounceTimer s with
            | Some h => final_state (clearTimeout h s)
            | None => s
            end.
Proof. unfold destroy, mbind, Js_bind, gets. by destruct (debounceTimer s). Qed.

Lemma destroy_spec (s : State) :
  timers_wf s →
  ∃ s' l, destroy s = Normal tt s' ∧
    pending_saves s' = [] ∧ log s' = log s ++ l ∧
    l = match debounceTimer s with
        | Some h => [(clock s, E_clearTimeout h)]
        | None => []
        end ∧
    (∀ t, t ∈ timers s → debounceTimer s ≠ Some (t_handle t) → t ∈ timers s') ∧
    clock s' = clock s ∧ next_handle s' = next_handle s ∧
    localStorage s' = localStorage s ∧ listening s' = listening s ∧
    debounceTimer s' = debounceTimer s ∧ notesContainer s' = notesContainer s ∧
    nodes s' = nodes s ∧ timers_wf s'.
Proof.
  intros Hwf. rewrite destroy_eq.
  pose proof (wf_slot _ _ _ Hwf) as Hslot.
  destruct (debounceTimer s) as [h|] eqn:Hd; cbn [final_state clearTimeout].
  - eexists _, _. split; [done|]. cbn. rewrite Hd. split_and!; try done.
    + unfold pending_saves. cbn. apply filter_none.
      apply Forall_forall. intros t Ht%list_elem_of_filter Hcb.
      destruct Ht as [Hne Ht]. rewrite Forall_forall in Hslot.
      specialize (Hslot t Ht Hcb). congruence.
    + intros t Ht Hne. apply list_elem_of_filter. split; [congruence|done].
    + unfold timers_wf. cbn. rewrite Hd.
      eapply slot_wf_sublist; [apply sublist_filter|]. by rewrite <- Hd.
  - exists s, []. split; [done|]. rewrite Hd. split_and!; try done.
    + unfold pending_saves. apply filter_none.
      eapply Forall_impl; [exact Hslot|]. cbn. intros t Ht Hcb.
      specialize (Ht Hcb). congruence.
    + by rewrite app_nil_r.
Qed.

(** X9.  destroy cancels the pending save and flushes nothing: afterwards no
    save timer is pending, the medium has not been written, and what had
    been typed since the last save is not persisted.  The listeners stay
    attached and [this.debounceTimer] keeps its (now stale) handle. *)
Theorem X9_destroy_cancels_without_flushing (s : State) :
  timers_wf s →
  ∃ s', destroy s = Normal tt s' ∧
    pending_saves s' = [] ∧
    localStorage s' = localStorage s ∧ saves (new_log s s') = [] ∧
    new_log s s' = match debounceTimer s with
                   | Some h => [(clock s, E_clearTimeout h)]
                   | None => []
                   end ∧
    listening s' = listening s ∧ debounceTimer s' = debounceTimer s ∧
    nodes s' = nodes s ∧ timers_wf s'.
Proof.
  intros Hwf.
  destruct (destroy_spec s Hwf)
    as (s' & l & Heq & Hpend & Hlog & Hl & _ & _ & _ & Hm & Hli & Hd & _ & Hn & Hwf').
  exists s'. rewrite (new_log_app _ _ _ Hlog). split_and!; try done.
  rewrite Hl. by destruct (debounceTimer s).
Qed.

Lemma paste_step_eq (s : State) (target : node_id) (after : gmap node_id Node * node_id) :
  bubbles s target = true → step s (Ev_paste target after) = Some (pasted s after).
Proof.
  intros Hb. cbn. rewrite Hb.
  unfold dispatch, handleNotesPaste, mbind, Js_bind, setTimeout, mret, Js_ret, pasted,
    paste_timer.
  cbn. by rewrite Z.add_0_r.
Qed.

(** X10.  destroy only clears the save timer.  The zero-delay callback of a
    paste that is still queued survives it: when the host runs that callback
    after destroy, updateStorage arms a new save timer, and the snapshot is
    written after the quiet interval all the same. *)
Theorem X10_destroy_leaves_paste_callback (s : State) (target c : node_id)
    (after : gmap node_id Node * node_id) :
  timers_wf s → bubbles s target = true → notesContainer s = Some c →
  probe_ok (localStorage s) = true →
  ∃ s2 s3 hs,
    destroy (pasted s after) = Normal tt s2 ∧ pending_saves s2 = [] ∧
    step s2 (Ev_timer (next_handle s)) = Some s3 ∧
    pending_saves s3 =
      [{| t_handle := hs; t_due := clock s + debounceDelay; t_cb := SaveCb |}] ∧
    ∀ d, debounceDelay ≤ d →
      ∃ s4, run s3 [Ev_advance d; Ev_timer hs] = Some s4 ∧
            saves (new_log s s4) =
              [(clock s + d, E_setItem snapshot_key (serialize_children after.1 c))].
Proof.
  intros Hwf Hb Hc Hp.
  pose proof (step_wf _ _ _ Hwf (paste_step_eq s target after Hb)) as Hwf1.
  destruct (destroy_spec _ Hwf1)
    as (s2 & l2 & Hdes & Hpend2 & Hlog2 & Hl2 & Hkeep & Hclock2 & Hnh2 & Hm2 & _ & _
        & Hcont2 & Hn2 & Hwf2).
  assert (paste_timer s ∈ timers s2) as Hin.
  { apply Hkeep.
    - cbn. apply elem_of_app. right. by apply list_elem_of_singleton.
    - cbn. intros Hslot. pose proof (wf_handle _ _ _ Hwf _ Hslot). lia. }
  pose proof (step_timer_fire s2 (paste_timer s) Hwf2 Hin) as Hfire.
  cbn [paste_timer t_handle t_cb t_due run_callback] in Hfire.
  set (s2' := without (next_handle s) s2) in *.
  assert (probe_ok (localStorage s2') = true) as Hp2 by (cbn; by rewrite Hm2).
  pose proof (without_wf (next_handle s) s2 Hwf2) as Hwf2'. fold s2' in Hwf2'.
  rewrite (request_eq _ Hp2) in Hfire.
  destruct (request_establishes _ Hwf2' Hp2)
    as (Hwf3 & Hp3 & Hc3 & Hcont3 & Hn3 & (l3 & Hl3 & Hs3) & _ & Hd3 & Hpend3).
  set (s3 := rearm (probed s2')) in *.
  change (clock s2') with (clock s2) in *. change (log s2') with (log s2) in *.
  change (nodes s2') with (nodes s2) in *.
  change (notesContainer s2') with (notesContainer s2) in *.
  exists s2, s3, (next_handle s2'). split_and!; try done.
  { apply Hfire. rewrite Hclock2. cbn. lia. }
  { rewrite Hpend3. by rewrite Hclock2. }
  intros d Hd.
  assert (notesContainer s3 = Some c) as Hcs3 by (rewrite Hcont3, Hcont2; exact Hc).
  destruct (save_fires s3 _ c d Hwf3 Hcs3 Hpend3) as [_ Hsave];
    [unfold debounceDelay in Hd; lia|].
  destruct Hsave as (s4 & l4 & Hrun & Hl4 & Hq & _).
  { cbn [t_due]. rewrite Hc3. lia. }
  exists s4. split; [done|].
  rewrite Hc3, Hn3, Hl3, Hlog2, Hclock2, Hn2 in Hl4. cbn in Hl4.
  rewrite <- !app_assoc in Hl4.
  rewrite (new_log_app _ _ _ Hl4), !saves_app, Hs3.
  replace (saves [(clock s, E_setTimeout (next_handle s) PasteCb 0)])
    with (@nil (Z * Effect)) by done.
  replace (saves l2) with (@nil (Z * Effect))
    by (rewrite Hl2; cbn; by destruct (debounceTimer s)).
  cbn [app]. unfold saves.
  rewrite filter_cons_True by done. rewrite filter_none; [done|].
  eapply Forall_impl; [exact Hq|]. cbn. intros e [He _]. by rewrite He.
Qed.

(** ** The debounce discipline in every run (lines 56-76 with all callers) *)

Lemma watch_step_quiet (w : Watch) (e : Z * Effect) : quiet e → watch_step w e = w.
Proof. intros [Hs Hr]. unfold watch_step. by rewrite Hr, Hs. Qed.

Lemma watch_app_quiet (l0 l : list (Z * Effect)) :
  Forall quiet l → watch (l0 ++ l) = watch l0.
Proof.
  intros Hq. unfold watch. rewrite foldl_app.
  generalize (foldl watch_step {| w_last := None; w_armed := false; w_ok := true |} l0).
  induction Hq as [|e l He _ IH]; intros w; cbn; [done|].
  by rewrite watch_step_quiet.
Qed.

Lemma watch_snoc (l : list (Z * Effect)) (e : Z * Effect) :
  watch (l ++ [e]) = watch_step (watch l) e.
Proof. unfold watch. by rewrite foldl_snoc. Qed.

Lemma watch_step_ok (w : Watch) (e : Z * Effect) :
  w_ok (watch_step w e) = true → w_ok w = true.
Proof.
  unfold watch_step. destruct (is_request e); [done|].
  destruct (is_save e); [|done]. cbn.
  intros Hok. apply andb_prop in Hok as [Hok _]. by apply andb_prop in Hok as [Hok _].
Qed.

Lemma watch_ok_prefix (l1 l2 : list (Z * Effect)) :
  w_ok (watch (l1 ++ l2)) = true → w_ok (watch l1) = true.
Proof.
  induction l2 as [|e l2 IH] using rev_ind.
  - by rewrite app_nil_r.
  - rewrite app_assoc, watch_snoc. intros Hok. by apply IH, watch_step_ok with e.
Qed.

(** A log whose latest request still waits for its write ends in that
    request followed by quiet entries only. *)
Lemma watch_armed_inv (l : list (Z * Effect)) :
  w_armed (watch l) = true →
  ∃ la r h d lb, l = la ++ (r, E_setTimeout h SaveCb d) :: lb ∧
                 Forall quiet lb ∧ w_last (watch l) = Some r.
Proof.
  induction l as [|e l IH] using rev_ind; [done|].
  rewrite watch_snoc. unfold watch_step.
  destruct (is_request e) eqn:Hr.
  - intros _. destruct e as [r eff]. unfold is_request in Hr. cbn in Hr.
    destruct eff as [| | |h cb d| | | | | | | |]; try done. destruct cb; [|done].
    exists l, r, h, d, []. split_and!; [done|constructor|done].
  - destruct (is_save e) eqn:Hs; [done|]. intros Harmed.
    destruct (IH Harmed) as (la & r & h & d & lb & -> & Hq & Hlast).
    exists la, r, h, d, (lb ++ [e]). split_and!.
    + by rewrite <- app_assoc.
    + apply Forall_app. split; [done|]. by repeat constructor.
    + done.
Qed.

(** Under the timer discipline at most one save timer is pending. *)
Lemma pending_at_most_one (s : State) (t : Timer) :
  timers_wf s → t ∈ pending_saves s → pending_saves s = [t].
Proof.
  intros [Hnd _ Hslot _] Hin.
  assert (∀ x, x ∈ pending_saves s → x = t) as Hsame.
  { intros x Hx. apply list_elem_of_filter in Hx as [Hxcb Hx].
    apply list_elem_of_filter in Hin as [Htcb Ht].
    rewrite Forall_forall in Hslot.
    pose proof (Hslot x Hx Hxcb) as H1. pose proof (Hslot t Ht Htcb) as H2.
    eapply handle_inj; [exact Hnd|done|done|congruence]. }
  assert (NoDup (pending_saves s)) as Hnd'.
  { apply NoDup_filter. by eapply NoDup_fmap_1. }
  destruct (pending_saves s) as [|x l] eqn:Hl; [by apply elem_of_nil in Hin|].
  assert (x = t) as -> by (apply Hsame; left).
  destruct l as [|y l]; [done|].
  assert (y = t) as -> by (apply Hsame; right; left).
  apply NoDup_cons in Hnd' as [Hnotin _]. destruct Hnotin. left.
Qed.

Lemma inv_frame (s s' : State) (l : list (Z * Effect)) :
  timers s' = timers s → next_handle s' = next_handle s →
  debounceTimer s' = debounceTimer s → log s' = log s ++ l → Forall quiet l →
  debounce_inv s → debounce_inv s'.
Proof.
  intros Ht Hn Hd Hl Hq (Hwf & Hok & Hpend).
  unfold debounce_inv, timers_wf, pending_saves.
  rewrite Ht, Hn, Hd, Hl, watch_app_quiet by done. done.
Qed.

Lemma probed_inv (s : State) : debounce_inv s → debounce_inv (probed s).
Proof.
  destruct (probed_frame s) as (_ & Ht & Hn & _ & _ & _ & _ & _ & _ & Hd & _).
  destruct (probed_log s) as (l & Hl & Hall).
  apply (inv_frame s (probed s) l); try done.
  eapply Forall_impl; [exact Hall|]. cbn.
  intros [t e] [_ [He|He]]; cbn in *; subst e; done.
Qed.

Lemma rearm_inv (s : State) : debounce_inv s → debounce_inv (rearm s).
Proof.
  intros (Hwf & Hok & _). split_and!.
  - by apply rearm_wf.
  - rewrite rearm_log, app_assoc, watch_snoc, watch_app_quiet.
    + done.
    + destruct (debounceTimer s); repeat constructor.
  - intros t Ht. rewrite (rearm_pending s Hwf) in Ht.
    apply list_elem_of_singleton in Ht. subst t.
    rewrite rearm_log, app_assoc, watch_snoc. cbn.
    split; [done|]. f_equal. lia.
Qed.

Lemma updateStorage_inv (s : State) :
  debounce_inv s → debounce_inv (settle (updateStorage s)).
Proof.
  intros Hinv. rewrite updateStorage_eq. cbn [settle].
  destruct (probe_ok (localStorage s)).
  - by apply rearm_inv, probed_inv.
  - by apply probed_inv.
Qed.

Lemma without_inv (s : State) (h : positive) :
  debounce_inv s → debounce_inv (without h s).
Proof.
  intros (Hwf & Hok & Hpend). split_and!.
  - by apply without_wf.
  - done.
  - intros t Ht. apply Hpend. unfold pending_saves in *. cbn in Ht.
    rewrite filter_comm in Ht. by apply list_elem_of_filter in Ht as [_ Ht].
Qed.

(** The save callback, run for the one pending save timer once it is due. *)
Lemma save_callback_inv (s : State) (t : Timer) :
  debounce_inv s → t ∈ pending_saves s → t_due t ≤ clock s →
  debounce_inv (settle (save_callback (without (t_handle t) s))).
Proof.
  intros (Hwf & Hok & Hpend) Hin Hdue.
  destruct (Hpend t Hin) as [Harmed Hlast].
  pose proof (pending_at_most_one s t Hwf Hin) as Hone.
  set (s0 := without (t_handle t) s).
  assert (pending_saves s0 = []) as Hnone.
  { unfold pending_saves, s0. cbn. rewrite filter_comm.
    fold (pending_saves s). rewrite Hone.
    by rewrite filter_cons_False by (intros Hne; by apply Hne). }
  destruct (save_callback_frame s0) as (s' & Heq & _ & Ht' & Hn' & Hd' & _).
  rewrite Heq. cbn [settle].
  assert (pending_saves s' = []) as Hnone' by (unfold pending_saves; by rewrite Ht').
  split_and!.
  - unfold timers_wf. rewrite Ht', Hn', Hd'. by apply without_wf.
  - destruct (notesContainer s0) as [c|] eqn:Hc.
    + destruct (save_callback_log s0 c Hc) as (l & Hl & Hq).
      rewrite Heq in Hl. cbn [final_state] in Hl.
      rewrite Hl, cons_middle, app_assoc, watch_app_quiet by done.
      rewrite watch_snoc. change (log s0) with (log s). change (clock s0) with (clock s).
      unfold watch_step. cbn. rewrite Hok, Harmed, Hlast. cbn.
      apply bool_decide_eq_true. lia.
    + revert Heq. js_unfold. rewrite Hc. cbn. intros [= <-]. cbn.
      rewrite watch_snoc. by rewrite watch_step_quiet.
  - intros x Hx. rewrite Hnone' in Hx. by apply elem_of_nil in Hx.
Qed.

Lemma createNote_inv (s : State) :
  debounce_inv s → debounce_inv (settle (createNote s)).
Proof.
  intros Hinv.
  unfold createNote, createDocumentFragment, createElement, alloc_node, set_className,
    set_contentEditable, set_src, set_alt, setAttribute, update_node, appendChild, focus,
    this_notesContainer, Date_now, gets, modify, mbind, Js_bind.
  cbn. destruct (notesContainer s); cbn.
  - apply updateStorage_inv.
    eapply (inv_frame s _ [_]); try done; try reflexivity; by repeat constructor.
  - eapply (inv_frame s _ [_]); try done; try reflexivity; by repeat constructor.
Qed.

Lemma handleNotesClick_inv (s : State) (target : node_id) :
  debounce_inv s → debounce_inv (settle (handleNotesClick target s)).
Proof.
  intros Hinv. unfold handleNotesClick, get_node, gets, mbind, Js_bind.
  destruct (_ && _); [|done].
  unfold preventDefault, parentElement, modify, deleteNote, remove, mbind, Js_bind. cbn.
  match goal with |- context [match ?o with Some _ => _ | None => _ end] =>
    destruct o end.
  - apply updateStorage_inv.
    eapply (inv_frame s _ [_]); try done; try reflexivity; by repeat constructor.
  - eapply (inv_frame s _ [_]); try done; try reflexivity; by repeat constructor.
Qed.

Lemma handleNotesInput_inv (s : State) (target : node_id) :
  debounce_inv s → debounce_inv (settle (handleNotesInput target s)).
Proof.
  intros Hinv. unfold handleNotesInput, get_node, gets, mbind, Js_bind.
  destruct (classList_contains _ _); [|done].
  by apply updateStorage_inv.
Qed.

Lemma handleNotesPaste_inv (s : State) (target : node_id) :
  debounce_inv s → debounce_inv (settle (handleNotesPaste target s)).
Proof.
  intros (Hwf & Hok & Hpend).
  pose proof (handleNotesPaste_wf s target Hwf) as Hwf'.
  revert Hwf'. unfold handleNotesPaste, setTimeout, mbind, Js_bind, mret, Js_ret. cbn.
  intros Hwf'. split_and!; [done| |].
  - cbn. rewrite watch_snoc. by rewrite watch_step_quiet.
  - unfold pending_saves. cbn. rewrite filter_app.
    replace (filter _ [_]) with (@nil Timer) by done. rewrite app_nil_r.
    intros t Ht. rewrite watch_snoc, watch_step_quiet by done. by apply Hpend.
Qed.

Lemma step_inv (s s' : State) (ev : Event) :
  debounce_inv s → step s ev = Some s' → debounce_inv s'.
Proof.
  intros Hinv Hstep. destruct ev; cbn in Hstep.
  - destruct (decide (0 ≤ dt)); [|done]. by injection Hstep as <-.
  - change (step s (Ev_timer h) = Some s') in Hstep.
    apply step_timer_inv in Hstep as (t & Ht & <- & Hdue & ->).
    destruct (t_cb t) eqn:Hcb; cbn [run_callback].
    + apply save_callback_inv; try done. by apply list_elem_of_filter.
    + by apply updateStorage_inv, without_inv.
  - injection Hstep as <-. by apply updateStorage_inv.
  - destruct (listening s); [|done]. injection Hstep as <-.
    by apply (createNote_inv (with_defaultPrevented false s)).
  - destruct (bubbles s target); [|done]. injection Hstep as <-.
    by apply (handleNotesClick_inv (with_defaultPrevented false s)).
  - destruct (bubbles s target); [|done]. injection Hstep as <-.
    by apply (handleNotesInput_inv (with_defaultPrevented false s)).
  - destruct (bubbles s target); [|done]. injection Hstep as <-.
    pose proof (handleNotesPaste_inv (with_defaultPrevented false s) target Hinv) as Hinv'.
    fold (dispatch (handleNotesPaste target) s) in Hinv'.
    destruct (defaultPrevented (dispatch (handleNotesPaste target) s)); exact Hinv'.
  - by injection Hstep as <-.
  - by injection Hstep as <-.
Qed.

Lemma run_inv (evs : list Event) (s s' : State) :
  debounce_inv s → run s evs = Some s' → debounce_inv s'.
Proof.
  revert s. induction evs as [|ev evs IH]; intros s Hinv Hrun.
  - by injection Hrun as <-.
  - cbn in Hrun. destruct (step s ev) as [s1|] eqn:Hstep; [|done].
    eapply IH; [|exact Hrun]. by eapply step_inv.
Qed.

(** The constructor arms no timer and logs neither a request nor a write. *)
Lemma constructor_quiet (page : State) (container btn : option node_id) :
  ∃ s l, constructor container btn page = Normal tt s ∧
    log s = log page ++ l ∧ Forall quiet l ∧ timers s = timers page ∧
    probe_ok (localStorage s) = probe_ok (localStorage page).
Proof.
  unfold constructor, init, mbind, Js_bind, modify, gets. cbn.
  destruct (negb _ || negb _).
  { eexists _, [_]. split; [done|]. split_and!; try done. repeat constructor. }
  pose proof (probed_probe_ok
    {| clock := clock page; timers := timers page;
       next_handle := next_handle page; localStorage := localStorage page;
       nodes := nodes page; next_node := next_node page;
       activeElement := activeElement page;
       defaultPrevented := defaultPrevented page; log := log page;
       notesContainer := container; createBtn := btn;
       debounceTimer := None; listening := false |}) as Hprobe.
  rewrite isLocalStorageAvailable_eq.
  set (s0 := {| clock := clock page; timers := timers page;
                next_handle := next_handle page; localStorage := localStorage page;
                nodes := nodes page; next_node := next_node page;
                activeElement := activeElement page;
                defaultPrevented := defaultPrevented page; log := log page;
                notesContainer := container; createBtn := btn;
                debounceTimer := None; listening := false |}).
  destruct (probed_frame s0) as (_ & Htimers & _).
  destruct (probed_log s0) as (lp & Hlp & Hallp).
  assert (Forall quiet lp) as Hquietp.
  { eapply Forall_impl; [exact Hallp|]. cbn.
    intros [t e] [_ [He|He]]; cbn in *; subst e; done. }
  change (log s0) with (log page) in Hlp. change (timers s0) with (timers page) in Htimers.
  destruct (negb (probe_ok (localStorage s0))); cbn.
  - match goal with |- context [loadNotes ?x] =>
      destruct (loadNotes_frame x) as (s' & l & -> & Hl & Hq & _ & Ht' & _ & _ & Hm' & _) end.
    cbn in Hl, Ht', Hm'. cbn. eexists _, (lp ++ [_] ++ l). split; [done|]. cbn.
    split_and!.
    + by rewrite Hl, Hlp, <- !app_assoc.
    + cbn [app]. apply Forall_app. split; [done|]. constructor; [done|].
      eapply Forall_impl; [exact Hq|]. by intros e [? _].
    + congruence.
    + by rewrite Hm'.
  - destruct (loadNotes_frame (probed s0))
      as (s' & l & -> & Hl & Hq & _ & Ht' & _ & _ & Hm' & _).
    cbn. eexists _, (lp ++ l). split; [done|]. cbn. split_and!.
    + by rewrite Hl, Hlp, <- !app_assoc.
    + rewrite !Forall_app. split; [done|].
      eapply Forall_impl; [exact Hq|]. by intros e [? _].
    + congruence.
    + by rewrite Hm'.
Qed.

Lemma constructor_inv (page : State) (container btn : option node_id) :
  timers page = [] → Forall quiet (log page) →
  debounce_inv (final_state (constructor container btn page)).
Proof.
  intros Ht Hq. pose proof (constructor_wf page container btn Ht) as Hwf.
  destruct (constructor_quiet page container btn) as (s & l & Heq & Hl & Hql & Hts & _).
  rewrite Heq in *. cbn [final_state] in *. split_and!; [done| |].
  - rewrite Hl. rewrite <- (app_nil_l (log page ++ l)).
    rewrite watch_app_quiet; [done|]. by apply Forall_app.
  - unfold pending_saves. rewrite Hts, Ht. intros t Hin. by apply elem_of_nil in Hin.
Qed.

(** X11.  In every state the application can reach from its construction on
    a page without timers, under any sequence of events, at most one save
    timer is pending, and [this.debounceTimer] holds its handle. *)
Theorem X11_at_most_one_pending_save (page : State) (container btn : option node_id)
    (evs : list Event) (s : State) :
  timers page = [] →
  run (final_state (constructor container btn page)) evs = Some s →
  pending_saves s = [] ∨
  ∃ t, pending_saves s = [t] ∧ debounceTimer s = Some (t_handle t).
Proof.
  intros Ht Hrun.
  pose proof (run_wf _ _ _ (constructor_wf page container btn Ht) Hrun) as Hwf.
  destruct (pending_saves s) as [|t l] eqn:Hpend; [by left|right].
  assert (t ∈ pending_saves s) as Hin by (rewrite Hpend; left).
  exists t. rewrite <- Hpend. split; [by apply pending_at_most_one|].
  apply list_elem_of_filter in Hin as [Hcb Hin].
  pose proof (wf_slot _ _ _ Hwf) as Hslot. rewrite Forall_forall in Hslot.
  by apply Hslot.
Qed.

(** X12.  Debouncing holds in every run, whatever the events and the medium
    do: each write of the snapshot in the log comes after a request, at
    least the quiet interval later, with neither a request nor another write
    of the snapshot in between. *)
Theorem X12_every_write_is_debounced (page : State) (container btn : option node_id)
    (evs : list Event) (s : State) (l1 l2 : list (Z * Effect)) (T : Z) (v : string) :
  timers page = [] → Forall quiet (log page) →
  run (final_state (constructor container btn page)) evs = Some s →
  log s = l1 ++ (T, E_setItem snapshot_key v) :: l2 →
  ∃ la R h d lb, l1 = la ++ (R, E_setTimeout h SaveCb d) :: lb ∧
                 Forall quiet lb ∧ R + debounceDelay ≤ T.
Proof.
  intros Ht Hq Hrun Hlog.
  destruct (run_inv _ _ _ (constructor_inv page container btn Ht Hq) Hrun) as (_ & Hok & _).
  rewrite Hlog, cons_middle, app_assoc in Hok.
  apply watch_ok_prefix in Hok. rewrite watch_snoc in Hok.
  unfold watch_step in Hok. cbn in Hok.
  apply andb_prop in Hok as [Hok Hcheck]. apply andb_prop in Hok as [_ Harmed].
  destruct (watch_armed_inv l1 Harmed) as (la & R & h & d & lb & Hl1 & Hqb & Hlast).
  rewrite Hlast in Hcheck. apply bool_decide_eq_true in Hcheck.
  by exists la, R, h, d, lb.
Qed.

(** ** Creating and deleting (lines 79-118, 147-155) *)

Lemma filter_all {A} (P : A → Prop) `{∀ x, Decision (P x)} (l : list A) :
  Forall P l → filter P l = l.
Proof.
  induction 1 as [|x l Hx _ IH]; [done|].
  by rewrite filter_cons_True, IH.
Qed.

(** X13.  Deleting the note just created undoes the creation: a click on the
    delete control of the new note leaves the Document Tree, and every node
    that existed before, exactly as they were before createNote. *)
Theorem X13_create_then_delete (s : State) (c : node_id) (cn : Node) :
  notesContainer s = Some c → nodes s !! c = Some cn → nodes_fresh s →
  (∀ k, k ∈ childNodes cn → is_Some (nodes s !! k)) →
  ∃ s1 s2, createNote s = Normal tt s1 ∧
    handleNotesClick (Pos.succ (Pos.succ (next_node s))) s1 = Normal tt s2 ∧
    document_tree s2 = document_tree s ∧
    ∀ i, (i < next_node s)%positive → nodes s2 !! i = nodes s !! i.
Proof.
  intros Hc Hcn Hfr Hkids.
  pose proof (createNote_spec s c cn Hc Hcn Hfr) as Hspec. cbv zeta in Hspec.
  destruct Hspec as (s1 & Hcreate & _ & Hp1 & Himg1 & Hc1 & Hold1 & _ & _ & Hcont1 & _).
  set (p := Pos.succ (next_node s)) in *.
  assert (c < next_node s)%positive as Hlt.
  { destruct (decide (c < next_node s)%positive) as [|Hge]; [done|].
    rewrite Hfr in Hcn by lia. done. }
  assert (p ≠ c) as Hpc by lia.
  assert (handleNotesClick (Pos.succ p) s1 = updateStorage (note_removed s1 p)) as Hclick.
  { eapply handleNotesClick_delete; [|exact Himg1|done|exact Hp1|done].
    by rewrite (lookup_total_correct _ _ _ Himg1). }
  destruct (updateStorage_frame (note_removed s1 p))
    as (s2 & Hus & _ & Hn2 & _ & _ & _ & Hcont2).
  exists s1, s2. split; [done|]. split; [by rewrite Hclick|].
  assert (filter (λ x, x ≠ p) (childNodes cn ++ [p]) = childNodes cn) as Hfilter.
  { rewrite filter_app, filter_cons_False by (intros Hne; by apply Hne).
    rewrite filter_nil, app_nil_r. apply filter_all.
    apply Forall_forall. intros k Hk.
    destruct (decide (k < next_node s)%positive) as [|Hge]; [lia|].
    destruct (Hkids k Hk) as [nd Hnd]. rewrite Hfr in Hnd by lia. done. }
  assert (dom_remove p (nodes s1) !! c = Some cn) as Hc2.
  { unfold dom_remove. rewrite Hp1. cbn.
    rewrite lookup_alter_ne, lookup_alter_eq, Hc1 by done. cbn.
    rewrite Hfilter. by destruct cn. }
  change (nodes (note_removed s1 p)) with (dom_remove p (nodes s1)) in Hn2.
  change (notesContainer (note_removed s1 p)) with (notesContainer s1) in Hcont2.
  split.
  - unfold document_tree. rewrite Hcont2, Hcont1, Hc, Hn2.
    by rewrite (lookup_total_correct _ _ _ Hc2), (lookup_total_correct _ _ _ Hcn).
  - intros i Hi. rewrite Hn2. destruct (decide (i = c)) as [->|Hic].
    + by rewrite Hc2, Hcn.
    + destruct (dom_remove_child (nodes s1) p c _ _ Hp1 eq_refl Hc1) as (_ & Hother & _).
      rewrite Hother by (done || lia). by apply Hold1.
Qed.

(** ** What the application writes to the medium *)

Lemma same_foreign_keys_refl (m : Medium) : same_foreign_keys m m.
Proof. by split_and!. Qed.

Lemma same_foreign_keys_trans (m1 m2 m3 : Medium) :
  same_foreign_keys m1 m2 → same_foreign_keys m2 m3 → same_foreign_keys m1 m3.
Proof.
  intros (Hk & Hs & Hg & Hr) (Hk' & Hs' & Hg' & Hr'). split_and!; try congruence.
  intros k H1 H2. by rewrite Hk', Hk.
Qed.

Lemma probed_foreign (s : State) :
  same_foreign_keys (localStorage s) (localStorage (probed s)).
Proof.
  probed_cases s; split_and!; try done; intros k H1 H2; unfold with_items; cbn.
  - by rewrite lookup_insert_ne.
  - by rewrite lookup_delete_ne, lookup_insert_ne.
Qed.

Lemma updateStorage_foreign (s : State) :
  same_foreign_keys (localStorage s) (localStorage (settle (updateStorage s))).
Proof.
  rewrite updateStorage_eq. cbn [settle].
  destruct (probe_ok (localStorage s)); [|apply probed_foreign].
  destruct (rearm_frame (probed s)) as (_ & -> & _). apply probed_foreign.
Qed.

Lemma save_callback_foreign (s : State) :
  same_foreign_keys (localStorage s) (localStorage (settle (save_callback s))).
Proof.
  destruct (notesContainer s) as [c|] eqn:Hc.
  - rewrite (save_callback_eq s c Hc). cbn.
    destruct (set_fault _ _ _); cbn; [apply same_foreign_keys_refl|].
    split_and!; try done. intros k H1 H2. unfold with_items. cbn.
    by rewrite lookup_insert_ne.
  - js_unfold. rewrite Hc. cbn. apply same_foreign_keys_refl.
Qed.

Lemma createNote_foreign (s : State) :
  same_foreign_keys (localStorage s) (localStorage (settle (createNote s))).
Proof.
  unfold createNote, createDocumentFragment, createElement, alloc_node, set_className,
    set_contentEditable, set_src, set_alt, setAttribute, update_node, appendChild, focus,
    this_notesContainer, Date_now, gets, modify, mbind, Js_bind.
  cbn. destruct (notesContainer s); cbn; [|apply same_foreign_keys_refl].
  match goal with |- context [updateStorage ?x] => exact (updateStorage_foreign x) end.
Qed.

Lemma handleNotesClick_foreign (s : State) (target : node_id) :
  same_foreign_keys (localStorage s) (localStorage (settle (handleNotesClick target s))).
Proof.
  unfold handleNotesClick, get_node, gets, mbind, Js_bind.
  destruct (_ && _); [|apply same_foreign_keys_refl].
  unfold preventDefault, parentElement, modify, deleteNote, remove, mbind, Js_bind. cbn.
  match goal with |- context [match ?o with Some _ => _ | None => _ end] =>
    destruct o end; [|apply same_foreign_keys_refl].
  match goal with |- context [updateStorage ?x] => exact (updateStorage_foreign x) end.
Qed.

Lemma step_foreign (s s' : State) (ev : Event) :
  is_medium_change ev = false → step s ev = Some s' →
  same_foreign_keys (localStorage s) (localStorage s').
Proof.
  intros Hev Hstep. destruct ev; cbn in Hstep; try done.
  - destruct (decide (0 ≤ dt)); [|done]. injection Hstep as <-.
    apply same_foreign_keys_refl.
  - change (step s (Ev_timer h) = Some s') in Hstep.
    apply step_timer_inv in Hstep as (t & _ & _ & _ & ->).
    destruct (t_cb t); cbn [run_callback].
    + exact (save_callback_foreign (without h s)).
    + exact (updateStorage_foreign (without h s)).
  - injection Hstep as <-. apply updateStorage_foreign.
  - destruct (listening s); [|done]. injection Hstep as <-.
    exact (createNote_foreign (with_defaultPrevented false s)).
  - destruct (bubbles s target); [|done]. injection Hstep as <-.
    exact (handleNotesClick_foreign (with_defaultPrevented false s) target).
  - destruct (bubbles s target); [|done]. injection Hstep as <-.
    unfold dispatch, handleNotesInput, get_node, gets, mbind, Js_bind.
    destruct (classList_contains _ _); [|apply same_foreign_keys_refl].
    exact (updateStorage_foreign (with_defaultPrevented false s)).
  - destruct (bubbles s target); [|done]. injection Hstep as <-.
    apply same_foreign_keys_refl.
  - injection Hstep as <-. apply same_foreign_keys_refl.
Qed.

(** X14.  The application writes and removes nothing but its own two keys.
    Over any run in which the medium is not changed from outside, every key
    other than ["test"] and ["notes"] keeps its value. *)
Theorem X14_foreign_keys_untouched (s s' : State) (evs : list Event) :
  Forall (λ ev, is_medium_change ev = false) evs → run s evs = Some s' →
  ∀ k, k ≠ "test" → k ≠ snapshot_key →
       items (localStorage s') !! k = items (localStorage s) !! k.
Proof.
  intros Hevs Hrun.
  enough (same_foreign_keys (localStorage s) (localStorage s')) as [Hk _] by exact Hk.
  revert s Hrun. induction Hevs as [|ev evs Hev _ IH]; intros s Hrun.
  - injection Hrun as <-. apply same_foreign_keys_refl.
  - cbn in Hrun. destruct (step s ev) as [s1|] eqn:Hstep; [|done].
    eapply same_foreign_keys_trans; [by eapply step_foreign|by apply IH].
Qed.

(** ** Typing (lines 158-165) *)

(** X15.  An input event is acted upon only when its target carries the class
    input-box.  After an edit, an input on such a target arms the save timer
    and writes nothing yet; once the quiet interval has passed the snapshot
    written is the edited tree.  An input on any other element of the
    container requests nothing. *)
Theorem X15_typing_is_saved (s : State) (c target : node_id)
    (after : gmap node_id Node * node_id) :
  timers_wf s → notesContainer s = Some c → probe_ok (localStorage s) = true →
  bubbles (with_nodes after.1 after.2 s) target = true →
  (classList_contains (after.1 !!! target) "input-box" = false →
   run s [Ev_edit after; Ev_input target] =
   Some (with_defaultPrevented false (with_nodes after.1 after.2 s))) ∧
  (classList_contains (after.1 !!! target) "input-box" = true →
   ∃ s1 h, run s [Ev_edit after; Ev_input target] = Some s1 ∧
     debounceTimer s1 = Some h ∧ saves (new_log s s1) = [] ∧
     ∀ d, debounceDelay ≤ d →
       ∃ s2, run s1 [Ev_advance d; Ev_timer h] = Some s2 ∧
             saves (new_log s s2) =
               [(clock s + d, E_setItem snapshot_key (serialize_children after.1 c))] ∧
             pending_saves s2 = []).
Proof.
  intros Hwf Hc Hp Hb.
  set (s0 := with_defaultPrevented false (with_nodes after.1 after.2 s)).
  assert (∀ b, classList_contains (after.1 !!! target) "input-box" = b →
            run s [Ev_edit after; Ev_input target] =
            Some (if b then settle (updateStorage s0) else s0)) as Hrun.
  { intros b Hcls. cbn -[bubbles]. rewrite Hb.
    unfold dispatch, handleNotesInput, get_node, gets, mbind, Js_bind. cbn -[bubbles].
    rewrite Hcls. by destruct b. }
  split; intros Hcls; [by rewrite (Hrun _ Hcls)|].
  rewrite (Hrun _ Hcls).
  assert (timers_wf s0) as Hwf0 by done.
  assert (probe_ok (localStorage s0) = true) as Hp0 by done.
  rewrite (request_eq _ Hp0).
  destruct (request_establishes _ Hwf0 Hp0)
    as (Hwf1 & _ & Hc1 & Hcont1 & Hn1 & (l1 & Hl1 & Hs1) & _ & Hd1 & Hpend1).
  set (s1 := rearm (probed s0)) in *.
  change (log s0) with (log s) in Hl1. change (clock s0) with (clock s) in *.
  change (nodes s0) with after.1 in Hn1.
  change (notesContainer s0) with (notesContainer s) in Hcont1.
  exists s1, (next_handle s0). split_and!; try done.
  { by rewrite (new_log_app _ _ _ Hl1). }
  intros d Hd.
  assert (notesContainer s1 = Some c) as Hcs1 by congruence.
  destruct (save_fires s1 _ c d Hwf1 Hcs1 Hpend1) as [_ Hsave];
    [unfold debounceDelay in Hd; lia|].
  destruct Hsave as (s2 & l2 & Hrun2 & Hl2 & Hq & Hpend2 & _).
  { cbn [t_due]. rewrite Hc1. lia. }
  exists s2. split; [done|]. split; [|done].
  rewrite Hc1, Hn1, Hl1 in Hl2. rewrite <- app_assoc in Hl2.
  rewrite (new_log_app _ _ _ Hl2), saves_app, Hs1. cbn [app]. unfold saves.
  rewrite filter_cons_True by done. rewrite filter_none; [done|].
  eapply Forall_impl; [exact Hq|]. cbn. intros e [He _]. by rewrite He.
Qed.

(** ** A medium that fails the probe (lines 56-57 with all callers) *)

Lemma dormant_frame (s s' : State) (l : list (Z * Effect)) :
  timers s' = timers s → probe_ok (localStorage s') = probe_ok (localStorage s) →
  log s' = log s ++ l → Forall quiet l → dormant s → dormant s'.
Proof.
  intros Ht Hp Hl Hq (Hprobe & Hpend & Hlog). unfold dormant, pending_saves.
  rewrite Ht, Hp, Hl. split_and!; [done|done|]. by apply Forall_app.
Qed.

Lemma updateStorage_dormant (s : State) :
  dormant s → dormant (settle (updateStorage s)).
Proof.
  intros Hd. rewrite updateStorage_eq. cbn [settle].
  destruct Hd as (Hp & Hd). rewrite Hp.
  destruct (probed_frame s) as (_ & Ht & _).
  destruct (probed_log s) as (l & Hl & Hall).
  apply (dormant_frame s (probed s) l); try done.
  - apply probed_probe_ok.
  - eapply Forall_impl; [exact Hall|]. cbn.
    intros [t e] [_ [He|He]]; cbn in *; subst e; done.
Qed.

Lemma step_dormant (s s' : State) (ev : Event) :
  is_medium_change ev = false → dormant s → step s ev = Some s' → dormant s'.
Proof.
  intros Hev Hd Hstep. destruct ev; cbn in Hstep; try done.
  - destruct (decide (0 ≤ dt)); [|done]. by injection Hstep as <-.
  - change (step s (Ev_timer h) = Some s') in Hstep.
    apply step_timer_inv in Hstep as (t & Ht & _ & _ & ->).
    destruct Hd as (Hp & Hpend & Hlog).
    destruct (t_cb t) eqn:Hcb.
    { assert (t ∈ pending_saves s) as Hin by (by apply list_elem_of_filter).
      rewrite Hpend in Hin. by apply elem_of_nil in Hin. }
    cbn [run_callback]. apply updateStorage_dormant. split_and!; [done| |done].
    unfold pending_saves. cbn. rewrite filter_comm. fold (pending_saves s).
    by rewrite Hpend.
  - injection Hstep as <-. by apply updateStorage_dormant.
  - destruct (listening s); [|done]. injection Hstep as <-.
    unfold dispatch, createNote, createDocumentFragment, createElement, alloc_node,
      set_className, set_contentEditable, set_src, set_alt, setAttribute, update_node,
      appendChild, focus, this_notesContainer, Date_now, gets, modify, mbind, Js_bind.
    cbn. destruct (notesContainer s); cbn.
    + apply updateStorage_dormant.
      eapply (dormant_frame s _ [_]); try done; try reflexivity; by repeat constructor.
    + eapply (dormant_frame s _ [_]); try done; try reflexivity; by repeat constructor.
  - destruct (bubbles s target); [|done]. injection Hstep as <-.
    unfold dispatch, handleNotesClick, get_node, gets, mbind, Js_bind.
    destruct (_ && _); [|done].
    unfold preventDefault, parentElement, modify, deleteNote, remove, mbind, Js_bind. cbn.
    match goal with |- context [match ?o with Some _ => _ | None => _ end] =>
      destruct o end.
    + apply updateStorage_dormant.
      eapply (dormant_frame s _ [_]); try done; try reflexivity; by repeat constructor.
    + eapply (dormant_frame s _ [_]); try done; try reflexivity; by repeat constructor.
  - destruct (bubbles s target); [|done]. injection Hstep as <-.
    unfold dispatch, handleNotesInput, get_node, gets, mbind, Js_bind.
    destruct (classList_contains _ _); [|done].
    by apply (updateStorage_dormant (with_defaultPrevented false s)).
  - destruct (bubbles s target); [|done]. injection Hstep as <-.
    destruct Hd as (Hp & Hpend & Hlog).
    unfold dispatch, handleNotesPaste, setTimeout, mbind, Js_bind, mret, Js_ret. cbn.
    split_and!; [done| |].
    + unfold pending_saves in *. cbn. rewrite filter_app, Hpend. done.
    + cbn. apply Forall_app. split; [done|]. by repeat constructor.
  - by injection Hstep as <-.
Qed.

(** X16.  On a medium that fails the probe the application stays silent for
    good.  From its construction on, under any events that leave the medium
    as it is, no save timer is ever armed and the log never holds a request
    or a write of the snapshot. *)
Theorem X16_failing_medium_is_never_written (page : State) (container btn : option node_id)
    (evs : list Event) (s : State) :
  timers page = [] → Forall quiet (log page) → probe_ok (localStorage page) = false →
  Forall (λ ev, is_medium_change ev = false) evs →
  run (final_state (constructor container btn page)) evs = Some s →
  pending_saves s = [] ∧ saves (log s) = [] ∧ Forall quiet (log s).
Proof.
  intros Ht Hq Hp Hevs Hrun.
  enough (dormant s) as (_ & Hpend & Hlog).
  { split_and!; [done| |done]. apply filter_none.
    eapply Forall_impl; [exact Hlog|]. cbn. intros e [He _]. by rewrite He. }
  assert (dormant (final_state (constructor container btn page))) as Hstart.
  { destruct (constructor_quiet page container btn) as (s0 & l & -> & Hl & Hql & Hts & Hps).
    cbn [final_state]. unfold dormant, pending_saves.
    rewrite Hps, Hts, Ht, Hl. split_and!; [done|done|]. by apply Forall_app. }
  revert Hstart Hrun. generalize (final_state (constructor container btn page)).
  induction Hevs as [|ev evs Hev _ IH]; intros s0 Hd Hrun.
  - by injection Hrun as <-.
  - cbn in Hrun. destruct (step s0 ev) as [s1|] eqn:Hstep; [|done].
    apply (IH s1); [|exact Hrun]. by eapply step_dormant.
Qed.

End further.

(** * The further properties on the concrete page *)

Module MoreExamples.
Import Demo.

Ltac wf_by_computation :=
  split; vm_compute;
  [ apply NoDup_nil_2 | apply List.Forall_nil | apply List.Forall_nil
  | intros h Hh; discriminate Hh ].

Ltac by_computation := vm_compute; reflexivity.

(** The user's own "test" entry does not survive the probe; and on a medium
    that cannot remove, the probe leaves its own entry behind. *)
Lemma X2_witness :
  items (localStorage with_user_data) !! "test" = Some "my data" ∧
  items (localStorage (final_state (isLocalStorageAvailable with_user_data))) !! "test"
    = None ∧
  items (localStorage (page (sticky_medium ∅))) !! "test" = None ∧
  items (localStorage (final_state (isLocalStorageAvailable (page (sticky_medium ∅)))))
    !! "test" = Some "test".
Proof.
  split_and!.
  - by_computation.
  - apply (X2_probe_clobbers_test_key with_user_data). by_computation.
  - by_computation.
  - apply (X2_probe_clobbers_test_key (page (sticky_medium ∅))) with SecurityError;
      by_computation.
Defined.

(** The container is missing from the page. *)
Lemma X4_witness :
  (@None node_id = None ∨ Some 2%positive = @None node_id) ∧
  ∃ s, constructor None (Some 2%positive) (page (medium ∅)) = Normal tt s ∧
       listening s = false ∧ step s Ev_create = None ∧
       localStorage s = localStorage (page (medium ∅)).
Proof.
  assert (@None node_id = None ∨ Some 2%positive = @None node_id) as Hm by (by left).
  split; [exact Hm|].
  destruct (X4_constructor_without_elements (page (medium ∅)) None (Some 2%positive) Hm)
    as (s & Heq & _ & Hls & _ & _ & _ & Hl & Hcreate & _).
  by exists s.
Defined.

(** The medium is full: one warning, and the stored notes are restored. *)
Lemma X5_witness :
  ∃ s, constructor (Some 1%positive) (Some 2%positive)
         (page (full_medium {[ "notes" := "hello" ]})) = Normal tt s ∧
    listening s = true ∧
    filter (λ e, is_console_warn e = true)
      (new_log (page (full_medium {[ "notes" := "hello" ]})) s) =
      [(clock (page (full_medium {[ "notes" := "hello" ]})),
        E_console_warn "localStorage is not available. Notes will not persist.")] ∧
    (nodes s, next_node s) =
      parse_into "hello" 1%positive
        (nodes (page (full_medium {[ "notes" := "hello" ]})),
         next_node (page (full_medium {[ "notes" := "hello" ]}))).
Proof.
  destruct (X5_constructor_with_elements (page (full_medium {[ "notes" := "hello" ]}))
              1%positive 2%positive)
    as (s & Heq & Hl & _ & _ & _ & _ & Hw & _ & Hrestore).
  exists s. split_and!; [exact Heq|exact Hl|exact Hw|].
  apply Hrestore; [by_computation|by_computation|discriminate].
Defined.


(** The save callback on the page with one note. *)
Lemma X7_witness :
  notesContainer (one_note (medium ∅)) = Some 1%positive ∧
  set_fault (localStorage (one_note (medium ∅))) snapshot_key
    (serialize_children (nodes (one_note (medium ∅))) 1%positive) = None ∧
  ∃ s', save_callback (one_note (medium ∅)) = Normal tt s' ∧
    items (localStorage s') !! snapshot_key = Some "<P><IMG></IMG></P>" ∧
    new_log (one_note (medium ∅)) s' =
      [(clock (one_note (medium ∅)), E_setItem snapshot_key "<P><IMG></IMG></P>")].
Proof.
  assert (notesContainer (one_note (medium ∅)) = Some 1%positive) as Hc by by_computation.
  assert (set_fault (localStorage (one_note (medium ∅))) snapshot_key
            (serialize_children (nodes (one_note (medium ∅))) 1%positive) = None)
    as Hs by by_computation.
  split_and!; [exact Hc|exact Hs|].
  destruct (X7_save_callback_success _ _ Hc Hs) as (s' & Heq & Hi & _ & Hl & _).
  exists s'. split_and!; [exact Heq| |].
  - rewrite Hi. by_computation.
  - rewrite Hl. by_computation.
Defined.


(** destroy while the save timer of a burst is pending. *)
Lemma X9_witness :
  timers_wf after_burst ∧ length (pending_saves after_burst) = 1%nat ∧
  ∃ s', destroy after_burst = Normal tt s' ∧
    pending_saves s' = [] ∧ localStorage s' = localStorage after_burst ∧
    saves (new_log after_burst s') = [].
Proof.
  assert (timers_wf (started (medium ∅))) as Hwf0 by wf_by_computation.
  assert (run (started (medium ∅)) (Ev_updateStorage :: three_requests) = Some after_burst)
    as Hrun by by_computation.
  pose proof (run_wf _ _ _ Hwf0 Hrun) as Hwf.
  split_and!; [exact Hwf|by_computation|].
  destruct (X9_destroy_cancels_without_flushing _ Hwf)
    as (s' & Heq & Hp & Hm & Hs & _).
  exists s'. exact (conj Heq (conj Hp (conj Hm Hs))).
Defined.

(** A paste into the note, then destroy, then the host runs the callback. *)
Lemma X10_witness :
  timers_wf (one_note (medium ∅)) ∧ bubbles (one_note (medium ∅)) 3%positive = true ∧
  notesContainer (one_note (medium ∅)) = Some 1%positive ∧
  probe_ok (localStorage (one_note (medium ∅))) = true ∧
  ∃ s2 s3 hs,
    destroy (pasted (one_note (medium ∅)) note_edited) = Normal tt s2 ∧
    pending_saves s2 = [] ∧
    step s2 (Ev_timer (next_handle (one_note (medium ∅)))) = Some s3 ∧
    pending_saves s3 =
      [{| t_handle := hs; t_due := clock (one_note (medium ∅)) + debounceDelay;
          t_cb := SaveCb |}] ∧
    ∀ d, debounceDelay ≤ d →
      ∃ s4, run s3 [Ev_advance d; Ev_timer hs] = Some s4 ∧
            saves (new_log (one_note (medium ∅)) s4) =
              [(clock (one_note (medium ∅)) + d,
                E_setItem snapshot_key (serialize_children note_edited.1 1%positive))].
Proof.
  assert (timers_wf (one_note (medium ∅))) as Hwf by wf_by_computation.
  assert (bubbles (one_note (medium ∅)) 3%positive = true) as Hb by by_computation.
  assert (notesContainer (one_note (medium ∅)) = Some 1%positive) as Hc by by_computation.
  assert (probe_ok (localStorage (one_note (medium ∅))) = true) as Hp by by_computation.
  refine (conj Hwf (conj Hb (conj Hc (conj Hp _)))).
  exact (X10_destroy_leaves_paste_callback _ _ _ note_edited Hwf Hb Hc Hp).
Defined.

(** Two notes created 100 ms apart: one save timer is pending. *)
Lemma X11_witness :
  timers (page (medium ∅)) = [] ∧
  ∃ s, run (started (medium ∅)) [Ev_create; Ev_advance 100; Ev_create] = Some s ∧
    length (timers s) = 1%nat ∧
    (pending_saves s = [] ∨
     ∃ t, pending_saves s = [t] ∧ debounceTimer s = Some (t_handle t)).
Proof.
  assert (timers (page (medium ∅)) = []) as Ht by by_computation.
  split; [exact Ht|].
  eexists. split; [by_computation|]. split; [by_computation|].
  apply (X11_at_most_one_pending_save (page (medium ∅)) (Some 1%positive) (Some 2%positive)
           [Ev_create; Ev_advance 100; Ev_create]); [exact Ht|by_computation].
Defined.

(** The write of a created note, and the request it answers. *)
Lemma X12_witness :
  timers (page (medium ∅)) = [] ∧ Forall quiet (log (page (medium ∅))) ∧
  ∃ s, run (started (medium ∅)) create_and_save = Some s ∧
    log s = take 7 (log s) ++
            (1700000000300, E_setItem snapshot_key "<P><IMG></IMG></P>") :: [] ∧
    ∃ la R h d lb, take 7 (log s) = la ++ (R, E_setTimeout h SaveCb d) :: lb ∧
                   Forall quiet lb ∧ R + debounceDelay ≤ 1700000000300.
Proof.
  assert (timers (page (medium ∅)) = []) as Ht by by_computation.
  assert (Forall quiet (log (page (medium ∅)))) as Hq by constructor.
  refine (conj Ht (conj Hq _)).
  eexists. split; [by_computation|].
  match goal with |- ?L ∧ _ => assert L as Hlog by by_computation end.
  split; [exact Hlog|].
  exact (X12_every_write_is_debounced (page (medium ∅)) (Some 1%positive) (Some 2%positive)
           create_and_save _ _ _ _ _ Ht Hq ltac:(by_computation) Hlog).
Defined.

(** A second note is created on the page with one note, and deleted again. *)
Lemma X13_witness :
  notesContainer (one_note (medium ∅)) = Some 1%positive ∧
  nodes (one_note (medium ∅)) !! 1%positive =
    Some (element "DIV" "notes-container" None [3%positive]) ∧
  nodes_fresh (one_note (medium ∅)) ∧
  (∀ k, k ∈ childNodes (element "DIV" "notes-container" None [3%positive]) →
        is_Some (nodes (one_note (medium ∅)) !! k)) ∧
  ∃ s1 s2, createNote (one_note (medium ∅)) = Normal tt s1 ∧
    handleNotesClick (Pos.succ (Pos.succ (next_node (one_note (medium ∅))))) s1
      = Normal tt s2 ∧
    document_tree s2 = document_tree (one_note (medium ∅)) ∧
    ∀ i, (i < next_node (one_note (medium ∅)))%positive →
         nodes s2 !! i = nodes (one_note (medium ∅)) !! i.
Proof.
  assert (notesContainer (one_note (medium ∅)) = Some 1%positive) as Hc by by_computation.
  assert (nodes (one_note (medium ∅)) !! 1%positive =
            Some (element "DIV" "notes-container" None [3%positive])) as Hcn
    by by_computation.
  assert (nodes_fresh (one_note (medium ∅))) as Hfr.
  { assert (nodes (one_note (medium ∅)) =
            {[ 1%positive := element "DIV" "notes-container" None [3%positive];
               2%positive := element "BUTTON" "btn" None [];
               3%positive := element "P" "input-box" (Some 1%positive) [4%positive];
               4%positive := element "IMG" "delete-btn" (Some 3%positive) [] ]})
      as Hn by by_computation.
    assert (next_node (one_note (medium ∅)) = 5%positive) as Hx by by_computation.
    intros i Hi. rewrite Hx in Hi. rewrite Hn.
    rewrite !lookup_insert_ne by lia. apply lookup_singleton_ne. lia. }
  assert (∀ k, k ∈ childNodes (element "DIV" "notes-container" None [3%positive]) →
               is_Some (nodes (one_note (medium ∅)) !! k)) as Hk.
  { intros k Hin. apply list_elem_of_singleton in Hin. subst k.
    eexists. by_computation. }
  refine (conj Hc (conj Hcn (conj Hfr (conj Hk _)))).
  exact (X13_create_then_delete _ _ _ Hc Hcn Hfr Hk).
Defined.

(** The user's "prefs" entry outlives a note created and saved. *)
Lemma X14_witness :
  Forall (λ ev, is_medium_change ev = false) create_and_save ∧
  ∃ s', run (final_state (constructor (Some 1%positive) (Some 2%positive) with_user_data))
          create_and_save = Some s' ∧
    items (localStorage s') !! "notes" = Some "<P><IMG></IMG></P>" ∧
    items (localStorage s') !! "prefs" = Some "dark".
Proof.
  assert (Forall (λ ev, is_medium_change ev = false) create_and_save) as Hevs
    by (repeat constructor).
  split; [exact Hevs|].
  eexists. split; [by_computation|]. split; [by_computation|].
  etransitivity.
  - eapply (X14_foreign_keys_untouched
              (final_state (constructor (Some 1%positive) (Some 2%positive) with_user_data))
              _ create_and_save Hevs); [by_computation|discriminate|discriminate].
  - by_computation.
Defined.

(** The user types "hello" into the one note. *)
Lemma X15_witness :
  timers_wf (one_note (medium ∅)) ∧
  notesContainer (one_note (medium ∅)) = Some 1%positive ∧
  probe_ok (localStorage (one_note (medium ∅))) = true ∧
  bubbles (with_nodes note_edited.1 note_edited.2 (one_note (medium ∅))) 3%positive = true ∧
  classList_contains (note_edited.1 !!! 3%positive) "input-box" = true ∧
  ∃ s1 h, run (one_note (medium ∅)) [Ev_edit note_edited; Ev_input 3%positive] = Some s1 ∧
    debounceTimer s1 = Some h ∧ saves (new_log (one_note (medium ∅)) s1) = [] ∧
    ∀ d, debounceDelay ≤ d →
      ∃ s2, run s1 [Ev_advance d; Ev_timer h] = Some s2 ∧
            saves (new_log (one_note (medium ∅)) s2) =
              [(clock (one_note (medium ∅)) + d,
                E_setItem snapshot_key (serialize_children note_edited.1 1%positive))] ∧
            pending_saves s2 = [].
Proof.
  assert (timers_wf (one_note (medium ∅))) as Hwf by wf_by_computation.
  assert (notesContainer (one_note (medium ∅)) = Some 1%positive) as Hc by by_computation.
  assert (probe_ok (localStorage (one_note (medium ∅))) = true) as Hp by by_computation.
  assert (bubbles (with_nodes note_edited.1 note_edited.2 (one_note (medium ∅))) 3%positive
          = true) as Hb by by_computation.
  assert (classList_contains (note_edited.1 !!! 3%positive) "input-box" = true)
    as Hcls by by_computation.
  refine (conj Hwf (conj Hc (conj Hp (conj Hb (conj Hcls _))))).
  exact (proj2 (X15_typing_is_saved _ _ _ note_edited Hwf Hc Hp Hb) Hcls).
Defined.

(** A note created and typed into on a full medium: nothing is written. *)
Lemma X16_witness :
  timers (page (full_medium ∅)) = [] ∧ Forall quiet (log (page (full_medium ∅))) ∧
  probe_ok (localStorage (page (full_medium ∅))) = false ∧
  Forall (λ ev, is_medium_change ev = false)
    [Ev_create; Ev_input 4%positive; Ev_advance 300] ∧
  ∃ s, run (started (full_medium ∅)) [Ev_create; Ev_input 4%positive; Ev_advance 300]
         = Some s ∧
    document_tree s = [4%positive] ∧
    pending_saves s = [] ∧ saves (log s) = [] ∧ Forall quiet (log s).
Proof.
  assert (timers (page (full_medium ∅)) = []) as Ht by by_computation.
  assert (Forall quiet (log (page (full_medium ∅)))) as Hq by constructor.
  assert (probe_ok (localStorage (page (full_medium ∅))) = false) as Hp by by_computation.
  assert (Forall (λ ev, is_medium_change ev = false)
            [Ev_create; Ev_input 4%positive; Ev_advance 300]) as Hevs
    by (repeat constructor).
  refine (conj Ht (conj Hq (conj Hp (conj Hevs _)))).
  eexists. split; [by_computation|]. split; [by_computation|].
  apply (X16_failing_medium_is_never_written (page (full_medium ∅))
           (Some 1%positive) (Some 2%positive)
           [Ev_create; Ev_input 4%positive; Ev_advance 300]);
    [exact Ht|exact Hq|exact Hp|exact Hevs|by_computation].
Defined.

End MoreExamples.
